(** * go-service-s3: a shallow embedding of the storage adapter

    The development follows [utils.go] and [storage.go] of the S3 storage
    service.  Go values are modelled as follows.

    - [int64] and [int] (64-bit) are [Z] with the two's-complement wrap-around
      written out ([wrap64]);
    - [string] is [String.string] (a sequence of bytes), [[]byte] is
      [list byte];
    - a pointer field of an SDK struct ([*string], [*int64], [*bool]) is an
      [option]; dereferencing [nil] panics;
    - the [error] interface is the inductive [error]; a Go [error] result is
      an [option error] with [None] for [nil];
    - a call of the S3 client is a transition of an abstract backend that is
      also appended to a log of calls. *)

From Stdlib Require Import ZArith List String Ascii Bool Lia.
From Stdlib Require Import Strings.Byte DecimalString.
Import ListNotations.

Local Open Scope string_scope.
Local Open Scope list_scope.
Local Open Scope Z_scope.

Set Implicit Arguments.

(** ** Machine integers *)

Definition min_int64 : Z := - 2 ^ 63.
Definition max_int64 : Z := 2 ^ 63 - 1.

Definition in_int64 (z : Z) : Prop := min_int64 <= z <= max_int64.

(** Two's-complement reduction of a mathematical integer to [int64]. *)
Definition wrap64 (z : Z) : Z := (z + 2 ^ 63) mod 2 ^ 64 - 2 ^ 63.

Definition int64_add (a b : Z) : Z := wrap64 (a + b).
Definition int64_sub (a b : Z) : Z := wrap64 (a - b).

(** ** Strings *)

(** [strings.HasPrefix] and [strings.TrimPrefix]. *)
Fixpoint HasPrefix (s prefix : string) : bool :=
  match prefix, s with
  | EmptyString, _ => true
  | String _ _, EmptyString => false
  | String a p', String b s' => if Ascii.eqb a b then HasPrefix s' p' else false
  end.

Fixpoint drop (n : nat) (s : string) : string :=
  match n, s with
  | O, _ => s
  | S _, EmptyString => EmptyString
  | S n', String _ s' => drop n' s'
  end.

Definition TrimPrefix (s prefix : string) : string :=
  if HasPrefix s prefix then drop (String.length prefix) s else s.

(** The verb [%d] of [fmt.Sprintf] on an integer. *)
Definition fmt_d (z : Z) : string := NilZero.string_of_int (Z.to_int z).

(** ** Dereferencing SDK pointers: [aws.StringValue] and friends *)

Definition StringValue (p : option string) : string :=
  match p with Some s => s | None => "" end.

Definition BoolValue (p : option bool) : bool :=
  match p with Some b => b | None => false end.

Definition Int64Value (p : option Z) : Z :=
  match p with Some z => z | None => 0 end.

(** ** Encodings of the Go standard library

    [base64.StdEncoding.EncodeToString] (RFC 4648, with padding) and
    [md5.Sum] (RFC 1321), on bytes. *)

Definition byte_to_Z (b : byte) : Z := Z.of_N (Byte.to_N b).

Definition byte_of_Z (z : Z) : byte :=
  match Byte.of_N (Z.to_N (z mod 256)) with
  | Some b => b
  | None => x00
  end.

Definition encodeStd : string :=
  "ABCDEFGHIJKLMNOPQRSTUVWXYZabcdefghijklmnopqrstuvwxyz0123456789+/".

Definition b64_char (i : Z) : ascii :=
  match String.get (Z.to_nat (Z.land i 63)) encodeStd with
  | Some c => c
  | None => "="%char
  end.

Fixpoint base64_of_Z (l : list Z) : string :=
  match l with
  | a :: b :: c :: rest =>
      let v := Z.lor (Z.shiftl a 16) (Z.lor (Z.shiftl b 8) c) in
      String (b64_char (Z.shiftr v 18))
        (String (b64_char (Z.shiftr v 12))
           (String (b64_char (Z.shiftr v 6))
              (String (b64_char v) (base64_of_Z rest))))
  | [a; b] =>
      let v := Z.lor (Z.shiftl a 16) (Z.shiftl b 8) in
      String (b64_char (Z.shiftr v 18))
        (String (b64_char (Z.shiftr v 12))
           (String (b64_char (Z.shiftr v 6)) "="))
  | [a] =>
      let v := Z.shiftl a 16 in
      String (b64_char (Z.shiftr v 18))
        (String (b64_char (Z.shiftr v 12)) "==")
  | [] => ""
  end.

Definition base64_EncodeToString (src : list byte) : string :=
  base64_of_Z (map byte_to_Z src).

Definition u32 (z : Z) : Z := z mod 2 ^ 32.

Definition rotl32 (x : Z) (c : Z) : Z :=
  u32 (Z.lor (Z.shiftl x c) (Z.shiftr x (32 - c))).

Definition not32 (x : Z) : Z := Z.lxor x (2 ^ 32 - 1).

Definition md5_shift : list Z :=
  [7; 12; 17; 22; 7; 12; 17; 22; 7; 12; 17; 22; 7; 12; 17; 22;
   5; 9; 14; 20; 5; 9; 14; 20; 5; 9; 14; 20; 5; 9; 14; 20;
   4; 11; 16; 23; 4; 11; 16; 23; 4; 11; 16; 23; 4; 11; 16; 23;
   6; 10; 15; 21; 6; 10; 15; 21; 6; 10; 15; 21; 6; 10; 15; 21].

Definition md5_sine : list Z :=
  [3614090360; 3905402710; 606105819; 3250441966;
   4118548399; 1200080426; 2821735955; 4249261313;
   1770035416; 2336552879; 4294925233; 2304563134;
   1804603682; 4254626195; 2792965006; 1236535329;
   4129170786; 3225465664; 643717713; 3921069994;
   3593408605; 38016083; 3634488961; 3889429448;
   568446438; 3275163606; 4107603335; 1163531501;
   2850285829; 4243563512; 1735328473; 2368359562;
   4294588738; 2272392833; 1839030562; 4259657740;
   2763975236; 1272893353; 4139469664; 3200236656;
   681279174; 3936430074; 3572445317; 76029189;
   3654602809; 3873151461; 530742520; 3299628645;
   4096336452; 1126891415; 2878612391; 4237533241;
   1700485571; 2399980690; 4293915773; 2240044497;
   1873313359; 4264355552; 2734768916; 1309151649;
   4149444226; 3174756917; 718787259; 3951481745].

Record md5_state : Type := Md5 { md5_a : Z; md5_b : Z; md5_c : Z; md5_d : Z }.

Definition md5_init : md5_state :=
  Md5 1732584193 4023233417 2562383102 271733878.

Fixpoint le_words (l : list Z) : list Z :=
  match l with
  | b0 :: b1 :: b2 :: b3 :: rest =>
      Z.lor b0 (Z.lor (Z.shiftl b1 8) (Z.lor (Z.shiftl b2 16) (Z.shiftl b3 24)))
        :: le_words rest
  | _ => []
  end.

Definition md5_step (m : list Z) (st : md5_state) (i : nat) : md5_state :=
  let '(Md5 a b c d) := st in
  let iz := Z.of_nat i in
  let '(f, g) :=
    if iz <? 16 then (Z.lor (Z.land b c) (Z.land (not32 b) d), iz)
    else if iz <? 32 then (Z.lor (Z.land d b) (Z.land (not32 d) c), (5 * iz + 1) mod 16)
    else if iz <? 48 then (Z.lxor b (Z.lxor c d), (3 * iz + 5) mod 16)
    else (Z.lxor c (Z.lor b (not32 d)), (7 * iz) mod 16) in
  let f' := u32 (f + a + nth i md5_sine 0 + nth (Z.to_nat g) m 0) in
  Md5 d (u32 (b + rotl32 f' (nth i md5_shift 0))) b c.

Definition md5_block (st : md5_state) (chunk : list Z) : md5_state :=
  let m := le_words chunk in
  let '(Md5 a b c d) := fold_left (md5_step m) (seq 0 64) st in
  Md5 (u32 (md5_a st + a)) (u32 (md5_b st + b))
      (u32 (md5_c st + c)) (u32 (md5_d st + d)).

Fixpoint md5_blocks (fuel : nat) (st : md5_state) (msg : list Z) : md5_state :=
  match fuel, msg with
  | S fuel', _ :: _ => md5_blocks fuel' (md5_block st (firstn 64 msg)) (skipn 64 msg)
  | _, _ => st
  end.

Definition le_bytes (n : nat) (z : Z) : list Z :=
  map (fun k => Z.shiftr z (8 * Z.of_nat k) mod 256) (seq 0 n).

Definition md5_pad (msg : list Z) : list Z :=
  let len := Z.of_nat (List.length msg) in
  let zeros := Z.to_nat ((55 - len) mod 64) in
  msg ++ [128] ++ repeat 0 zeros ++ le_bytes 8 ((8 * len) mod 2 ^ 64).

Definition md5_Sum (data : list byte) : list byte :=
  let padded := md5_pad (map byte_to_Z data) in
  let '(Md5 a b c d) := md5_blocks (List.length padded) md5_init padded in
  map byte_of_Z (le_bytes 4 a ++ le_bytes 4 b ++ le_bytes 4 c ++ le_bytes 4 d).

(** ** Errors *)

(** The error values that the package creates or receives.  [ErrorCode] is a
    sentinel made by [services.NewErrorCode]; [ErrorfW m e] is
    [fmt.Errorf(m + ": %w", e)]; [ErrorfWV e v] is [fmt.Errorf("%w: %v", e, v)];
    [RequestFailure] is the SDK's [awserr.RequestFailure] with its code. *)
Inductive error : Type :=
| ErrorCode (s : string)
| IterateDone
| Errorf (msg : string)
| ErrorfW (msg : string) (w : error)
| ErrorfWV (w : error) (v : error)
| RequestFailure (code : string) (message : string)
| PairUnsupportedError (pair : string)
| TransportError (msg : string).

Definition error_eq_dec (a b : error) : {a = b} + {a <> b}.
Proof. decide equality; apply string_dec. Defined.

Definition error_eqb (a b : error) : bool :=
  if error_eq_dec a b then true else false.

(** [errors.Is]: walk the chain of [%w] wrappers. *)
Fixpoint errors_Is (e target : error) : bool :=
  error_eqb e target ||
  match e with
  | ErrorfW _ w => errors_Is w target
  | ErrorfWV w _ => errors_Is w target
  | _ => false
  end.

Definition ErrRestrictionDissatisfied : error := ErrorCode "restriction dissatisfied".
Definition ErrObjectNotExist : error := ErrorCode "object not exist".
Definition ErrPermissionDenied : error := ErrorCode "permission denied".
Definition ErrUnexpected : error := ErrorCode "unexpected".

Definition ErrServerSideEncryptionCustomerKeyInvalid : error :=
  ErrorCode "invalid server-side encryption customer key".

(** [services.InternalError] is implemented by the error codes and by the
    pair errors of the framework, not by wrappers made with [fmt.Errorf]. *)
Definition IsInternalError (e : error) : bool :=
  match e with
  | ErrorCode _ | PairUnsupportedError _ => true
  | _ => false
  end.

Definition formatError (err : error) : error :=
  if IsInternalError err then err
  else
    match err with
    | RequestFailure code _ =>
        if (code =? "NoSuchKey")%string || (code =? "NotFound")%string
        then ErrorfWV ErrObjectNotExist err
        else if (code =? "AccessDenied")%string
        then ErrorfWV ErrPermissionDenied err
        else ErrorfWV ErrUnexpected err
    | _ => ErrorfWV ErrUnexpected err
    end.

(** ** Objects and parts of the storage framework *)

(** [ObjectMode] is a [uint32] bit set; the constants are [1 << iota]. *)
Definition ObjectMode : Type := Z.

Definition ModeDir : ObjectMode := 1.
Definition ModeRead : ObjectMode := 2.
Definition ModeLink : ObjectMode := 4.
Definition ModePart : ObjectMode := 8.

Definition Mode_Add (o mode : ObjectMode) : ObjectMode := Z.lor o mode.
Definition Mode_Del (o mode : ObjectMode) : ObjectMode := Z.land o (not32 mode).
Definition Mode_IsDir (o : ObjectMode) : bool := negb (Z.land o ModeDir =? 0).
Definition Mode_IsRead (o : ObjectMode) : bool := negb (Z.land o ModeRead =? 0).
Definition Mode_IsPart (o : ObjectMode) : bool := negb (Z.land o ModePart =? 0).

(** [time.Time] as a number of nanoseconds; the zero time is [0]. *)
Definition Time : Type := Z.

Definition TimeValue (p : option Time) : Time :=
  match p with Some t => t | None => 0 end.

Module ObjectSystemMetadata.
Record t : Type := mk {
  ServerSideEncryption : string;
  ServerSideEncryptionAwsKmsKeyID : string;
  ServerSideEncryptionBucketKeyEnabled : bool;
  ServerSideEncryptionContext : string;
  ServerSideEncryptionCustomerAlgorithm : string;
  ServerSideEncryptionCustomerKeyMd5 : string;
  StorageClass : string
}.
Definition zero : t := mk "" "" false "" "" "" "".
End ObjectSystemMetadata.

Module Object.
Record t : Type := mk {
  ID : string;
  Path : string;
  Mode : ObjectMode;
  multipartID : option string;
  etag : option string;
  contentLength : option Z;
  lastModified : option Time;
  systemMetadata : option ObjectSystemMetadata.t;
  done : bool
}.

Definition SetID (v : string) (o : t) : t :=
  mk v (Path o) (Mode o) (multipartID o) (etag o) (contentLength o)
     (lastModified o) (systemMetadata o) (done o).
Definition SetPath (v : string) (o : t) : t :=
  mk (ID o) v (Mode o) (multipartID o) (etag o) (contentLength o)
     (lastModified o) (systemMetadata o) (done o).
Definition SetMode (v : ObjectMode) (o : t) : t :=
  mk (ID o) (Path o) v (multipartID o) (etag o) (contentLength o)
     (lastModified o) (systemMetadata o) (done o).
Definition SetMultipartID (v : string) (o : t) : t :=
  mk (ID o) (Path o) (Mode o) (Some v) (etag o) (contentLength o)
     (lastModified o) (systemMetadata o) (done o).
Definition SetEtag (v : string) (o : t) : t :=
  mk (ID o) (Path o) (Mode o) (multipartID o) (Some v) (contentLength o)
     (lastModified o) (systemMetadata o) (done o).
Definition SetContentLength (v : Z) (o : t) : t :=
  mk (ID o) (Path o) (Mode o) (multipartID o) (etag o) (Some v)
     (lastModified o) (systemMetadata o) (done o).
Definition SetLastModified (v : Time) (o : t) : t :=
  mk (ID o) (Path o) (Mode o) (multipartID o) (etag o) (contentLength o)
     (Some v) (systemMetadata o) (done o).
Definition SetSystemMetadata (v : ObjectSystemMetadata.t) (o : t) : t :=
  mk (ID o) (Path o) (Mode o) (multipartID o) (etag o) (contentLength o)
     (lastModified o) (Some v) (done o).
End Object.

Module Part.
Record t : Type := mk { Index : Z; Size : Z; ETag : string }.
End Part.

(** ** Readers and request bodies *)

Definition IoCallback : Type := nat.

(** An [io.Reader] value: [nil], a reader of the caller (given by the bytes
    it yields until end of file), or one of the wrappers the package builds. *)
Inductive Reader : Type :=
| NilReader
| StreamReader (content : list byte)
| BytesReader (b : list byte)
| LimitReader (r : Reader) (n : Z)
| CallbackReader (r : Reader) (fn : IoCallback).

Definition is_nil (r : Reader) : bool :=
  match r with NilReader => true | _ => false end.

(** The bytes read from a reader until end of file; [None] when a read
    reaches the [nil] reader.  [io.LimitReader] stops at [n] bytes and does
    not touch its source when [n <= 0]. *)
Fixpoint read_all (r : Reader) : option (list byte) :=
  match r with
  | NilReader => None
  | StreamReader c => Some c
  | BytesReader b => Some b
  | LimitReader r' n =>
      if n <=? 0 then Some []
      else option_map (firstn (Z.to_nat n)) (read_all r')
  | CallbackReader r' _ => read_all r'
  end.

(** An [io.ReadSeeker] made from a reader, the type of a request body. *)
Inductive ReadSeeker : Type :=
| ReadSeekCloser (r : Reader)
| SizedReadSeekCloser (r : Reader) (size : Z).

(** ** Options of the operations (the [pairStorage...] structs) *)

Module pairStorageRead.
Record t : Type := mk {
  HasExceptedBucketOwner : bool;
  ExceptedBucketOwner : string;
  HasIoCallback : bool;
  IoCallback : IoCallback;
  HasOffset : bool;
  Offset : Z;
  HasServerSideEncryptionCustomerAlgorithm : bool;
  ServerSideEncryptionCustomerAlgorithm : string;
  HasServerSideEncryptionCustomerKey : bool;
  ServerSideEncryptionCustomerKey : list byte;
  HasSize : bool;
  Size : Z
}.
End pairStorageRead.

Module pairStorageWrite.
Record t : Type := mk {
  HasContentMd5 : bool;
  ContentMd5 : string;
  HasExceptedBucketOwner : bool;
  ExceptedBucketOwner : string;
  HasIoCallback : bool;
  IoCallback : IoCallback;
  HasServerSideEncryption : bool;
  ServerSideEncryption : string;
  HasServerSideEncryptionAwsKmsKeyID : bool;
  ServerSideEncryptionAwsKmsKeyID : string;
  HasServerSideEncryptionBucketKeyEnabled : bool;
  ServerSideEncryptionBucketKeyEnabled : bool;
  HasServerSideEncryptionContext : bool;
  ServerSideEncryptionContext : string;
  HasServerSideEncryptionCustomerAlgorithm : bool;
  ServerSideEncryptionCustomerAlgorithm : string;
  HasServerSideEncryptionCustomerKey : bool;
  ServerSideEncryptionCustomerKey : list byte;
  HasStorageClass : bool;
  StorageClass : string
}.
End pairStorageWrite.

Module pairStorageDelete.
Record t : Type := mk {
  HasExceptedBucketOwner : bool;
  ExceptedBucketOwner : string;
  HasMultipartID : bool;
  MultipartID : string;
  HasObjectMode : bool;
  ObjectMode : ObjectMode
}.
End pairStorageDelete.

Module pairStorageCompleteMultipart.
Record t : Type := mk {
  HasExceptedBucketOwner : bool;
  ExceptedBucketOwner : string
}.
End pairStorageCompleteMultipart.

Module pairStorageCreateMultipart.
Record t : Type := mk {
  HasExceptedBucketOwner : bool;
  ExceptedBucketOwner : string;
  HasServerSideEncryption : bool;
  ServerSideEncryption : string;
  HasServerSideEncryptionAwsKmsKeyID : bool;
  ServerSideEncryptionAwsKmsKeyID : string;
  HasServerSideEncryptionBucketKeyEnabled : bool;
  ServerSideEncryptionBucketKeyEnabled : bool;
  HasServerSideEncryptionContext : bool;
  ServerSideEncryptionContext : string;
  HasServerSideEncryptionCustomerAlgorithm : bool;
  ServerSideEncryptionCustomerAlgorithm : string;
  HasServerSideEncryptionCustomerKey : bool;
  ServerSideEncryptionCustomerKey : list byte
}.
End pairStorageCreateMultipart.

Module pairStorageListMultipart.
Record t : Type := mk {
  HasExceptedBucketOwner : bool;
  ExceptedBucketOwner : string
}.
End pairStorageListMultipart.

Module pairStorageWriteMultipart.
Record t : Type := mk {
  HasExceptedBucketOwner : bool;
  ExceptedBucketOwner : string;
  HasIoCallback : bool;
  IoCallback : IoCallback;
  HasServerSideEncryptionCustomerAlgorithm : bool;
  ServerSideEncryptionCustomerAlgorithm : string;
  HasServerSideEncryptionCustomerKey : bool;
  ServerSideEncryptionCustomerKey : list byte
}.
End pairStorageWriteMultipart.

(** ** Requests and responses of the S3 client

    The structs of the SDK, with the fields the package reads or writes. *)

Module GetObjectInput.
Record t : Type := mk {
  Bucket : option string;
  Key : option string;
  Range : option string;
  ExpectedBucketOwner : option string;
  SSECustomerAlgorithm : option string;
  SSECustomerKey : option string;
  SSECustomerKeyMD5 : option string
}.
End GetObjectInput.

Module PutObjectInput.
Record t : Type := mk {
  Bucket : option string;
  Key : option string;
  ContentLength : option Z;
  Body : option ReadSeeker;
  ContentMD5 : option string;
  StorageClass : option string;
  ExpectedBucketOwner : option string;
  BucketKeyEnabled : option bool;
  SSECustomerAlgorithm : option string;
  SSECustomerKey : option string;
  SSECustomerKeyMD5 : option string;
  SSEKMSKeyId : option string;
  SSEKMSEncryptionContext : option string;
  ServerSideEncryption : option string
}.
Definition SetBody (b : ReadSeeker) (i : t) : t :=
  mk (Bucket i) (Key i) (ContentLength i) (Some b) (ContentMD5 i)
     (StorageClass i) (ExpectedBucketOwner i) (BucketKeyEnabled i)
     (SSECustomerAlgorithm i) (SSECustomerKey i) (SSECustomerKeyMD5 i)
     (SSEKMSKeyId i) (SSEKMSEncryptionContext i) (ServerSideEncryption i).
End PutObjectInput.

Module PutObjectOutput.
Record t : Type := mk { ETag : option string }.
End PutObjectOutput.

Module DeleteObjectInput.
Record t : Type := mk {
  Bucket : option string;
  Key : option string;
  ExpectedBucketOwner : option string
}.
End DeleteObjectInput.

Module DeleteObjectOutput.
Record t : Type := mk { DeleteMarker : option bool }.
End DeleteObjectOutput.

Module AbortMultipartUploadInput.
Record t : Type := mk {
  Bucket : option string;
  Key : option string;
  UploadId : option string;
  ExpectedBucketOwner : option string
}.
End AbortMultipartUploadInput.

Module AbortMultipartUploadOutput.
Record t : Type := mk { RequestCharged : option string }.
End AbortMultipartUploadOutput.

Module CreateMultipartUploadInput.
Record t : Type := mk {
  Bucket : option string;
  Key : option string;
  BucketKeyEnabled : option bool;
  ExpectedBucketOwner : option string;
  SSECustomerAlgorithm : option string;
  SSECustomerKey : option string;
  SSECustomerKeyMD5 : option string;
  SSEKMSKeyId : option string;
  SSEKMSEncryptionContext : option string;
  ServerSideEncryption : option string
}.
End CreateMultipartUploadInput.

Module CompletedPart.
Record t : Type := mk { ETag : option string; PartNumber : option Z }.
End CompletedPart.

Module CompletedMultipartUpload.
Record t : Type := mk { Parts : list CompletedPart.t }.
End CompletedMultipartUpload.

Module CompleteMultipartUploadInput.
Record t : Type := mk {
  Bucket : option string;
  Key : option string;
  MultipartUpload : option CompletedMultipartUpload.t;
  UploadId : option string;
  ExpectedBucketOwner : option string
}.
End CompleteMultipartUploadInput.

Module CompleteMultipartUploadOutput.
Record t : Type := mk { ETag : option string }.
End CompleteMultipartUploadOutput.

Module UploadPartInput.
Record t : Type := mk {
  Bucket : option string;
  PartNumber : option Z;
  Key : option string;
  UploadId : option string;
  ContentLength : option Z;
  Body : option ReadSeeker;
  ExpectedBucketOwner : option string;
  SSECustomerAlgorithm : option string;
  SSECustomerKey : option string;
  SSECustomerKeyMD5 : option string
}.
End UploadPartInput.

Module UploadPartOutput.
Record t : Type := mk { ETag : option string }.
End UploadPartOutput.

Module ListObjectsV2Input.
Record t : Type := mk {
  Bucket : option string;
  Delimiter : option string;
  MaxKeys : option Z;
  ContinuationToken : option string;
  Prefix : option string;
  ExpectedBucketOwner : option string
}.
End ListObjectsV2Input.

Module CommonPrefix.
Record t : Type := mk { Prefix : option string }.
End CommonPrefix.

(** [s3.Object], an entry of an object listing. *)
Module s3Object.
Record t : Type := mk {
  Key : option string;
  Size : option Z;
  LastModified : option Time;
  ETag : option string;
  StorageClass : option string
}.
End s3Object.

Module ListObjectsV2Output.
Record t : Type := mk {
  CommonPrefixes : list CommonPrefix.t;
  Contents : list s3Object.t;
  IsTruncated : option bool;
  NextContinuationToken : option string
}.
End ListObjectsV2Output.

Module ListMultipartUploadsInput.
Record t : Type := mk {
  Bucket : option string;
  KeyMarker : option string;
  MaxUploads : option Z;
  Prefix : option string;
  UploadIdMarker : option string;
  ExpectedBucketOwner : option string
}.
End ListMultipartUploadsInput.

Module MultipartUpload.
Record t : Type := mk { Key : option string; UploadId : option string }.
End MultipartUpload.

(** [KeyMarker] and [UploadIdMarker] repeat the markers of the request;
    [NextKeyMarker] and [NextUploadIdMarker] are the markers to send to get
    the page after a truncated one. *)
Module ListMultipartUploadsOutput.
Record t : Type := mk {
  Uploads : list MultipartUpload.t;
  IsTruncated : option bool;
  KeyMarker : option string;
  UploadIdMarker : option string;
  NextKeyMarker : option string;
  NextUploadIdMarker : option string
}.
End ListMultipartUploadsOutput.

Module ListPartsInput.
Record t : Type := mk {
  Bucket : option string;
  Key : option string;
  MaxParts : option Z;
  PartNumberMarker : option Z;
  UploadId : option string;
  ExpectedBucketOwner : option string
}.
End ListPartsInput.

(** [s3.Part], an entry of a part listing. *)
Module s3Part.
Record t : Type := mk {
  PartNumber : option Z;
  Size : option Z;
  ETag : option string
}.
End s3Part.

Module ListPartsOutput.
Record t : Type := mk {
  Parts : list s3Part.t;
  IsTruncated : option bool;
  NextPartNumberMarker : option Z
}.
End ListPartsOutput.

(** The calls of the client that the package issues.  Each is one round trip
    to the backend: it takes the backend from one state to the next and
    returns an output or an error. *)
Module S3.
Record t (W : Type) : Type := mk {
  PutObject : PutObjectInput.t -> W -> (error + PutObjectOutput.t) * W;
  DeleteObject : DeleteObjectInput.t -> W -> (error + DeleteObjectOutput.t) * W;
  AbortMultipartUpload :
    AbortMultipartUploadInput.t -> W -> (error + AbortMultipartUploadOutput.t) * W;
  CompleteMultipartUpload :
    CompleteMultipartUploadInput.t -> W ->
    (error + CompleteMultipartUploadOutput.t) * W;
  UploadPart : UploadPartInput.t -> W -> (error + UploadPartOutput.t) * W;
  ListObjectsV2 : ListObjectsV2Input.t -> W -> (error + ListObjectsV2Output.t) * W;
  ListMultipartUploads :
    ListMultipartUploadsInput.t -> W -> (error + ListMultipartUploadsOutput.t) * W;
  ListParts : ListPartsInput.t -> W -> (error + ListPartsOutput.t) * W
}.
End S3.

Inductive Call : Type :=
| CallPutObject (i : PutObjectInput.t)
| CallDeleteObject (i : DeleteObjectInput.t)
| CallAbortMultipartUpload (i : AbortMultipartUploadInput.t)
| CallCompleteMultipartUpload (i : CompleteMultipartUploadInput.t)
| CallUploadPart (i : UploadPartInput.t)
| CallListObjectsV2 (i : ListObjectsV2Input.t)
| CallListMultipartUploads (i : ListMultipartUploadsInput.t)
| CallListParts (i : ListPartsInput.t).

(** ** The storage service *)

Module StorageFeatures.
Record t : Type := mk { VirtualDir : bool; VirtualLink : bool }.
End StorageFeatures.

Module Storage.
Record t (W : Type) : Type := mk {
  service : S3.t W;
  name : string;
  workDir : string;
  features : StorageFeatures.t
}.
End Storage.

(** ** Effects: the backend, the log of calls, panics *)

Module World.
Record t (W : Type) : Type := mk { backend : W; calls : list Call }.
End World.

Inductive Outcome (A : Type) : Type :=
| Normal (a : A)
| Panic (reason : string).

Arguments Panic {A} reason.

Definition M (W A : Type) : Type := World.t W -> Outcome A * World.t W.

Definition ret {W A : Type} (a : A) : M W A := fun w => (Normal a, w).

Definition bind {W A B : Type} (m : M W A) (k : A -> M W B) : M W B :=
  fun w =>
    match m w with
    | (Normal a, w') => k a w'
    | (Panic r, w') => (Panic r, w')
    end.

Definition panic {W A : Type} (reason : string) : M W A :=
  fun w => (Panic reason, w).

Definition lift {W A : Type} (o : Outcome A) : M W A := fun w => (o, w).

(** One round trip: run the call on the backend and log it. *)
Definition invoke {W I O : Type} (f : I -> W -> (error + O) * W)
    (tag : I -> Call) (input : I) : M W (error + O) :=
  fun w =>
    let '(r, b) := f input (World.backend w) in
    (Normal r, World.mk b (World.calls w ++ [tag input])).

Declare Scope go_scope.
Delimit Scope go_scope with go.

Notation "x <- m ;; k" := (bind m (fun x => k))
  (at level 61, m at next level, right associativity) : go_scope.

(** ** Path mapper *)

Section Paths.
Variable W : Type.

(* getAbsPath will calculate object storage's abs path *)
Definition getAbsPath (s : Storage.t W) (path : string) : string :=
  let prefix := TrimPrefix (Storage.workDir s) "/" in
  (prefix ++ path)%string.

(* getRelPath will get object storage's rel path. *)
Definition getRelPath (s : Storage.t W) (path : string) : string :=
  let prefix := TrimPrefix (Storage.workDir s) "/" in
  TrimPrefix path prefix.

End Paths.

(** ** utils.go *)

(* multipartNumberMaximum is the max part count supported. *)
Definition multipartNumberMaximum : Z := 10000.
(* multipartSizeMaximum is the maximum size for each part, 5GB. *)
Definition multipartSizeMaximum : Z := 5 * 1024 * 1024 * 1024.
(* multipartSizeMinimum is the minimum size for each part, 5MB. *)
Definition multipartSizeMinimum : Z := 5 * 1024 * 1024.
(* writeSizeMaximum is the maximum size for each object with a single PUT
   operation, 5GB. *)
Definition writeSizeMaximum : Z := 5 * 1024 * 1024 * 1024.

(** The three results are [algorithm], [keyBase64] and [keyMD5Base64]; the
    function returns either them or the error. *)
Definition calculateEncryptionHeaders (algo : string) (key : list byte)
  : error + (string * string * string) :=
  if negb (Nat.eqb (List.length key) 32) then
    inl ErrServerSideEncryptionCustomerKeyInvalid
  else
    let kB64 := base64_EncodeToString key in
    let kMD5 := md5_Sum key in
    let kMD5B64 := base64_EncodeToString kMD5 in
    inr (algo, kB64, kMD5B64).

(** [typ.NewObject(s, done)]. *)
Definition newObject (done : bool) : Object.t :=
  Object.mk "" "" 0 None None None None None done.

(** [o.MustGetMultipartID()] panics when the object carries no upload ID. *)
Definition MustGetMultipartID (o : Object.t) : Outcome string :=
  match Object.multipartID o with
  | Some id => Normal id
  | None => Panic "object multipart-id is not set"
  end.

Definition nil_dereference : string := "invalid memory address or nil pointer dereference".

Section Utils.
Variable W : Type.
Variable s : Storage.t W.

Definition formatFileObject (v : s3Object.t) : Outcome (Object.t * option error) :=
  let o := newObject false in
  match s3Object.Key v with
  | None => Panic nil_dereference
  | Some key =>
      let o := Object.SetID key o in
      let o := Object.SetPath (getRelPath s key) o in
      let o := Object.SetMode (Z.lor (Object.Mode o) ModeRead) o in
      let o := Object.SetContentLength (Int64Value (s3Object.Size v)) o in
      let o := Object.SetLastModified (TimeValue (s3Object.LastModified v)) o in
      let o := match s3Object.ETag v with
               | Some e => Object.SetEtag e o
               | None => o
               end in
      let value := StringValue (s3Object.StorageClass v) in
      let sm := ObjectSystemMetadata.mk "" "" false "" "" ""
                  (if negb (value =? "")%string then value else "") in
      Normal (Object.SetSystemMetadata sm o, None)
  end.

Definition formatGetObjectInput (path : string) (opt : pairStorageRead.t)
  : error + GetObjectInput.t :=
  let rp := getAbsPath s path in
  let offset := pairStorageRead.Offset opt in
  let size := pairStorageRead.Size opt in
  let range :=
    if pairStorageRead.HasOffset opt && pairStorageRead.HasSize opt then
      Some ("bytes=" ++ fmt_d offset ++ "-"
              ++ fmt_d (int64_sub (int64_add offset size) 1))%string
    else if pairStorageRead.HasOffset opt && negb (pairStorageRead.HasSize opt) then
      Some ("bytes=" ++ fmt_d offset ++ "-")%string
    else if negb (pairStorageRead.HasOffset opt) && pairStorageRead.HasSize opt then
      Some ("bytes=0-" ++ fmt_d (int64_sub size 1))%string
    else None in
  let owner :=
    if pairStorageRead.HasExceptedBucketOwner opt
    then Some (pairStorageRead.ExceptedBucketOwner opt) else None in
  if pairStorageRead.HasServerSideEncryptionCustomerAlgorithm opt then
    match calculateEncryptionHeaders
            (pairStorageRead.ServerSideEncryptionCustomerAlgorithm opt)
            (pairStorageRead.ServerSideEncryptionCustomerKey opt) with
    | inl err => inl err
    | inr (algorithm, keyBase64, keyMD5Base64) =>
        inr (GetObjectInput.mk (Some (Storage.name s)) (Some rp) range owner
               (Some algorithm) (Some keyBase64) (Some keyMD5Base64))
    end
  else
    inr (GetObjectInput.mk (Some (Storage.name s)) (Some rp) range owner
           None None None).

Definition formatPutObjectInput (path : string) (size : Z) (opt : pairStorageWrite.t)
  : error + PutObjectInput.t :=
  let rp := getAbsPath s path in
  let mk sse :=
    PutObjectInput.mk (Some (Storage.name s)) (Some rp) (Some size) None
      (if pairStorageWrite.HasContentMd5 opt
       then Some (pairStorageWrite.ContentMd5 opt) else None)
      (if pairStorageWrite.HasStorageClass opt
       then Some (pairStorageWrite.StorageClass opt) else None)
      (if pairStorageWrite.HasExceptedBucketOwner opt
       then Some (pairStorageWrite.ExceptedBucketOwner opt) else None)
      (if pairStorageWrite.HasServerSideEncryptionBucketKeyEnabled opt
       then Some (pairStorageWrite.ServerSideEncryptionBucketKeyEnabled opt) else None)
      (option_map (fun h => fst (fst h)) sse)
      (option_map (fun h => snd (fst h)) sse)
      (option_map (fun h => snd h) sse)
      (if pairStorageWrite.HasServerSideEncryptionAwsKmsKeyID opt
       then Some (pairStorageWrite.ServerSideEncryptionAwsKmsKeyID opt) else None)
      (if pairStorageWrite.HasServerSideEncryptionContext opt
       then Some (base64_EncodeToString
                    (list_byte_of_string (pairStorageWrite.ServerSideEncryptionContext opt)))
       else None)
      (if pairStorageWrite.HasServerSideEncryption opt
       then Some (pairStorageWrite.ServerSideEncryption opt) else None) in
  if pairStorageWrite.HasServerSideEncryptionCustomerAlgorithm opt then
    match calculateEncryptionHeaders
            (pairStorageWrite.ServerSideEncryptionCustomerAlgorithm opt)
            (pairStorageWrite.ServerSideEncryptionCustomerKey opt) with
    | inl err => inl err
    | inr headers => inr (mk (Some headers))
    end
  else inr (mk None).

Definition formatAbortMultipartUploadInput (path : string) (opt : pairStorageDelete.t)
  : AbortMultipartUploadInput.t :=
  let rp := getAbsPath s path in
  AbortMultipartUploadInput.mk (Some (Storage.name s)) (Some rp)
    (Some (pairStorageDelete.MultipartID opt))
    (if pairStorageDelete.HasExceptedBucketOwner opt
     then Some (pairStorageDelete.ExceptedBucketOwner opt) else None).

Definition formatDeleteObjectInput (path : string) (opt : pairStorageDelete.t)
  : error + DeleteObjectInput.t :=
  let rp := getAbsPath s path in
  let dir := pairStorageDelete.HasObjectMode opt
             && Mode_IsDir (pairStorageDelete.ObjectMode opt) in
  if dir && negb (StorageFeatures.VirtualDir (Storage.features s)) then
    inl (PairUnsupportedError "object_mode")
  else
    let rp := if dir then (rp ++ "/")%string else rp in
    inr (DeleteObjectInput.mk (Some (Storage.name s)) (Some rp)
           (if pairStorageDelete.HasExceptedBucketOwner opt
            then Some (pairStorageDelete.ExceptedBucketOwner opt) else None)).

Definition formatCreateMultipartUploadInput (path : string)
    (opt : pairStorageCreateMultipart.t) : error + CreateMultipartUploadInput.t :=
  let rp := getAbsPath s path in
  let mk sse :=
    CreateMultipartUploadInput.mk (Some (Storage.name s)) (Some rp)
      (if pairStorageCreateMultipart.HasServerSideEncryptionBucketKeyEnabled opt
       then Some (pairStorageCreateMultipart.ServerSideEncryptionBucketKeyEnabled opt)
       else None)
      (if pairStorageCreateMultipart.HasExceptedBucketOwner opt
       then Some (pairStorageCreateMultipart.ExceptedBucketOwner opt) else None)
      (option_map (fun h => fst (fst h)) sse)
      (option_map (fun h => snd (fst h)) sse)
      (option_map (fun h => snd h) sse)
      (if pairStorageCreateMultipart.HasServerSideEncryptionAwsKmsKeyID opt
       then Some (pairStorageCreateMultipart.ServerSideEncryptionAwsKmsKeyID opt)
       else None)
      (if pairStorageCreateMultipart.HasServerSideEncryptionContext opt
       then Some (base64_EncodeToString
                    (list_byte_of_string
                       (pairStorageCreateMultipart.ServerSideEncryptionContext opt)))
       else None)
      (if pairStorageCreateMultipart.HasServerSideEncryption opt
       then Some (pairStorageCreateMultipart.ServerSideEncryption opt) else None) in
  if pairStorageCreateMultipart.HasServerSideEncryptionCustomerAlgorithm opt then
    match calculateEncryptionHeaders
            (pairStorageCreateMultipart.ServerSideEncryptionCustomerAlgorithm opt)
            (pairStorageCreateMultipart.ServerSideEncryptionCustomerKey opt) with
    | inl err => inl err
    | inr headers => inr (mk (Some headers))
    end
  else inr (mk None).

(** The element that the loop of [formatCompleteMultipartUploadInput] appends
    for a part: [PartNumber] is [int64(v.Index + 1)]. *)
Definition completedPart (v : Part.t) : CompletedPart.t :=
  CompletedPart.mk (Some (Part.ETag v)) (Some (int64_add (Part.Index v) 1)).

Definition formatCompleteMultipartUploadInput (o : Object.t) (parts : list Part.t)
    (opt : pairStorageCompleteMultipart.t) : Outcome CompleteMultipartUploadInput.t :=
  let upload :=
    CompletedMultipartUpload.mk
      (fold_left (fun acc v => acc ++ [completedPart v]) parts []) in
  match MustGetMultipartID o with
  | Panic r => Panic r
  | Normal uploadId =>
      Normal (CompleteMultipartUploadInput.mk (Some (Storage.name s))
                (Some (Object.ID o)) (Some upload) (Some uploadId)
                (if pairStorageCompleteMultipart.HasExceptedBucketOwner opt
                 then Some (pairStorageCompleteMultipart.ExceptedBucketOwner opt)
                 else None))
  end.

Definition formatUploadPartInput (o : Object.t) (size : Z) (index : Z)
    (opt : pairStorageWriteMultipart.t) : Outcome (error + UploadPartInput.t) :=
  match MustGetMultipartID o with
  | Panic r => Panic r
  | Normal uploadId =>
      let mk sse :=
        UploadPartInput.mk (Some (Storage.name s)) (Some (int64_add index 1))
          (Some (Object.ID o)) (Some uploadId) (Some size) None
          (if pairStorageWriteMultipart.HasExceptedBucketOwner opt
           then Some (pairStorageWriteMultipart.ExceptedBucketOwner opt) else None)
          (option_map (fun h => fst (fst h)) sse)
          (option_map (fun h => snd (fst h)) sse)
          (option_map (fun h => snd h) sse) in
      if pairStorageWriteMultipart.HasServerSideEncryptionCustomerAlgorithm opt then
        match calculateEncryptionHeaders
                (pairStorageWriteMultipart.ServerSideEncryptionCustomerAlgorithm opt)
                (pairStorageWriteMultipart.ServerSideEncryptionCustomerKey opt) with
        | inl err => Normal (inl err)
        | inr headers => Normal (inr (mk (Some headers)))
        end
      else Normal (inr (mk None))
  end.

End Utils.

(** ** Page status and pages *)

Module objectPageStatus.
Record t : Type := mk {
  delimiter : string;
  maxKeys : Z;
  prefix : string;
  continuationToken : string;
  keyMarker : string;
  uploadIdMarker : string;
  expectedBucketOwner : string
}.
Definition SetContinuationToken (v : string) (i : t) : t :=
  mk (delimiter i) (maxKeys i) (prefix i) v (keyMarker i) (uploadIdMarker i)
     (expectedBucketOwner i).
Definition SetMarkers (k u : string) (i : t) : t :=
  mk (delimiter i) (maxKeys i) (prefix i) (continuationToken i) k u
     (expectedBucketOwner i).
End objectPageStatus.

Module partPageStatus.
Record t : Type := mk {
  key : string;
  maxParts : Z;
  partNumberMarker : Z;
  uploadId : string;
  expectedBucketOwner : string
}.
Definition SetPartNumberMarker (v : Z) (i : t) : t :=
  mk (key i) (maxParts i) v (uploadId i) (expectedBucketOwner i).
End partPageStatus.

Module ObjectPage.
Record t : Type := mk { Status : objectPageStatus.t; Data : list Object.t }.
End ObjectPage.

Module PartPage.
Record t : Type := mk { Status : partPageStatus.t; Data : list Part.t }.
End PartPage.

(** ** storage.go *)

Definition error_of {O : Type} (r : error + O) : option error :=
  match r with inl e => Some e | inr _ => None end.

Definition owner_if_set (owner : string) : option string :=
  if negb (owner =? "")%string then Some owner else None.

(** The loop over [output.Parts] of [nextPartPage]: [Index] is
    the [int] conversion of the part number, minus one. *)
Fixpoint appendParts (parts : list s3Part.t) (data : list Part.t)
  : Outcome (list Part.t) :=
  match parts with
  | [] => Normal data
  | v :: rest =>
      match s3Part.PartNumber v, s3Part.Size v with
      | Some n, Some size =>
          appendParts rest
            (data ++ [Part.mk (int64_sub n 1) size (StringValue (s3Part.ETag v))])
      | _, _ => Panic nil_dereference
      end
  end.

Section StorageOps.
Variable W : Type.
Variable s : Storage.t W.

(** The method of [objectPageStatus] that turns the stored token into the
    request field; it is declared next to the page status, outside the files
    modelled here, and is taken as a parameter. *)
Variable getServiceContinuationToken : objectPageStatus.t -> option string.

Local Open Scope go_scope.

Definition completeMultipart (o : Object.t) (parts : list Part.t)
    (opt : pairStorageCompleteMultipart.t) : M W (option error * Object.t) :=
  input <- lift (formatCompleteMultipartUploadInput s o parts opt) ;;
  res <- invoke (S3.CompleteMultipartUpload (Storage.service s))
           CallCompleteMultipartUpload input ;;
  match res with
  | inl err => ret (Some err, o)
  | inr _ =>
      let o := Object.SetMode (Mode_Del (Object.Mode o) ModePart) o in
      let o := Object.SetMode (Mode_Add (Object.Mode o) ModeRead) o in
      ret (None, o)
  end.

Definition delete (path : string) (opt : pairStorageDelete.t) : M W (option error) :=
  aborted <-
    (if pairStorageDelete.HasMultipartID opt then
       let abortInput := formatAbortMultipartUploadInput s path opt in
       res <- invoke (S3.AbortMultipartUpload (Storage.service s))
                CallAbortMultipartUpload abortInput ;;
       ret (error_of res)
     else ret None) ;;
  match aborted with
  | Some err => ret (Some err)
  | None =>
      match formatDeleteObjectInput s path opt with
      | inl err => ret (Some err)
      | inr input =>
          res <- invoke (S3.DeleteObject (Storage.service s)) CallDeleteObject input ;;
          ret (error_of res)
      end
  end.

(** The loop over [output.CommonPrefixes] of [nextObjectPageByDir]. *)
Fixpoint appendCommonPrefixes (prefixes : list CommonPrefix.t) (data : list Object.t)
  : Outcome (list Object.t) :=
  match prefixes with
  | [] => Normal data
  | v :: rest =>
      let o := newObject true in
      match CommonPrefix.Prefix v with
      | None => Panic nil_dereference
      | Some prefix =>
          let o := Object.SetID prefix o in
          let o := Object.SetPath (getRelPath s prefix) o in
          let o := Object.SetMode (Z.lor (Object.Mode o) ModeDir) o in
          appendCommonPrefixes rest (data ++ [o])
      end
  end.

(** The loop over [output.Contents]; it stops at the first error. *)
Fixpoint appendContents (contents : list s3Object.t) (data : list Object.t)
  : Outcome (list Object.t * option error) :=
  match contents with
  | [] => Normal (data, None)
  | v :: rest =>
      match formatFileObject s v with
      | Panic r => Panic r
      | Normal (_, Some err) => Normal (data, Some err)
      | Normal (o, None) => appendContents rest (data ++ [o])
      end
  end.

(** The [listInput] literal of [nextObjectPageByDir], with the owner set
    when it is not empty. *)
Definition listInputByDir (input : objectPageStatus.t) : ListObjectsV2Input.t :=
  ListObjectsV2Input.mk (Some (Storage.name s))
    (Some (objectPageStatus.delimiter input))
    (Some (objectPageStatus.maxKeys input))
    (getServiceContinuationToken input)
    (Some (objectPageStatus.prefix input))
    (owner_if_set (objectPageStatus.expectedBucketOwner input)).

Definition nextObjectPageByDir (page : ObjectPage.t) : M W (option error * ObjectPage.t) :=
  let input := ObjectPage.Status page in
  let listInput := listInputByDir input in
  res <- invoke (S3.ListObjectsV2 (Storage.service s)) CallListObjectsV2 listInput ;;
  match res with
  | inl err => ret (Some err, page)
  | inr output =>
      data <- lift (appendCommonPrefixes (ListObjectsV2Output.CommonPrefixes output)
                      (ObjectPage.Data page)) ;;
      r <- lift (appendContents (ListObjectsV2Output.Contents output) data) ;;
      match r with
      | (data, Some err) => ret (Some err, ObjectPage.mk input data)
      | (data, None) =>
          if negb (BoolValue (ListObjectsV2Output.IsTruncated output)) then
            ret (Some IterateDone, ObjectPage.mk input data)
          else
            match ListObjectsV2Output.NextContinuationToken output with
            | None => panic nil_dereference
            | Some token =>
                ret (None,
                     ObjectPage.mk (objectPageStatus.SetContinuationToken token input) data)
            end
      end
  end.

(** The [listInput] literal of [nextObjectPageByPrefix]: no delimiter. *)
Definition listInputByPrefix (input : objectPageStatus.t) : ListObjectsV2Input.t :=
  ListObjectsV2Input.mk (Some (Storage.name s))
    None
    (Some (objectPageStatus.maxKeys input))
    (getServiceContinuationToken input)
    (Some (objectPageStatus.prefix input))
    (owner_if_set (objectPageStatus.expectedBucketOwner input)).

Definition nextObjectPageByPrefix (page : ObjectPage.t)
  : M W (option error * ObjectPage.t) :=
  let input := ObjectPage.Status page in
  let listInput := listInputByPrefix input in
  res <- invoke (S3.ListObjectsV2 (Storage.service s)) CallListObjectsV2 listInput ;;
  match res with
  | inl err => ret (Some err, page)
  | inr output =>
      r <- lift (appendContents (ListObjectsV2Output.Contents output)
                   (ObjectPage.Data page)) ;;
      match r with
      | (data, Some err) => ret (Some err, ObjectPage.mk input data)
      | (data, None) =>
          if negb (BoolValue (ListObjectsV2Output.IsTruncated output)) then
            ret (Some IterateDone, ObjectPage.mk input data)
          else
            ret (None,
                 ObjectPage.mk
                   (objectPageStatus.SetContinuationToken
                      (StringValue (ListObjectsV2Output.NextContinuationToken output))
                      input)
                   data)
      end
  end.

(** The loop over [output.Uploads] of [nextPartObjectPageByPrefix]. *)
Fixpoint appendUploads (uploads : list MultipartUpload.t) (data : list Object.t)
  : Outcome (list Object.t) :=
  match uploads with
  | [] => Normal data
  | v :: rest =>
      let o := newObject true in
      match MultipartUpload.Key v with
      | None => Panic nil_dereference
      | Some key =>
          let o := Object.SetID key o in
          let o := Object.SetPath (getRelPath s key) o in
          let o := Object.SetMode (Z.lor (Object.Mode o) ModePart) o in
          match MultipartUpload.UploadId v with
          | None => Panic nil_dereference
          | Some id => appendUploads rest (data ++ [Object.SetMultipartID id o])
          end
      end
  end.

(** The [listInput] literal of [nextPartObjectPageByPrefix]. *)
Definition listInputUploads (input : objectPageStatus.t) : ListMultipartUploadsInput.t :=
  ListMultipartUploadsInput.mk (Some (Storage.name s))
    (Some (objectPageStatus.keyMarker input))
    (Some (objectPageStatus.maxKeys input))
    (Some (objectPageStatus.prefix input))
    (Some (objectPageStatus.uploadIdMarker input))
    (owner_if_set (objectPageStatus.expectedBucketOwner input)).

Definition nextPartObjectPageByPrefix (page : ObjectPage.t)
  : M W (option error * ObjectPage.t) :=
  let input := ObjectPage.Status page in
  let listInput := listInputUploads input in
  res <- invoke (S3.ListMultipartUploads (Storage.service s))
           CallListMultipartUploads listInput ;;
  match res with
  | inl err => ret (Some err, page)
  | inr output =>
      data <- lift (appendUploads (ListMultipartUploadsOutput.Uploads output)
                      (ObjectPage.Data page)) ;;
      if negb (BoolValue (ListMultipartUploadsOutput.IsTruncated output)) then
        ret (Some IterateDone, ObjectPage.mk input data)
      else
        ret (None,
             ObjectPage.mk
               (objectPageStatus.SetMarkers
                  (StringValue (ListMultipartUploadsOutput.KeyMarker output))
                  (StringValue (ListMultipartUploadsOutput.UploadIdMarker output))
                  input)
               data)
  end.

(** The [listInput] literal of [nextPartPage]. *)
Definition listInputParts (input : partPageStatus.t) : ListPartsInput.t :=
  ListPartsInput.mk (Some (Storage.name s))
    (Some (partPageStatus.key input))
    (Some (partPageStatus.maxParts input))
    (Some (partPageStatus.partNumberMarker input))
    (Some (partPageStatus.uploadId input))
    (owner_if_set (partPageStatus.expectedBucketOwner input)).

Definition nextPartPage (page : PartPage.t) : M W (option error * PartPage.t) :=
  let input := PartPage.Status page in
  let listInput := listInputParts input in
  res <- invoke (S3.ListParts (Storage.service s)) CallListParts listInput ;;
  match res with
  | inl err => ret (Some err, page)
  | inr output =>
      data <- lift (appendParts (ListPartsOutput.Parts output) (PartPage.Data page)) ;;
      if negb (BoolValue (ListPartsOutput.IsTruncated output)) then
        ret (Some IterateDone, PartPage.mk input data)
      else
        ret (None,
             PartPage.mk
               (partPageStatus.SetPartNumberMarker
                  (Int64Value (ListPartsOutput.NextPartNumberMarker output)) input)
               data)
  end.

Definition write (path : string) (r : Reader) (size : Z) (opt : pairStorageWrite.t)
  : M W (Z * option error) :=
  if size >? writeSizeMaximum then
    ret (0, Some (ErrorfW "size limit exceeded" ErrRestrictionDissatisfied))
  else
    let prepared : error + Reader :=
      if (is_nil r && (size =? 0)) || (negb (is_nil r) && (size =? 0)) then
        inr (BytesReader [])
      else if is_nil r && negb (size =? 0) then
        inl (Errorf "reader is nil but size is not 0")
      else inr (LimitReader r size) in
    match prepared with
    | inl err => ret (0, Some err)
    | inr r =>
        let r := if pairStorageWrite.HasIoCallback opt
                 then CallbackReader r (pairStorageWrite.IoCallback opt) else r in
        match formatPutObjectInput s path size opt with
        | inl err => ret (0, Some err)
        | inr input =>
            let input := PutObjectInput.SetBody (ReadSeekCloser r) input in
            res <- invoke (S3.PutObject (Storage.service s)) CallPutObject input ;;
            match res with
            | inl err => ret (0, Some err)
            | inr _ => ret (size, None)
            end
        end
    end.

Definition writeMultipart (o : Object.t) (r : Reader) (size : Z) (index : Z)
    (opt : pairStorageWriteMultipart.t) : M W (Z * option Part.t * option error) :=
  if size >? multipartSizeMaximum then
    ret (0, None, Some (ErrorfW "size limit exceeded" ErrRestrictionDissatisfied))
  else if (index <? 0) || (index >=? multipartNumberMaximum) then
    ret (0, None,
         Some (ErrorfW "multipart number limit exceeded" ErrRestrictionDissatisfied))
  else
    let r := if pairStorageWriteMultipart.HasIoCallback opt
             then CallbackReader r (pairStorageWriteMultipart.IoCallback opt) else r in
    uploadId <- lift (MustGetMultipartID o) ;;
    let mk sse :=
      UploadPartInput.mk (Some (Storage.name s)) (Some (int64_add index 1))
        (Some (Object.ID o)) (Some uploadId) (Some size)
        (Some (SizedReadSeekCloser r size))
        (if pairStorageWriteMultipart.HasExceptedBucketOwner opt
         then Some (pairStorageWriteMultipart.ExceptedBucketOwner opt) else None)
        (option_map (fun h => fst (fst h)) sse)
        (option_map (fun h => snd (fst h)) sse)
        (option_map (fun h => snd h) sse) in
    let send input :=
      res <- invoke (S3.UploadPart (Storage.service s)) CallUploadPart input ;;
      match res with
      | inl err => ret (0, None, Some err)
      | inr output =>
          ret (size,
               Some (Part.mk index size (StringValue (UploadPartOutput.ETag output))),
               None)
      end in
    if pairStorageWriteMultipart.HasServerSideEncryptionCustomerAlgorithm opt then
      match calculateEncryptionHeaders
              (pairStorageWriteMultipart.ServerSideEncryptionCustomerAlgorithm opt)
              (pairStorageWriteMultipart.ServerSideEncryptionCustomerKey opt) with
      | inl err => ret (0, None, Some err)
      | inr headers => send (mk (Some headers))
      end
    else send (mk None).

(** [listMultipart] builds the status that the part iterator starts from;
    the framework's [NewPartIterator] pairs it with [nextPartPage]. *)
Definition listMultipart (o : Object.t) (opt : pairStorageListMultipart.t)
  : Outcome partPageStatus.t :=
  match MustGetMultipartID o with
  | Panic r => Panic r
  | Normal uploadId =>
      Normal (partPageStatus.mk (Object.ID o) 200 0 uploadId
                (if pairStorageListMultipart.HasExceptedBucketOwner opt
                 then pairStorageListMultipart.ExceptedBucketOwner opt else ""))
  end.

End StorageOps.

(** ** The pull loop of the framework's iterators *)

Inductive IterEnd : Type :=
| IterCompleted
| IterFailed (err : error)
| IterPending.

Section Iterators.
Variable W : Type.

Local Open Scope go_scope.

(** Modelled from the spec: the iterator type of the storage framework, which
    drives the page functions and is not part of this package.  Iteration is
    pull-based: each advance resets the page buffer and calls the page
    function once; a page returned with no error is handed over and the
    iteration goes on; a page returned with [IterateDone] is handed over and
    the iteration is complete; any other error ends the iteration and the
    page is discarded.  [IterPending] is the state of an iterator that was
    advanced [fuel] times and is not finished. *)
Fixpoint pullObjectPages (fuel : nat)
    (next : ObjectPage.t -> M W (option error * ObjectPage.t))
    (page : ObjectPage.t) (pages : list (list Object.t))
  : M W (list (list Object.t) * IterEnd) :=
  match fuel with
  | O => ret (pages, IterPending)
  | S fuel' =>
      r <- next (ObjectPage.mk (ObjectPage.Status page) []) ;;
      match r with
      | (None, page') => pullObjectPages fuel' next page' (pages ++ [ObjectPage.Data page'])
      | (Some err, page') =>
          if errors_Is err IterateDone
          then ret (pages ++ [ObjectPage.Data page'], IterCompleted)
          else ret (pages, IterFailed err)
      end
  end.

End Iterators.

(** ** Sample backends and inputs *)

Definition unreachable {O : Type} : error + O := inl (TransportError "connection refused").

(** A backend that refuses every call. *)
Definition offline : S3.t unit :=
  S3.mk (fun _ b => (unreachable, b)) (fun _ b => (unreachable, b))
        (fun _ b => (unreachable, b)) (fun _ b => (unreachable, b))
        (fun _ b => (unreachable, b)) (fun _ b => (unreachable, b))
        (fun _ b => (unreachable, b)) (fun _ b => (unreachable, b)).

Definition sampleStorage : Storage.t unit :=
  Storage.mk offline "bucket" "/work/" (StorageFeatures.mk false false).

Definition key16 : list byte :=
  [x00; x01; x02; x03; x04; x05; x06; x07; x08; x09; x0a; x0b; x0c; x0d; x0e; x0f].

Definition key32 : list byte :=
  key16 ++
  [x10; x11; x12; x13; x14; x15; x16; x17; x18; x19; x1a; x1b; x1c; x1d; x1e; x1f].

Definition readOptions (hasOffset : bool) (offset : Z) (hasSize : bool) (size : Z)
  : pairStorageRead.t :=
  pairStorageRead.mk false "" false O hasOffset offset false "" false [] hasSize size.

Definition writeOptionsWithKey (key : list byte) : pairStorageWrite.t :=
  pairStorageWrite.mk false "" false "" false O false "" false "" false false
    false "" true "AES256" true key false "".

(** The key option without the algorithm option. *)
Definition writeOptionsKeyOnly (key : list byte) : pairStorageWrite.t :=
  pairStorageWrite.mk false "" false "" false O false "" false "" false false
    false "" false "" true key false "".

Definition writeMultipartOptionsKeyOnly (key : list byte)
  : pairStorageWriteMultipart.t :=
  pairStorageWriteMultipart.mk false "" false O false "" true key.

Definition createMultipartOptionsWithKey (key : list byte)
  : pairStorageCreateMultipart.t :=
  pairStorageCreateMultipart.mk false "" false "" false "" false false false ""
    true "AES256" true key.

Definition writeMultipartOptionsWithKey (key : list byte)
  : pairStorageWriteMultipart.t :=
  pairStorageWriteMultipart.mk false "" false O true "AES256" true key.

Definition sampleUpload : Object.t :=
  Object.mk "work/big" "big" ModePart (Some "upload-1") None None None None true.

Definition startWorld : World.t unit := World.mk tt [].

Definition plainWrite : pairStorageWrite.t :=
  pairStorageWrite.mk false "" false "" false O false "" false "" false false
    false "" false "" false [] false "".

Definition plainWriteMultipart : pairStorageWriteMultipart.t :=
  pairStorageWriteMultipart.mk false "" false O false "" false [].

(** A backend that accepts every call and lists nothing. *)
Definition accepting : S3.t unit :=
  S3.mk (fun _ b => (inr (PutObjectOutput.mk (Some "etag-put")), b))
        (fun _ b => (inr (DeleteObjectOutput.mk None), b))
        (fun _ b => (inr (AbortMultipartUploadOutput.mk None), b))
        (fun _ b => (inr (CompleteMultipartUploadOutput.mk (Some "etag-all")), b))
        (fun _ b => (inr (UploadPartOutput.mk (Some "etag-part")), b))
        (fun _ b => (inr (ListObjectsV2Output.mk [] [] None None), b))
        (fun _ b => (inr (ListMultipartUploadsOutput.mk [] None None None None None), b))
        (fun _ b => (inr (ListPartsOutput.mk [] None None), b)).

Definition acceptingStorage : Storage.t unit :=
  Storage.mk accepting "bucket" "/work/" (StorageFeatures.mk false false).

Definition plainComplete : pairStorageCompleteMultipart.t :=
  pairStorageCompleteMultipart.mk false "".

Definition outOfOrder : list Part.t :=
  [Part.mk 2 5 "etag-c"; Part.mk 0 5 "etag-a"; Part.mk 1 3 "etag-b"].

(** A backend with one multipart upload: it keeps the part numbers it was
    sent, newest first, and lists them. *)
Definition partStore : S3.t (list Z) :=
  S3.mk (fun _ b => (unreachable, b)) (fun _ b => (unreachable, b))
        (fun _ b => (unreachable, b)) (fun _ b => (unreachable, b))
        (fun i b =>
           (inr (UploadPartOutput.mk (Some "etag-part")),
            Int64Value (UploadPartInput.PartNumber i) :: b))
        (fun _ b => (unreachable, b)) (fun _ b => (unreachable, b))
        (fun _ b =>
           (inr (ListPartsOutput.mk
                   (map (fun n => s3Part.mk (Some n) (Some 5) (Some "etag-part")) b)
                   (Some false) None),
            b)).

Definition partStorage : Storage.t (list Z) :=
  Storage.mk partStore "bucket" "/work/" (StorageFeatures.mk false false).

Definition emptyStore : World.t (list Z) := World.mk [] [].

Definition plainListMultipart : pairStorageListMultipart.t :=
  pairStorageListMultipart.mk false "".

Definition sampleStatus : partPageStatus.t :=
  partPageStatus.mk "work/big" 200 0 "upload-1" "".

(** The request token of a status: absent when the stored token is empty. *)
Definition tokenOrNil (i : objectPageStatus.t) : option string :=
  if (objectPageStatus.continuationToken i =? "")%string then None
  else Some (objectPageStatus.continuationToken i).

Definition entry (key : string) : s3Object.t :=
  s3Object.mk (Some key) (Some 3) (Some 1) (Some "etag") None.

(** A backend with three objects under [work/], served two per page, one
    common prefix, and a single object under [work/small/]. *)
Definition paging : S3.t unit :=
  S3.mk (fun _ b => (unreachable, b)) (fun _ b => (unreachable, b))
        (fun _ b => (unreachable, b)) (fun _ b => (unreachable, b))
        (fun _ b => (unreachable, b))
        (fun i b =>
           (if (StringValue (ListObjectsV2Input.Prefix i) =? "work/small/")%string then
              inr (ListObjectsV2Output.mk [] [entry "work/small/x"] (Some false) None)
            else
              match ListObjectsV2Input.ContinuationToken i with
              | None =>
                  inr (ListObjectsV2Output.mk [CommonPrefix.mk (Some "work/small/")]
                         [entry "work/a"; entry "work/b"] (Some true) (Some "token-1"))
              | Some _ =>
                  inr (ListObjectsV2Output.mk [] [entry "work/c"] (Some false) None)
              end,
            b))
        (fun _ b => (unreachable, b)) (fun _ b => (unreachable, b)).

Definition pagingStorage : Storage.t unit :=
  Storage.mk paging "bucket" "/work/" (StorageFeatures.mk true false).

Definition listStatus (prefix delimiter : string) : objectPageStatus.t :=
  objectPageStatus.mk delimiter 200 prefix "" "" "" "".

Definition upload (key id : string) : MultipartUpload.t :=
  MultipartUpload.mk (Some key) (Some id).

(** A backend with two multipart uploads, served one per page.  As the
    service does, it repeats the markers of the request in [KeyMarker] and
    [UploadIdMarker] and gives the markers of the next page in
    [NextKeyMarker] and [NextUploadIdMarker]. *)
Definition uploads : S3.t unit :=
  S3.mk (fun _ b => (unreachable, b)) (fun _ b => (unreachable, b))
        (fun _ b => (unreachable, b)) (fun _ b => (unreachable, b))
        (fun _ b => (unreachable, b)) (fun _ b => (unreachable, b))
        (fun i b =>
           (if (StringValue (ListMultipartUploadsInput.KeyMarker i) =? "")%string then
              inr (ListMultipartUploadsOutput.mk [upload "work/a" "id-a"] (Some true)
                     (ListMultipartUploadsInput.KeyMarker i)
                     (ListMultipartUploadsInput.UploadIdMarker i)
                     (Some "work/a") (Some "id-a"))
            else
              inr (ListMultipartUploadsOutput.mk [upload "work/b" "id-b"] (Some false)
                     (ListMultipartUploadsInput.KeyMarker i)
                     (ListMultipartUploadsInput.UploadIdMarker i)
                     None None),
            b))
        (fun _ b => (unreachable, b)).

Definition uploadsStorage : Storage.t unit :=
  Storage.mk uploads "bucket" "/work/" (StorageFeatures.mk false false).

Definition firstUploadsRequest : ListMultipartUploadsInput.t :=
  ListMultipartUploadsInput.mk (Some "bucket") (Some "") (Some 200) (Some "work/")
    (Some "") None.

Definition uploadA : Object.t :=
  Object.mk "work/a" "a" ModePart (Some "id-a") None None None None true.

Definition notFoundKey : error :=
  RequestFailure "NoSuchKey" "The specified key does not exist.".

Definition notFoundUpload : error :=
  RequestFailure "NoSuchUpload" "The specified upload does not exist.".

(** A backend that answers a delete and an abort with a not-found error. *)
Definition missing : S3.t unit :=
  S3.mk (fun _ b => (unreachable, b))
        (fun _ b => (inl notFoundKey, b))
        (fun _ b => (inl notFoundUpload, b))
        (fun _ b => (unreachable, b)) (fun _ b => (unreachable, b))
        (fun _ b => (unreachable, b)) (fun _ b => (unreachable, b))
        (fun _ b => (unreachable, b)).

Definition missingStorage : Storage.t unit :=
  Storage.mk missing "bucket" "/work/" (StorageFeatures.mk false false).

Definition plainDelete : pairStorageDelete.t :=
  pairStorageDelete.mk false "" false "" false 0.

Definition abortDelete : pairStorageDelete.t :=
  pairStorageDelete.mk false "" true "upload-1" false 0.

Definition readOptionsWithKey (key : list byte) : pairStorageRead.t :=
  pairStorageRead.mk false "" false O false 0 true "AES256" true key false 0.

(** ** Vocabulary of the statements: byte ranges *)

Definition present (has : bool) (v : Z) : option Z := if has then Some v else None.

(** The range header in the words of the specification, on mathematical
    integers. *)
Definition spec_range (offset size : option Z) : option string :=
  match offset, size with
  | Some o, Some n => Some ("bytes=" ++ fmt_d o ++ "-" ++ fmt_d (o + n - 1))%string
  | Some o, None => Some ("bytes=" ++ fmt_d o ++ "-")%string
  | None, Some n => Some ("bytes=0-" ++ fmt_d (n - 1))%string
  | None, None => None
  end.

(** The same header with the last byte computed in [int64], as [fmt.Sprintf]
    receives it. *)
Definition int64_range (offset size : option Z) : option string :=
  match offset, size with
  | Some o, Some n =>
      Some ("bytes=" ++ fmt_d o ++ "-" ++ fmt_d (int64_sub (int64_add o n) 1))%string
  | Some o, None => Some ("bytes=" ++ fmt_d o ++ "-")%string
  | None, Some n => Some ("bytes=0-" ++ fmt_d (int64_sub n 1))%string
  | None, None => None
  end.

(** The last byte of the range fits [int64]. *)
Definition range_end_fits (offset size : option Z) : Prop :=
  match offset, size with
  | Some o, Some n => in_int64 (o + n - 1)
  | None, Some n => in_int64 (n - 1)
  | _, _ => True
  end.

(** ** Vocabulary of the statements: round trips *)

(** The outcome of [write] when it makes exactly one [PutObject] round trip
    with the request [input]: the answer of the backend decides the result,
    and the call is the only one added to the log. *)
Definition putObjectOnce {W : Type} (s : Storage.t W) (input : PutObjectInput.t)
    (size : Z) (w : World.t W) : Outcome (Z * option error) * World.t W :=
  let '(res, b) := S3.PutObject (Storage.service s) input (World.backend w) in
  (Normal (match res with inl err => (0, Some err) | inr _ => (size, None) end),
   World.mk b (World.calls w ++ [CallPutObject input])).

(** ** Vocabulary of the statements: part listings *)

(** An entry of a part listing as the backend sends it: the part number and
    the size are present, and the part number is an [int64]. *)
Definition wellFormedPart (v : s3Part.t) : Prop :=
  exists n size, s3Part.PartNumber v = Some n /\ s3Part.Size v = Some size /\ in_int64 n.

(** The number of parts of a page with index [i], and the number of entries
    of a listing with wire part number [n]. *)
Definition countIndex (i : Z) (data : list Part.t) : nat :=
  List.length (filter (fun p => Part.Index p =? i) data).

Definition countNumber (n : Z) (parts : list s3Part.t) : nat :=
  List.length
    (filter (fun v => match s3Part.PartNumber v with
                      | Some m => m =? n
                      | None => false
                      end) parts).

(** The part that the loop of [nextPartPage] appends for a well-formed
    entry. *)
Definition listedPart (v : s3Part.t) : Part.t :=
  Part.mk (int64_sub (Int64Value (s3Part.PartNumber v)) 1)
    (Int64Value (s3Part.Size v)) (StringValue (s3Part.ETag v)).

(** The part with zero-based index that the specification reports for an
    entry with one-based part number. *)
Definition spec_part (v : s3Part.t) : Part.t :=
  Part.mk (Int64Value (s3Part.PartNumber v) - 1) (Int64Value (s3Part.Size v))
    (StringValue (s3Part.ETag v)).

(** ** Vocabulary of the statements: object listings *)

(** The two object-listing modes that page through [ListObjectsV2]. *)
Inductive listing : Type := ByPrefix | ByDir.

Section Listings.
Variable W : Type.
Variable s : Storage.t W.
Variable getServiceContinuationToken : objectPageStatus.t -> option string.

Definition nextObjectPage (m : listing)
  : ObjectPage.t -> M W (option error * ObjectPage.t) :=
  match m with
  | ByPrefix => nextObjectPageByPrefix s getServiceContinuationToken
  | ByDir => nextObjectPageByDir s getServiceContinuationToken
  end.

Definition listInput (m : listing) : objectPageStatus.t -> ListObjectsV2Input.t :=
  match m with
  | ByPrefix => listInputByPrefix s getServiceContinuationToken
  | ByDir => listInputByDir s getServiceContinuationToken
  end.

(** The entry of a page for a listed object and for a common prefix. *)
Definition fileObject (v : s3Object.t) : Object.t :=
  match formatFileObject s v with
  | Normal (o, _) => o
  | Panic _ => newObject false
  end.

Definition dirObject (v : CommonPrefix.t) : Object.t :=
  let prefix := StringValue (CommonPrefix.Prefix v) in
  Object.SetMode ModeDir
    (Object.SetPath (getRelPath s prefix) (Object.SetID prefix (newObject true))).

(** The page that a response decodes to: in directory mode all common
    prefixes, then all contents. *)
Definition listedObjects (m : listing) (out : ListObjectsV2Output.t) : list Object.t :=
  match m with
  | ByPrefix => map fileObject (ListObjectsV2Output.Contents out)
  | ByDir =>
      map dirObject (ListObjectsV2Output.CommonPrefixes out)
        ++ map fileObject (ListObjectsV2Output.Contents out)
  end.

End Listings.

(** A response as the backend sends it: every entry has its key; in
    directory mode every common prefix has its prefix and a truncated
    response carries the token of the next page. *)
Definition wellFormedListing (m : listing) (out : ListObjectsV2Output.t) : Prop :=
  Forall (fun v => s3Object.Key v <> None) (ListObjectsV2Output.Contents out) /\
  match m with
  | ByPrefix => True
  | ByDir =>
      Forall (fun v => CommonPrefix.Prefix v <> None)
        (ListObjectsV2Output.CommonPrefixes out) /\
      (BoolValue (ListObjectsV2Output.IsTruncated out) = true ->
       ListObjectsV2Output.NextContinuationToken out <> None)
  end.

(** ** Vocabulary of the statements: listings of any number of pages *)

Section PartIterators.
Variable W : Type.

Local Open Scope go_scope.

(** Modelled from the spec: the part iterator of the storage framework, the
    same pull loop as [pullObjectPages] over pages of parts. *)
Fixpoint pullPartPages (fuel : nat)
    (next : PartPage.t -> M W (option error * PartPage.t))
    (page : PartPage.t) (pages : list (list Part.t))
  : M W (list (list Part.t) * IterEnd) :=
  match fuel with
  | O => ret (pages, IterPending)
  | S fuel' =>
      r <- next (PartPage.mk (PartPage.Status page) []) ;;
      match r with
      | (None, page') => pullPartPages fuel' next page' (pages ++ [PartPage.Data page'])
      | (Some err, page') =>
          if errors_Is err IterateDone
          then ret (pages ++ [PartPage.Data page'], IterCompleted)
          else ret (pages, IterFailed err)
      end
  end.

End PartIterators.

Section ServedPages.
Variable W : Type.
Variable s : Storage.t W.
Variable getServiceContinuationToken : objectPageStatus.t -> option string.

(** [servedObjectPages m st b outs b'] : starting from the status [st] and
    the backend state [b], the backend answers the successive requests of
    mode [m] with the well-formed responses [outs], all truncated but the
    last, each request carrying the token of the response before it; [b'] is
    the backend state after the last answer. *)
Inductive servedObjectPages (m : listing)
  : objectPageStatus.t -> W -> list ListObjectsV2Output.t -> W -> Prop :=
| served_last_objects (st : objectPageStatus.t) (b b' : W)
    (out : ListObjectsV2Output.t) :
    S3.ListObjectsV2 (Storage.service s)
      (listInput s getServiceContinuationToken m st) b = (inr out, b') ->
    wellFormedListing m out ->
    BoolValue (ListObjectsV2Output.IsTruncated out) = false ->
    servedObjectPages m st b [out] b'
| served_more_objects (st : objectPageStatus.t) (b b' b'' : W)
    (out : ListObjectsV2Output.t) (outs : list ListObjectsV2Output.t) :
    S3.ListObjectsV2 (Storage.service s)
      (listInput s getServiceContinuationToken m st) b = (inr out, b') ->
    wellFormedListing m out ->
    BoolValue (ListObjectsV2Output.IsTruncated out) = true ->
    servedObjectPages m
      (objectPageStatus.SetContinuationToken
         (StringValue (ListObjectsV2Output.NextContinuationToken out)) st)
      b' outs b'' ->
    servedObjectPages m st b (out :: outs) b''.

(** The same for the part listing of one upload: each request carries the
    part-number marker of the response before it. *)
Inductive servedPartPages
  : partPageStatus.t -> W -> list ListPartsOutput.t -> W -> Prop :=
| served_last_parts (st : partPageStatus.t) (b b' : W) (out : ListPartsOutput.t) :
    S3.ListParts (Storage.service s) (listInputParts s st) b = (inr out, b') ->
    Forall wellFormedPart (ListPartsOutput.Parts out) ->
    BoolValue (ListPartsOutput.IsTruncated out) = false ->
    servedPartPages st b [out] b'
| served_more_parts (st : partPageStatus.t) (b b' b'' : W)
    (out : ListPartsOutput.t) (outs : list ListPartsOutput.t) :
    S3.ListParts (Storage.service s) (listInputParts s st) b = (inr out, b') ->
    Forall wellFormedPart (ListPartsOutput.Parts out) ->
    BoolValue (ListPartsOutput.IsTruncated out) = true ->
    servedPartPages
      (partPageStatus.SetPartNumberMarker
         (Int64Value (ListPartsOutput.NextPartNumberMarker out)) st)
      b' outs b'' ->
    servedPartPages st b (out :: outs) b''.

End ServedPages.

(** ** Further operations of storage.go and utils.go *)

Module pairStorageCreate.
Record t : Type := mk {
  HasMultipartID : bool;
  MultipartID : string;
  HasObjectMode : bool;
  ObjectMode : ObjectMode
}.
End pairStorageCreate.

(** [services.StorageError], the error that the methods of the storage
    return; [Err] is what [Unwrap] gives. *)
Module StorageError.
Record t (W : Type) : Type := mk {
  Op : string;
  Err : error;
  Storager : Storage.t W;
  Path : list string
}.
End StorageError.

Section MoreOps.
Variable W : Type.
Variable s : Storage.t W.

(** [create] returns [nil] when a directory is asked for and directories are
    not emulated. *)
Definition create (path : string) (opt : pairStorageCreate.t) : option Object.t :=
  let rp := getAbsPath s path in
  let made : option (string * Object.t) :=
    if pairStorageCreate.HasMultipartID opt then
      let o := newObject true in
      let o := Object.SetMode ModePart o in
      Some (rp, Object.SetMultipartID (pairStorageCreate.MultipartID opt) o)
    else if pairStorageCreate.HasObjectMode opt
            && Mode_IsDir (pairStorageCreate.ObjectMode opt) then
      if negb (StorageFeatures.VirtualDir (Storage.features s)) then None
      else
        let o := newObject true in
        Some ((rp ++ "/")%string, Object.SetMode ModeDir o)
    else
      let o := newObject false in
      Some (rp, Object.SetMode ModeRead o) in
  match made with
  | None => None
  | Some (rp, o) => Some (Object.SetPath path (Object.SetID rp o))
  end.

(** The method [formatError] of the storage: [nil] stays [nil], any other
    error is classified by [formatError] and put in a [StorageError]. *)
Definition Storage_formatError (op : string) (err : option error) (path : list string)
  : option (StorageError.t W) :=
  match err with
  | None => None
  | Some e => Some (StorageError.mk op (formatError e) s path)
  end.

End MoreOps.

(** The request [i] with its body set. *)
Definition UploadPartInput_SetBody (body : ReadSeeker) (i : UploadPartInput.t)
  : UploadPartInput.t :=
  UploadPartInput.mk (UploadPartInput.Bucket i) (UploadPartInput.PartNumber i)
    (UploadPartInput.Key i) (UploadPartInput.UploadId i)
    (UploadPartInput.ContentLength i) (Some body)
    (UploadPartInput.ExpectedBucketOwner i) (UploadPartInput.SSECustomerAlgorithm i)
    (UploadPartInput.SSECustomerKey i) (UploadPartInput.SSECustomerKeyMD5 i).

(** ** Further sample backends and inputs *)

Definition listedEntry (n : Z) : s3Part.t := s3Part.mk (Some n) (Some 5) (Some "etag-part").

Definition firstParts : ListPartsOutput.t :=
  ListPartsOutput.mk [listedEntry 1; listedEntry 2] (Some true) (Some 2).

Definition lastParts : ListPartsOutput.t :=
  ListPartsOutput.mk [listedEntry 3] (Some false) None.

(** A backend with an upload of three parts, listed two per page. *)
Definition partPages : S3.t unit :=
  S3.mk (fun _ b => (unreachable, b)) (fun _ b => (unreachable, b))
        (fun _ b => (unreachable, b)) (fun _ b => (unreachable, b))
        (fun _ b => (unreachable, b)) (fun _ b => (unreachable, b))
        (fun _ b => (unreachable, b))
        (fun i b =>
           (if Int64Value (ListPartsInput.PartNumberMarker i) =? 0
            then inr firstParts else inr lastParts,
            b)).

Definition partPagesStorage : Storage.t unit :=
  Storage.mk partPages "bucket" "/work/" (StorageFeatures.mk false false).

Definition firstObjects : ListObjectsV2Output.t :=
  ListObjectsV2Output.mk [CommonPrefix.mk (Some "work/small/")]
    [entry "work/a"; entry "work/b"] (Some true) (Some "token-1").

Definition lastObjects : ListObjectsV2Output.t :=
  ListObjectsV2Output.mk [] [entry "work/c"] (Some false) None.

Definition createUpload : pairStorageCreate.t :=
  pairStorageCreate.mk true "upload-1" false 0.

Definition createDirectory : pairStorageCreate.t :=
  pairStorageCreate.mk false "" true ModeDir.

Definition deleteDirectory : pairStorageDelete.t :=
  pairStorageDelete.mk false "" false "" true ModeDir.

(** ** Vocabulary of the statements: errors and encryption fields *)

(** The three kinds into which [formatError] sorts an error that is not one
    of the framework's own. *)
Definition taxonomy : list error :=
  [ErrObjectNotExist; ErrPermissionDenied; ErrUnexpected].



(** ** Listing a path *)

Module pairStorageList.
Record t : Type := mk {
  HasExceptedBucketOwner : bool;
  ExceptedBucketOwner : string;
  HasListMode : bool;
  ListMode : Z
}.
End pairStorageList.

(** What [NewObjectIterator] is given: the page function and the status of
    the page. *)
Module ObjectIterator.
Record t (W : Type) : Type := mk {
  next : ObjectPage.t -> M W (option error * ObjectPage.t);
  status : objectPageStatus.t
}.
End ObjectIterator.

Section List.
Variable W : Type.
Variable s : Storage.t W.
Variable getServiceContinuationToken : objectPageStatus.t -> option string.

(** [ListMode] is a bit set of the framework; its three flags used here are
    constants declared there, taken as parameters. *)
Variables ListModeDir ListModePart ListModePrefix : Z.

Definition ListMode_IsDir (l : Z) : bool := negb (Z.land l ListModeDir =? 0).
Definition ListMode_IsPart (l : Z) : bool := negb (Z.land l ListModePart =? 0).
Definition ListMode_IsPrefix (l : Z) : bool := negb (Z.land l ListModePrefix =? 0).

(** The method [list] of the storage (the name [list] is taken by the list
    type): it returns the iterator, or [services.ListModeInvalidError] with
    the mode that was asked for. *)
Definition Storage_list (path : string) (opt : pairStorageList.t)
  : Z + ObjectIterator.t W :=
  let input delimiter :=
    objectPageStatus.mk delimiter 200 (getAbsPath s path) "" "" ""
      (if pairStorageList.HasExceptedBucketOwner opt
       then pairStorageList.ExceptedBucketOwner opt else "") in
  let mode := if negb (pairStorageList.HasListMode opt)
              then ListModePrefix else pairStorageList.ListMode opt in
  if ListMode_IsPart mode then
    inr (ObjectIterator.mk (nextPartObjectPageByPrefix s) (input ""))
  else if ListMode_IsDir mode then
    inr (ObjectIterator.mk (nextObjectPageByDir s getServiceContinuationToken) (input "/"))
  else if ListMode_IsPrefix mode then
    inr (ObjectIterator.mk (nextObjectPageByPrefix s getServiceContinuationToken)
           (input ""))
  else inl mode.

(** The options select the listing [m]: prefix listing by default or by its
    flag, directory listing by its flag; the part flag is not set. *)
Definition selects (opt : pairStorageList.t) (m : listing) : Prop :=
  match m with
  | ByPrefix =>
      pairStorageList.HasListMode opt = false \/
      (pairStorageList.HasListMode opt = true /\
       ListMode_IsPart (pairStorageList.ListMode opt) = false /\
       ListMode_IsDir (pairStorageList.ListMode opt) = false /\
       ListMode_IsPrefix (pairStorageList.ListMode opt) = true)
  | ByDir =>
      pairStorageList.HasListMode opt = true /\
      ListMode_IsPart (pairStorageList.ListMode opt) = false /\
      ListMode_IsDir (pairStorageList.ListMode opt) = true
  end.

End List.

(** A call is a [ListObjectsV2] request of mode [m] for the bucket, the
    prefix and the page size given, with the delimiter in directory mode and
    none in prefix mode. *)
Definition listRequest (m : listing) (bucket prefix : string) (maxKeys : Z)
    (delimiter : string) (c : Call) : Prop :=
  exists i,
    c = CallListObjectsV2 i /\
    ListObjectsV2Input.Bucket i = Some bucket /\
    ListObjectsV2Input.Prefix i = Some prefix /\
    ListObjectsV2Input.MaxKeys i = Some maxKeys /\
    ListObjectsV2Input.Delimiter i =
      match m with ByPrefix => None | ByDir => Some delimiter end.

Definition listDirectory : pairStorageList.t := pairStorageList.mk false "" true 2.

Definition listDefault : pairStorageList.t := pairStorageList.mk false "" false 0.

(** ** Operations on further client calls: [createMultipart] and [stat] *)

Module CreateMultipartUploadOutput.
Record t : Type := mk {
  UploadId : option string;
  ServerSideEncryption : option string;
  SSEKMSKeyId : option string;
  SSEKMSEncryptionContext : option string;
  SSECustomerAlgorithm : option string;
  SSECustomerKeyMD5 : option string;
  BucketKeyEnabled : option bool
}.
End CreateMultipartUploadOutput.

Module HeadObjectInput.
Record t : Type := mk {
  Bucket : option string;
  Key : option string;
  ExpectedBucketOwner : option string;
  SSECustomerAlgorithm : option string;
  SSECustomerKey : option string;
  SSECustomerKeyMD5 : option string
}.
End HeadObjectInput.

(** [Metadata] is a Go map from names to string pointers, here an association
    list (a [nil] map and an empty one answer every lookup alike). *)
Module HeadObjectOutput.
Record t : Type := mk {
  Metadata : list (string * option string);
  ContentLength : option Z;
  LastModified : option Time;
  ContentType : option string;
  ETag : option string;
  StorageClass : option string;
  ServerSideEncryption : option string;
  SSEKMSKeyId : option string;
  SSECustomerAlgorithm : option string;
  SSECustomerKeyMD5 : option string;
  BucketKeyEnabled : option bool
}.
End HeadObjectOutput.

(** The request of [PutObject] with the field [Metadata], a Go map from names
    to string pointers (a [nil] map is the empty list), which [createLink]
    sets. *)
Module PutObjectInputWithMetadata.
Record t : Type := mk {
  Input : PutObjectInput.t;
  Metadata : list (string * option string)
}.
End PutObjectInputWithMetadata.

(** The answer of [PutObject] with the fields that [createDir] and
    [createLink] read. *)
Module PutObjectOutputWithEncryption.
Record t : Type := mk {
  ETag : option string;
  ServerSideEncryption : option string;
  SSEKMSKeyId : option string;
  SSEKMSEncryptionContext : option string;
  SSECustomerAlgorithm : option string;
  SSECustomerKeyMD5 : option string;
  BucketKeyEnabled : option bool
}.
End PutObjectOutputWithEncryption.

(** The calls of the client that [S3.t] does not list, and [PutObject] with
    the fuller request and answer above. *)
Module S3More.
Record t (W : Type) : Type := mk {
  CreateMultipartUpload :
    CreateMultipartUploadInput.t -> W -> (error + CreateMultipartUploadOutput.t) * W;
  HeadObject : HeadObjectInput.t -> W -> (error + HeadObjectOutput.t) * W;
  PutObject :
    PutObjectInputWithMetadata.t -> W -> (error + PutObjectOutputWithEncryption.t) * W
}.
End S3More.

Inductive CallMore : Type :=
| CallCreateMultipartUpload (i : CreateMultipartUploadInput.t)
| CallHeadObject (i : HeadObjectInput.t)
| CallPutObjectWithMetadata (i : PutObjectInputWithMetadata.t).

(** The backend with the log of all calls, those of [Call] and the further
    ones, in the order they were made. *)
Module Session.
Record t (W : Type) : Type := mk { backend : W; calls : list (Call + CallMore) }.
End Session.

Definition M2 (W A : Type) : Type := Session.t W -> Outcome A * Session.t W.

Definition ret2 {W A : Type} (a : A) : M2 W A := fun ss => (Normal a, ss).

Definition bind2 {W A B : Type} (m : M2 W A) (k : A -> M2 W B) : M2 W B :=
  fun ss =>
    match m ss with
    | (Normal a, ss') => k a ss'
    | (Panic r, ss') => (Panic r, ss')
    end.

(** A computation on the calls of [S3.t], run in a session: its calls are
    appended to the session's log. *)
Definition inSession {W A : Type} (m : M W A) : M2 W A :=
  fun ss =>
    let '(r, w) := m (World.mk (Session.backend ss) []) in
    (r, Session.mk (World.backend w) (Session.calls ss ++ map inl (World.calls w))).

Definition invokeMore {W I O : Type} (f : I -> W -> (error + O) * W)
    (tag : I -> CallMore) (input : I) : M2 W (error + O) :=
  fun ss =>
    let '(r, b) := f input (Session.backend ss) in
    (Normal r, Session.mk b (Session.calls ss ++ [inr (tag input)])).

Declare Scope session_scope.
Delimit Scope session_scope with session.

Notation "x <- m ;; k" := (bind2 m (fun x => k))
  (at level 61, m at next level, right associativity) : session_scope.

Module pairStorageStat.
Record t : Type := mk {
  HasExceptedBucketOwner : bool;
  ExceptedBucketOwner : string;
  HasMultipartID : bool;
  MultipartID : string;
  HasObjectMode : bool;
  ObjectMode : ObjectMode;
  HasServerSideEncryptionCustomerAlgorithm : bool;
  ServerSideEncryptionCustomerAlgorithm : string;
  HasServerSideEncryptionCustomerKey : bool;
  ServerSideEncryptionCustomerKey : list byte
}.
End pairStorageStat.

Module pairStorageCreateDir.
Record t : Type := mk {
  HasStorageClass : bool;
  StorageClass : string;
  HasExceptedBucketOwner : bool;
  ExceptedBucketOwner : string
}.
End pairStorageCreateDir.

(** [createLink] reads none of its options. *)
Module pairStorageCreateLink.
Record t : Type := mk { }.
End pairStorageCreateLink.

(** What [createDir] returns as error: the error of an operation that is not
    implemented, or the error of the backend. *)
Inductive createDirError : Type :=
| NewOperationNotImplementedError (op : string)
| PutObjectError (err : error).

(** The object that [stat] and [createLink] return: the fields of [Object.t]
    and the two further fields that only they set, the link target and (in
    [stat]) the content type. *)
Module StatObject.
Record t : Type := mk {
  Object : Object.t;
  LinkTarget : option string;
  ContentType : option string
}.
End StatObject.

(* metadataLinkTargetHeader is the name of the user-defined metadata name used
   to store the link target. *)
Definition metadataLinkTargetHeader : string := "x-amz-meta-bs-link-target".

(** The lookup [metadata[name]] with its presence flag. *)
Fixpoint lookupMetadata (name : string) (metadata : list (string * option string))
  : option (option string) :=
  match metadata with
  | [] => None
  | (k, v) :: rest => if (k =? name)%string then Some v else lookupMetadata name rest
  end.

(** [if v := aws.StringValue(p); v != "" { field = v }] on a zero field. *)
Definition nonEmpty (p : option string) : string :=
  let v := StringValue p in if negb (v =? "")%string then v else "".

Section SessionOps.
Variable W : Type.
Variable s : Storage.t W.
Variable more : S3More.t W.

Local Open Scope session_scope.

Definition createMultipart (path : string) (opt : pairStorageCreateMultipart.t)
  : M2 W (error + Object.t) :=
  let rp := getAbsPath s path in
  match formatCreateMultipartUploadInput s path opt with
  | inl err => ret2 (inl err)
  | inr input =>
      res <- invokeMore (S3More.CreateMultipartUpload more)
               CallCreateMultipartUpload input ;;
      match res with
      | inl err => ret2 (inl err)
      | inr output =>
          let o := newObject true in
          let o := Object.SetID rp o in
          let o := Object.SetPath path o in
          let o := Object.SetMode (Z.lor (Object.Mode o) ModePart) o in
          let o := Object.SetMultipartID
                     (StringValue (CreateMultipartUploadOutput.UploadId output)) o in
          let sm :=
            ObjectSystemMetadata.mk
              (nonEmpty (CreateMultipartUploadOutput.ServerSideEncryption output))
              (nonEmpty (CreateMultipartUploadOutput.SSEKMSKeyId output))
              (match CreateMultipartUploadOutput.BucketKeyEnabled output with
               | Some v => v
               | None => false
               end)
              (nonEmpty (CreateMultipartUploadOutput.SSEKMSEncryptionContext output))
              (nonEmpty (CreateMultipartUploadOutput.SSECustomerAlgorithm output))
              (nonEmpty (CreateMultipartUploadOutput.SSECustomerKeyMD5 output))
              "" in
          ret2 (inr (Object.SetSystemMetadata sm o))
      end
  end.

Definition createDir (path : string) (opt : pairStorageCreateDir.t)
  : M2 W (createDirError + Object.t) :=
  if negb (StorageFeatures.VirtualDir (Storage.features s)) then
    ret2 (inl (NewOperationNotImplementedError "create_dir"))
  else
    let rp := getAbsPath s path in
    (* Add `/` at the end of `path` to simulate a directory. *)
    let rp := (rp ++ "/")%string in
    let input :=
      PutObjectInput.mk (Some (Storage.name s)) (Some rp) (Some 0) None None
        (if pairStorageCreateDir.HasStorageClass opt
         then Some (pairStorageCreateDir.StorageClass opt) else None)
        (if pairStorageCreateDir.HasExceptedBucketOwner opt
         then Some (pairStorageCreateDir.ExceptedBucketOwner opt) else None)
        None None None None None None None in
    res <- invokeMore (S3More.PutObject more) CallPutObjectWithMetadata
             (PutObjectInputWithMetadata.mk input []) ;;
    match res with
    | inl err => ret2 (inl (PutObjectError err))
    | inr output =>
        let o := newObject true in
        let o := Object.SetMode ModeDir o in
        let o := Object.SetID rp o in
        let o := Object.SetPath path o in
        let o := Object.SetEtag
                   (StringValue (PutObjectOutputWithEncryption.ETag output)) o in
        let sm :=
          ObjectSystemMetadata.mk
            (nonEmpty (PutObjectOutputWithEncryption.ServerSideEncryption output))
            (nonEmpty (PutObjectOutputWithEncryption.SSEKMSKeyId output))
            (match PutObjectOutputWithEncryption.BucketKeyEnabled output with
             | Some v => v
             | None => false
             end)
            (nonEmpty (PutObjectOutputWithEncryption.SSEKMSEncryptionContext output))
            (nonEmpty (PutObjectOutputWithEncryption.SSECustomerAlgorithm output))
            (nonEmpty (PutObjectOutputWithEncryption.SSECustomerKeyMD5 output))
            "" in
        ret2 (inr (Object.SetSystemMetadata sm o))
    end.

Definition createLink (path target : string) (opt : pairStorageCreateLink.t)
  : M2 W (error + StatObject.t) :=
  let rt := getAbsPath s target in
  let rp := getAbsPath s path in
  let input :=
    PutObjectInputWithMetadata.mk
      (PutObjectInput.mk (Some (Storage.name s)) (Some rp) None None None None None
         None None None None None None None)
      (* As s3 does not support symlink, we can only use user-defined metadata
         to simulate it. *)
      [(metadataLinkTargetHeader, Some rt)] in
  res <- invokeMore (S3More.PutObject more) CallPutObjectWithMetadata input ;;
  match res with
  | inl err => ret2 (inl err)
  | inr output =>
      let o := newObject true in
      let o := Object.SetID rp o in
      let o := Object.SetPath path o in
      let '(o, linkTarget) :=
        if negb (StorageFeatures.VirtualLink (Storage.features s)) then
          (* The virtual link is not enabled, so we set the object mode to
             `ModeRead`. *)
          (Object.SetMode (Z.lor (Object.Mode o) ModeRead) o, None)
        else
          (Object.SetMode (Z.lor (Object.Mode o) ModeLink) o, Some ("/" ++ rt)%string) in
      let sm :=
        ObjectSystemMetadata.mk
          (nonEmpty (PutObjectOutputWithEncryption.ServerSideEncryption output))
          (nonEmpty (PutObjectOutputWithEncryption.SSEKMSKeyId output))
          (match PutObjectOutputWithEncryption.BucketKeyEnabled output with
           | Some v => v
           | None => false
           end)
          (nonEmpty (PutObjectOutputWithEncryption.SSEKMSEncryptionContext output))
          (nonEmpty (PutObjectOutputWithEncryption.SSECustomerAlgorithm output))
          (nonEmpty (PutObjectOutputWithEncryption.SSECustomerKeyMD5 output))
          "" in
      ret2 (inr (StatObject.mk (Object.SetSystemMetadata sm o) linkTarget None))
  end.

Definition stat (path : string) (opt : pairStorageStat.t)
  : M2 W (error + StatObject.t) :=
  let rp := getAbsPath s path in
  let owner :=
    if pairStorageStat.HasExceptedBucketOwner opt
    then Some (pairStorageStat.ExceptedBucketOwner opt) else None in
  if pairStorageStat.HasMultipartID opt then
    let listInput :=
      ListPartsInput.mk (Some (Storage.name s)) (Some rp) None None
        (Some (pairStorageStat.MultipartID opt)) owner in
    res <- inSession (invoke (S3.ListParts (Storage.service s)) CallListParts listInput) ;;
    match res with
    | inl err => ret2 (inl err)
    | inr _ =>
        let o := newObject true in
        let o := Object.SetID rp o in
        let o := Object.SetPath path o in
        let o := Object.SetMode (Mode_Add (Object.Mode o) ModePart) o in
        let o := Object.SetMultipartID (pairStorageStat.MultipartID opt) o in
        ret2 (inr (StatObject.mk o None None))
    end
  else
    let dir := pairStorageStat.HasObjectMode opt
               && Mode_IsDir (pairStorageStat.ObjectMode opt) in
    if dir && negb (StorageFeatures.VirtualDir (Storage.features s)) then
      ret2 (inl (PairUnsupportedError "object_mode"))
    else
      let rp := if dir then (rp ++ "/")%string else rp in
      let headers : error + option (string * string * string) :=
        if pairStorageStat.HasServerSideEncryptionCustomerAlgorithm opt then
          match calculateEncryptionHeaders
                  (pairStorageStat.ServerSideEncryptionCustomerAlgorithm opt)
                  (pairStorageStat.ServerSideEncryptionCustomerKey opt) with
          | inl err => inl err
          | inr h => inr (Some h)
          end
        else inr None in
      match headers with
      | inl err => ret2 (inl err)
      | inr sse =>
          let input :=
            HeadObjectInput.mk (Some (Storage.name s)) (Some rp) owner
              (option_map (fun h => fst (fst h)) sse)
              (option_map (fun h => snd (fst h)) sse)
              (option_map (fun h => snd h) sse) in
          res <- invokeMore (S3More.HeadObject more) CallHeadObject input ;;
          match res with
          | inl err => ret2 (inl err)
          | inr output =>
              let o := newObject true in
              let o := Object.SetID rp o in
              let o := Object.SetPath path o in
              let linked : Outcome (Object.t * option string) :=
                match lookupMetadata metadataLinkTargetHeader
                        (HeadObjectOutput.Metadata output) with
                | Some target =>
                    if negb (StorageFeatures.VirtualLink (Storage.features s)) then
                      Normal (Object.SetMode (Z.lor (Object.Mode o) ModeRead) o, None)
                    else
                      let o := Object.SetMode (Z.lor (Object.Mode o) ModeLink) o in
                      match target with
                      | None => Panic nil_dereference
                      | Some t => Normal (o, Some ("/" ++ t)%string)
                      end
                | None => Normal (o, None)
                end in
              match linked with
              | Panic reason => fun ss => (Panic reason, ss)
              | Normal (o, linkTarget) =>
                  let o :=
                    if (Z.land (Object.Mode o) ModeLink =? 0)
                       && (Z.land (Object.Mode o) ModeRead =? 0) then
                      if dir
                      then Object.SetMode (Z.lor (Object.Mode o) ModeDir) o
                      else Object.SetMode (Z.lor (Object.Mode o) ModeRead) o
                    else o in
                  let o := Object.SetContentLength
                             (Int64Value (HeadObjectOutput.ContentLength output)) o in
                  let o := Object.SetLastModified
                             (TimeValue (HeadObjectOutput.LastModified output)) o in
                  let o := match HeadObjectOutput.ETag output with
                           | Some e => Object.SetEtag e o
                           | None => o
                           end in
                  let sm :=
                    ObjectSystemMetadata.mk
                      (nonEmpty (HeadObjectOutput.ServerSideEncryption output))
                      (nonEmpty (HeadObjectOutput.SSEKMSKeyId output))
                      (match HeadObjectOutput.BucketKeyEnabled output with
                       | Some v => v
                       | None => false
                       end)
                      ""
                      (nonEmpty (HeadObjectOutput.SSECustomerAlgorithm output))
                      (nonEmpty (HeadObjectOutput.SSECustomerKeyMD5 output))
                      (nonEmpty (HeadObjectOutput.StorageClass output)) in
                  ret2 (inr (StatObject.mk (Object.SetSystemMetadata sm o) linkTarget
                               (HeadObjectOutput.ContentType output)))
              end
          end
      end.

End SessionOps.

(** ** Vocabulary of the statements: the mode that [stat] reports *)

(** The single mode of a stat'ed object: a link when the link-target entry is
    present and links are emulated, a directory when there is no such entry
    and a directory was asked for, readable otherwise. *)
Definition statMode (hasTarget link dir : bool) : ObjectMode :=
  if hasTarget then (if link then ModeLink else ModeRead)
  else if dir then ModeDir else ModeRead.

Definition statKey {W : Type} (s : Storage.t W) (path : string) (dir : bool) : string :=
  if dir then (getAbsPath s path ++ "/")%string else getAbsPath s path.

(** ** Sample sessions *)

Definition linkOutput : HeadObjectOutput.t :=
  HeadObjectOutput.mk [("x-amz-meta-bs-link-target", Some "work/target")]
    (Some 0) (Some 1) None (Some "etag-link") None None None None None None.

(** A client that creates the upload ["upload-1"] and whose every object is
    a link to [work/target]. *)
Definition linking : S3More.t unit :=
  S3More.mk
    (fun _ b =>
       (inr (CreateMultipartUploadOutput.mk (Some "upload-1") None None None None None
               None), b))
    (fun _ b => (inr linkOutput, b))
    (fun _ b =>
       (inr (PutObjectOutputWithEncryption.mk (Some "etag-put") None None None None None
               None), b)).

Definition startSession : Session.t unit := Session.mk tt [].

Definition linkStorage : Storage.t unit :=
  Storage.mk accepting "bucket" "/work/" (StorageFeatures.mk true true).

Definition plainStat : pairStorageStat.t :=
  pairStorageStat.mk false "" false "" false 0 false "" false [].

Definition statDirectory : pairStorageStat.t :=
  pairStorageStat.mk false "" false "" true ModeDir false "" false [].

Definition statUpload : pairStorageStat.t :=
  pairStorageStat.mk false "" true "upload-1" false 0 false "" false [].

Definition plainCreateDir : pairStorageCreateDir.t :=
  pairStorageCreateDir.mk false "" false "".

Definition plainCreateLink : pairStorageCreateLink.t := pairStorageCreateLink.mk.

Definition plainCreateMultipart : pairStorageCreateMultipart.t :=
  pairStorageCreateMultipart.mk false "" false "" false "" false false false ""
    false "" false [].

(** ** Initialisation: [newServicer], [newStorage], [newServicerAndStorager] *)

(** The fields of [aws.Config] that [newServicer] sets. *)
Module Config.
Record t (HTTPClient Credentials : Type) : Type := mk {
  HTTPClient_ : option HTTPClient;
  S3DisableContentMD5Validation : option bool;
  LowerCaseHeaderMaps : option bool;
  Endpoint : option string;
  S3ForcePathStyle : option bool;
  S3Disable100Continue : option bool;
  S3UseAccelerate : option bool;
  S3UseARNRegion : option bool;
  Credentials_ : option Credentials
}.
End Config.

Module pairServiceNew.
Record t (HTTPClientOptions DefaultServicePairs ServiceFeatures : Type) : Type := mk {
  HTTPClientOptions_ : HTTPClientOptions;
  Credential : string;
  HasEndpoint : bool;
  Endpoint : string;
  HasForcePathStyle : bool;
  ForcePathStyle : bool;
  HasDisable100Continue : bool;
  Disable100Continue : bool;
  HasUseAccelerate : bool;
  UseAccelerate : bool;
  HasUseArnRegion : bool;
  UseArnRegion : bool;
  HasDefaultServicePairs : bool;
  DefaultServicePairs_ : DefaultServicePairs;
  HasServiceFeatures : bool;
  ServiceFeatures_ : ServiceFeatures
}.
End pairServiceNew.

Module pairStorageNew.
Record t : Type := mk {
  Name : string;
  Location : string;
  HasWorkDir : bool;
  WorkDir : string;
  HasStorageFeatures : bool;
  StorageFeatures_ : StorageFeatures.t
}.
End pairStorageNew.

Module Service.
Record t (W Session DefaultServicePairs ServiceFeatures : Type) : Type := mk {
  sess : Session;
  service : S3.t W;
  defaultPairs : option DefaultServicePairs;
  features : option ServiceFeatures
}.
End Service.

(** [services.InitError]. *)
Module InitError.
Record t (Pair : Type) : Type := mk {
  Op : string;
  Type_ : string;
  Err : error;
  Pairs : list Pair
}.
End InitError.

Section Init.
(** The types and functions of the SDK and of the framework that the
    initialisation calls, and the parsers of pairs that are generated next to
    the package, are parameters. *)
Variables W Pair HTTPClientOptions HTTPClient EndpointT CredentialT Credentials
          Session DefaultServicePairs ServiceFeatures : Type.
Variable Type_ : string.
Variable parsePairServiceNew :
  list Pair -> error + pairServiceNew.t HTTPClientOptions DefaultServicePairs ServiceFeatures.
Variable parsePairStorageNew : list Pair -> error + pairStorageNew.t.
Variable httpclient_New : HTTPClientOptions -> HTTPClient.
Variable endpoint_Parse : string -> error + EndpointT.
Variable Endpoint_Protocol : EndpointT -> string.
Variables Endpoint_HTTP Endpoint_HTTPS : EndpointT -> string.
Variables ProtocolHTTP ProtocolHTTPS : string.
Variable credential_Parse : string -> error + CredentialT.
Variable Credential_Protocol : CredentialT -> string.
Variable Credential_Hmac : CredentialT -> string * string.
Variables ProtocolHmac ProtocolEnv : string.
Variable NewStaticCredentials : string -> string -> string -> Credentials.
Variable NewEnvCredentials : Credentials.
Variable session_NewSession : Config.t HTTPClient Credentials -> error + Session.
Variable newS3Service : Session -> option string -> S3.t W.

(** The configuration that [newServicer] has built when it reaches
    [session.NewSession], or the error that stopped it before. *)
Definition servicerConfig
    (opt : pairServiceNew.t HTTPClientOptions DefaultServicePairs ServiceFeatures)
  : error + Config.t HTTPClient Credentials :=
  let endpoint : error + option string :=
    if pairServiceNew.HasEndpoint opt then
      match endpoint_Parse (pairServiceNew.Endpoint opt) with
      | inl err => inl err
      | inr ep =>
          if (Endpoint_Protocol ep =? ProtocolHTTP)%string then inr (Some (Endpoint_HTTP ep))
          else if (Endpoint_Protocol ep =? ProtocolHTTPS)%string
          then inr (Some (Endpoint_HTTPS ep))
          else inl (PairUnsupportedError "endpoint")
      end
    else inr None in
  match endpoint with
  | inl err => inl err
  | inr url =>
      let disable100 :=
        if pairServiceNew.HasUseAccelerate opt
        then Some (pairServiceNew.UseAccelerate opt)
        else if pairServiceNew.HasDisable100Continue opt
        then Some (pairServiceNew.Disable100Continue opt)
        else None in
      let cfg credentials :=
        Config.mk (Some (httpclient_New (pairServiceNew.HTTPClientOptions_ opt)))
          (Some true) (Some true) url
          (if pairServiceNew.HasForcePathStyle opt
           then Some (pairServiceNew.ForcePathStyle opt) else None)
          disable100
          None
          (if pairServiceNew.HasUseArnRegion opt
           then Some (pairServiceNew.UseArnRegion opt) else None)
          (Some credentials) in
      match credential_Parse (pairServiceNew.Credential opt) with
      | inl err => inl err
      | inr cp =>
          if (Credential_Protocol cp =? ProtocolHmac)%string then
            let '(ak, sk) := Credential_Hmac cp in
            inr (cfg (NewStaticCredentials ak sk ""))
          else if (Credential_Protocol cp =? ProtocolEnv)%string then
            inr (cfg NewEnvCredentials)
          else inl (PairUnsupportedError "credential")
      end
  end.

Definition newServicer (pairs : list Pair)
  : InitError.t Pair + Service.t W Session DefaultServicePairs ServiceFeatures :=
  let failed err := inl (InitError.mk "new_servicer" Type_ (formatError err) pairs) in
  match parsePairServiceNew pairs with
  | inl err => failed err
  | inr opt =>
      match servicerConfig opt with
      | inl err => failed err
      | inr cfg =>
          match session_NewSession cfg with
          | inl err => failed err
          | inr sess =>
              inr (Service.mk sess (newS3Service sess None)
                     (if pairServiceNew.HasDefaultServicePairs opt
                      then Some (pairServiceNew.DefaultServicePairs_ opt) else None)
                     (if pairServiceNew.HasServiceFeatures opt
                      then Some (pairServiceNew.ServiceFeatures_ opt) else None))
          end
      end
  end.

(** The method [newStorage] of the service; the default pairs of the storage
    are not part of [Storage.t]. *)
Definition newStorage
    (srv : Service.t W Session DefaultServicePairs ServiceFeatures) (pairs : list Pair)
  : error + Storage.t W :=
  match parsePairStorageNew pairs with
  | inl err => inl err
  | inr opt =>
      inr (Storage.mk
             (newS3Service (Service.sess srv) (Some (pairStorageNew.Location opt)))
             (pairStorageNew.Name opt)
             (if pairStorageNew.HasWorkDir opt then pairStorageNew.WorkDir opt else "/")
             (if pairStorageNew.HasStorageFeatures opt
              then pairStorageNew.StorageFeatures_ opt
              else StorageFeatures.mk false false))
  end.

(** The three results are [srv], [store] and [err]: when the storage cannot
    be made, the service is returned with the error. *)
Definition newServicerAndStorager (pairs : list Pair)
  : option (Service.t W Session DefaultServicePairs ServiceFeatures)
    * option (Storage.t W) * option (InitError.t Pair) :=
  match newServicer pairs with
  | inl err => (None, None, Some err)
  | inr srv =>
      match newStorage srv pairs with
      | inl err =>
          (Some srv, None,
           Some (InitError.mk "new_storager" Type_ (formatError err) pairs))
      | inr store => (Some srv, Some store, None)
      end
  end.

(* NewStorager will create Storager only. *)
Definition NewStorager (pairs : list Pair)
  : option (Storage.t W) * option (InitError.t Pair) :=
  let '(_, store, err) := newServicerAndStorager pairs in (store, err).

End Init.

(** ** Sample initialisation *)

Definition samplePairs : list (string * string) :=
  [("credential", "hmac:key:secret"); ("name", "bucket"); ("location", "us-east-1")].

(** Options with an endpoint, with [Disable100Continue] set to false and,
    if [accelerate], with [UseAccelerate] set to true. *)
Definition sampleServiceOptions (endpoint : string) (accelerate : bool)
  : pairServiceNew.t unit unit unit :=
  pairServiceNew.mk tt "hmac:key:secret" true endpoint false false true false
    accelerate true false false false tt false tt.

Definition sampleStorageOptions : pairStorageNew.t :=
  pairStorageNew.mk "bucket" "us-east-1" false "" false (StorageFeatures.mk false false).

(** An instance of the parameters of the initialisation: an endpoint has the
    protocol named before its colon, every credential is an [hmac] one, and
    a session is the endpoint of its configuration. *)
Definition protocolOf (endpoint : string) : string :=
  if HasPrefix endpoint "https:" then "https"
  else if HasPrefix endpoint "http:" then "http" else "ftp".

Definition sampleConfig (opt : pairServiceNew.t unit unit unit)
  : error + Config.t unit string :=
  servicerConfig (fun _ => tt) (fun e => inr e) protocolOf (fun e => e) (fun e => e)
    "http" "https" (fun c => inr c) (fun _ => "hmac") (fun _ => ("key", "secret"))
    "hmac" "env" (fun ak sk _ => (ak ++ ":" ++ sk)%string) "env" opt.

Definition sampleServicer (opt : pairServiceNew.t unit unit unit)
    (pairs : list (string * string))
  : InitError.t (string * string) + Service.t unit (option string) unit unit :=
  newServicer "s3"
    (fun _ => inr opt)
    (fun _ => tt) (fun e => inr e) protocolOf (fun e => e) (fun e => e) "http" "https"
    (fun c => inr c) (fun _ => "hmac") (fun _ => ("key", "secret")) "hmac" "env"
    (fun ak sk _ => (ak ++ ":" ++ sk)%string) "env"
    (fun cfg => inr (Config.Endpoint cfg))
    (fun _ _ => accepting) pairs.

Definition sampleService : Service.t unit (option string) unit unit :=
  Service.mk (Some "https:host") accepting None None.

(** ** [metadata] *)

(** [metadata] reads none of its options. *)
Module pairStorageMetadata.
Record t : Type := mk { }.
End pairStorageMetadata.

(** The fields of [StorageMeta] that [metadata] sets; a limit that was not
    set is [None]. *)
Module StorageMeta.
Record t : Type := mk {
  Name : string;
  WorkDir : string;
  WriteSizeMaximum : option Z;
  MultipartNumberMaximum : option Z;
  MultipartSizeMaximum : option Z;
  MultipartSizeMinimum : option Z
}.
End StorageMeta.

Definition NewStorageMeta : StorageMeta.t := StorageMeta.mk "" "" None None None None.

Definition metadata {W : Type} (s : Storage.t W) (opt : pairStorageMetadata.t)
  : StorageMeta.t :=
  let meta := NewStorageMeta in
  let meta := StorageMeta.mk (Storage.name s) (StorageMeta.WorkDir meta)
                (StorageMeta.WriteSizeMaximum meta) (StorageMeta.MultipartNumberMaximum meta)
                (StorageMeta.MultipartSizeMaximum meta)
                (StorageMeta.MultipartSizeMinimum meta) in
  let meta := StorageMeta.mk (StorageMeta.Name meta) (Storage.workDir s)
                (StorageMeta.WriteSizeMaximum meta) (StorageMeta.MultipartNumberMaximum meta)
                (StorageMeta.MultipartSizeMaximum meta)
                (StorageMeta.MultipartSizeMinimum meta) in
  (* set write restriction *)
  let meta := StorageMeta.mk (StorageMeta.Name meta) (StorageMeta.WorkDir meta)
                (Some writeSizeMaximum) (StorageMeta.MultipartNumberMaximum meta)
                (StorageMeta.MultipartSizeMaximum meta)
                (StorageMeta.MultipartSizeMinimum meta) in
  (* set multipart restrictions *)
  let meta := StorageMeta.mk (StorageMeta.Name meta) (StorageMeta.WorkDir meta)
                (StorageMeta.WriteSizeMaximum meta) (Some multipartNumberMaximum)
                (StorageMeta.MultipartSizeMaximum meta)
                (StorageMeta.MultipartSizeMinimum meta) in
  let meta := StorageMeta.mk (StorageMeta.Name meta) (StorageMeta.WorkDir meta)
                (StorageMeta.WriteSizeMaximum meta) (StorageMeta.MultipartNumberMaximum meta)
                (Some multipartSizeMaximum)
                (StorageMeta.MultipartSizeMinimum meta) in
  StorageMeta.mk (StorageMeta.Name meta) (StorageMeta.WorkDir meta)
    (StorageMeta.WriteSizeMaximum meta) (StorageMeta.MultipartNumberMaximum meta)
    (StorageMeta.MultipartSizeMaximum meta)
    (Some multipartSizeMinimum).

(** * Properties *)

(** Run the one client call under the goal and split on its answer. *)
Ltac round_trip call :=
  unfold bind, invoke;
  match goal with
  | |- context [call ?svc ?input ?b] =>
      let e := fresh "err" in
      let out := fresh "output" in
      let b' := fresh "b" in
      destruct (call svc input b) as [[e | out] b']
  end;
  reflexivity.

(** ** Machine integers *)

Lemma wrap64_id (z : Z) : in_int64 z -> wrap64 z = z.
Proof.
  unfold in_int64, wrap64, min_int64, max_int64. intros H.
  rewrite Z.mod_small; lia.
Qed.

Lemma wrap64_idem_add (a b : Z) : wrap64 (wrap64 a + b) = wrap64 (a + b).
Proof.
  unfold wrap64. f_equal.
  replace ((a + 2 ^ 63) mod 2 ^ 64 - 2 ^ 63 + b + 2 ^ 63)
    with ((a + 2 ^ 63) mod 2 ^ 64 + b) by lia.
  rewrite Zplus_mod_idemp_l. f_equal. lia.
Qed.

Lemma int64_add_exact (a b : Z) : in_int64 (a + b) -> int64_add a b = a + b.
Proof. apply wrap64_id. Qed.

Lemma int64_sub_exact (a b : Z) : in_int64 (a - b) -> int64_sub a b = a - b.
Proof. apply wrap64_id. Qed.

Lemma int64_sub_add_exact (a b c : Z) :
  in_int64 (a + b - c) -> int64_sub (int64_add a b) c = a + b - c.
Proof.
  intros H. unfold int64_sub, int64_add.
  replace (wrap64 (a + b) - c) with (wrap64 (a + b) + - c) by lia.
  rewrite wrap64_idem_add. apply wrap64_id.
  replace (a + b + - c) with (a + b - c) by lia. exact H.
Qed.

(** Subtracting one inverts adding one on [int64], overflow included. *)
Lemma int64_sub_add_one (i : Z) : in_int64 i -> int64_sub (int64_add i 1) 1 = i.
Proof.
  intros H. rewrite int64_sub_add_exact.
  - lia.
  - replace (i + 1 - 1) with i by lia. exact H.
Qed.

Lemma int64_sub_one_inj (n i : Z) :
  in_int64 n -> 0 <= i < multipartNumberMaximum ->
  (int64_sub n 1 = i <-> n = i + 1).
Proof.
  unfold in_int64, int64_sub, wrap64, min_int64, max_int64, multipartNumberMaximum.
  intros Hn Hi. split; intros H.
  - destruct (Z.eq_dec n (- 2 ^ 63)) as [-> | Hne].
    + assert (E : (- 2 ^ 63 - 1 + 2 ^ 63) mod 2 ^ 64 - 2 ^ 63 = 2 ^ 63 - 1)
        by reflexivity.
      rewrite E in H. lia.
    + rewrite Z.mod_small in H by lia. lia.
  - subst n. rewrite Z.mod_small by lia. lia.
Qed.

(** ** Strings *)

Lemma HasPrefix_app (p t : string) : HasPrefix (p ++ t)%string p = true.
Proof.
  induction p as [| a p IH]; simpl.
  - destruct t; reflexivity.
  - rewrite Ascii.eqb_refl. exact IH.
Qed.

Lemma drop_app (p t : string) : drop (String.length p) (p ++ t)%string = t.
Proof. induction p as [| a p IH]; simpl; [reflexivity | exact IH]. Qed.

Lemma TrimPrefix_app (p t : string) : TrimPrefix (p ++ t)%string p = t.
Proof. unfold TrimPrefix. rewrite HasPrefix_app. apply drop_app. Qed.

Lemma TrimPrefix_absent (t p : string) : HasPrefix t p = false -> TrimPrefix t p = t.
Proof. unfold TrimPrefix. intros ->. reflexivity. Qed.

Lemma HasPrefix_split (t p : string) :
  HasPrefix t p = true -> exists rest, t = (p ++ rest)%string.
Proof.
  revert t. induction p as [| a p IH]; intros t H.
  - exists t. reflexivity.
  - destruct t as [| b t]; simpl in H; [discriminate |].
    destruct (Ascii.eqb a b) eqn:E; [| discriminate].
    apply Ascii.eqb_eq in E. subst b.
    destruct (IH _ H) as [rest ->]. exists rest. reflexivity.
Qed.

(** ** Path mapper *)

Section PathProperties.
Variable W : Type.
Variable s : Storage.t W.

Lemma getRelPath_strips (key rest : string) :
  key = (TrimPrefix (Storage.workDir s) "/" ++ rest)%string -> getRelPath s key = rest.
Proof. intros ->. unfold getRelPath. apply TrimPrefix_app. Qed.

(** C5. [getRelPath] undoes [getAbsPath] for every path and every working
    directory.  [getRelPath] is total: on a key that does not start with the
    root prefix it returns the key unchanged, and on a key that does it
    removes the prefix once, so that [getAbsPath] gives the key back. *)
Theorem getRelPath_getAbsPath (p key : string) :
  getRelPath s (getAbsPath s p) = p /\
  (HasPrefix key (TrimPrefix (Storage.workDir s) "/") = false ->
   getRelPath s key = key) /\
  (HasPrefix key (TrimPrefix (Storage.workDir s) "/") = true ->
   getAbsPath s (getRelPath s key) = key).
Proof.
  split; [| split].
  - unfold getAbsPath. now apply getRelPath_strips.
  - intros H. unfold getRelPath. now apply TrimPrefix_absent.
  - intros H. destruct (HasPrefix_split _ _ H) as [rest E].
    rewrite (@getRelPath_strips key rest E). unfold getAbsPath. now rewrite E.
Qed.

End PathProperties.

Lemma getRelPath_getAbsPath_witness :
  getRelPath sampleStorage (getAbsPath sampleStorage "a/b") = "a/b" /\
  getRelPath sampleStorage "other/a" = "other/a" /\
  getAbsPath sampleStorage (getRelPath sampleStorage "work/a/b") = "work/a/b".
Proof.
  split; [| split].
  - apply (getRelPath_getAbsPath sampleStorage "a/b" "other/a").
  - apply (getRelPath_getAbsPath sampleStorage "a/b" "other/a"). reflexivity.
  - apply (getRelPath_getAbsPath sampleStorage "a/b" "work/a/b"). reflexivity.
Defined.

(** ** Request formatter: byte ranges *)

Lemma int64_range_exact (offset size : option Z) :
  range_end_fits offset size -> int64_range offset size = spec_range offset size.
Proof.
  destruct offset as [o |], size as [n |]; simpl; intros H; try reflexivity.
  - now rewrite int64_sub_add_exact.
  - now rewrite int64_sub_exact.
Qed.

Section ReadProperties.
Variable W : Type.
Variable s : Storage.t W.

Lemma formatGetObjectInput_ok (path : string) (opt : pairStorageRead.t) :
  pairStorageRead.HasServerSideEncryptionCustomerAlgorithm opt = false \/
  List.length (pairStorageRead.ServerSideEncryptionCustomerKey opt) = 32%nat ->
  exists input, formatGetObjectInput s path opt = inr input.
Proof.
  unfold formatGetObjectInput, calculateEncryptionHeaders.
  intros [H | H]; rewrite H; simpl; eauto.
  destruct (pairStorageRead.HasServerSideEncryptionCustomerAlgorithm opt); eauto.
Qed.

Lemma formatGetObjectInput_sets_range (path : string) (opt : pairStorageRead.t)
    (input : GetObjectInput.t) :
  formatGetObjectInput s path opt = inr input ->
  GetObjectInput.Range input =
  int64_range (present (pairStorageRead.HasOffset opt) (pairStorageRead.Offset opt))
              (present (pairStorageRead.HasSize opt) (pairStorageRead.Size opt)).
Proof.
  unfold formatGetObjectInput, present. intros H.
  destruct (pairStorageRead.HasOffset opt), (pairStorageRead.HasSize opt);
    simpl in *;
    destruct (pairStorageRead.HasServerSideEncryptionCustomerAlgorithm opt);
    try (destruct (calculateEncryptionHeaders _ _) as [e | [[a k] m]];
         [discriminate |]);
    inversion H; reflexivity.
Qed.

(** C4. Whenever the read formatter produces a request, its range header is
    determined by which of offset and size are present: both give
    ["bytes=offset-(offset+size-1)"], offset alone gives ["bytes=offset-"],
    size alone gives ["bytes=0-(size-1)"], and with neither the field is not
    set.  The last byte is computed in [int64]; it is the integer of the
    formula whenever that integer fits.  The formatter produces a request
    unless a customer encryption key of the wrong length is supplied. *)
Theorem formatGetObjectInput_range (path : string) (opt : pairStorageRead.t) :
  let offset := present (pairStorageRead.HasOffset opt) (pairStorageRead.Offset opt) in
  let size := present (pairStorageRead.HasSize opt) (pairStorageRead.Size opt) in
  (forall input,
     formatGetObjectInput s path opt = inr input ->
     GetObjectInput.Range input = int64_range offset size /\
     (range_end_fits offset size ->
      GetObjectInput.Range input = spec_range offset size)) /\
  (pairStorageRead.HasServerSideEncryptionCustomerAlgorithm opt = false \/
   List.length (pairStorageRead.ServerSideEncryptionCustomerKey opt) = 32%nat ->
   exists input, formatGetObjectInput s path opt = inr input).
Proof.
  intros offset size. split.
  - intros input H. pose proof (formatGetObjectInput_sets_range _ _ H) as R.
    split; [exact R |]. intros F. rewrite R. now apply int64_range_exact.
  - apply formatGetObjectInput_ok.
Qed.

End ReadProperties.

Lemma formatGetObjectInput_range_witness :
  (exists input,
     formatGetObjectInput sampleStorage "o" (readOptions true 5 true 10) = inr input /\
     GetObjectInput.Range input = Some "bytes=5-14") /\
  (exists input,
     formatGetObjectInput sampleStorage "o" (readOptions true 5 false 0) = inr input /\
     GetObjectInput.Range input = Some "bytes=5-") /\
  (exists input,
     formatGetObjectInput sampleStorage "o" (readOptions false 0 true 10) = inr input /\
     GetObjectInput.Range input = Some "bytes=0-9") /\
  (exists input,
     formatGetObjectInput sampleStorage "o" (readOptions false 0 false 0) = inr input /\
     GetObjectInput.Range input = None).
Proof.
  repeat split.
  - destruct (formatGetObjectInput_range sampleStorage "o" (readOptions true 5 true 10))
      as [R [input E]]; [left; reflexivity |].
    exists input. split; [exact E |].
    destruct (R input E) as [_ F]. apply F. vm_compute. split; discriminate.
  - destruct (formatGetObjectInput_range sampleStorage "o" (readOptions true 5 false 0))
      as [R [input E]]; [left; reflexivity |].
    exists input. split; [exact E |].
    destruct (R input E) as [_ F]. apply F. exact I.
  - destruct (formatGetObjectInput_range sampleStorage "o" (readOptions false 0 true 10))
      as [R [input E]]; [left; reflexivity |].
    exists input. split; [exact E |].
    destruct (R input E) as [_ F]. apply F. vm_compute. split; discriminate.
  - destruct (formatGetObjectInput_range sampleStorage "o" (readOptions false 0 false 0))
      as [R [input E]]; [left; reflexivity |].
    exists input. split; [exact E |].
    destruct (R input E) as [_ F]. apply F. exact I.
Defined.

(** ** Request formatter: customer encryption keys *)

Lemma calculateEncryptionHeaders_invalid (algo : string) (key : list byte) :
  List.length key <> 32%nat ->
  calculateEncryptionHeaders algo key = inl ErrServerSideEncryptionCustomerKeyInvalid.
Proof.
  intros H. unfold calculateEncryptionHeaders.
  destruct (Nat.eqb (List.length key) 32) eqn:E; [| reflexivity].
  apply Nat.eqb_eq in E. contradiction.
Qed.

Lemma calculateEncryptionHeaders_valid (algo : string) (key : list byte) :
  List.length key = 32%nat ->
  calculateEncryptionHeaders algo key =
  inr (algo, base64_EncodeToString key, base64_EncodeToString (md5_Sum key)).
Proof. intros H. unfold calculateEncryptionHeaders. now rewrite H. Qed.

Section EncryptionProperties.
Variable W : Type.
Variable s : Storage.t W.

Lemma write_prepared (path : string) (r : Reader) (size : Z) (opt : pairStorageWrite.t)
    (err : error) (w : World.t W) :
  size <= writeSizeMaximum ->
  is_nil r = false \/ size = 0 ->
  formatPutObjectInput s path size opt = inl err ->
  write s path r size opt w = (Normal (0, Some err), w).
Proof.
  intros Hsize Hr Hfmt. unfold write.
  destruct (size >? writeSizeMaximum) eqn:E; [lia |].
  destruct Hr as [Hr | Hr].
  - rewrite Hr. simpl. destruct (size =? 0); simpl; now rewrite Hfmt.
  - subst size. simpl. destruct (is_nil r); simpl; now rewrite Hfmt.
Qed.

(** C3. The customer key is checked only where the customer-algorithm option
    is given.  There, a key whose length is not 32 bytes makes
    [calculateEncryptionHeaders] fail with the invalid-key error, and with it
    every formatter and operation: no request value is produced and no call
    reaches the backend.  A 32-byte key yields the algorithm name, the base64
    of the key and the base64 of the MD5 digest of the key, as a function of
    the algorithm name and the key alone.  Without the algorithm option the
    key is not read, whatever its length: every formatter builds its request
    with none of the three customer-key fields, and [write] and
    [writeMultipart] send it. *)
Theorem calculateEncryptionHeaders_key_length (algo : string) (key : list byte) :
  (List.length key <> 32%nat ->
   calculateEncryptionHeaders algo key = inl ErrServerSideEncryptionCustomerKeyInvalid /\
   (forall path opt,
      pairStorageRead.HasServerSideEncryptionCustomerAlgorithm opt = true ->
      pairStorageRead.ServerSideEncryptionCustomerKey opt = key ->
      formatGetObjectInput s path opt = inl ErrServerSideEncryptionCustomerKeyInvalid) /\
   (forall path size opt,
      pairStorageWrite.HasServerSideEncryptionCustomerAlgorithm opt = true ->
      pairStorageWrite.ServerSideEncryptionCustomerKey opt = key ->
      formatPutObjectInput s path size opt =
        inl ErrServerSideEncryptionCustomerKeyInvalid /\
      (forall r w,
         size <= writeSizeMaximum -> is_nil r = false \/ size = 0 ->
         write s path r size opt w =
           (Normal (0, Some ErrServerSideEncryptionCustomerKeyInvalid), w))) /\
   (forall path opt,
      pairStorageCreateMultipart.HasServerSideEncryptionCustomerAlgorithm opt = true ->
      pairStorageCreateMultipart.ServerSideEncryptionCustomerKey opt = key ->
      formatCreateMultipartUploadInput s path opt =
        inl ErrServerSideEncryptionCustomerKeyInvalid) /\
   (forall o size index opt id,
      pairStorageWriteMultipart.HasServerSideEncryptionCustomerAlgorithm opt = true ->
      pairStorageWriteMultipart.ServerSideEncryptionCustomerKey opt = key ->
      Object.multipartID o = Some id ->
      formatUploadPartInput s o size index opt =
        Normal (inl ErrServerSideEncryptionCustomerKeyInvalid) /\
      (forall r w,
         size <= multipartSizeMaximum -> 0 <= index < multipartNumberMaximum ->
         writeMultipart s o r size index opt w =
           (Normal (0, None, Some ErrServerSideEncryptionCustomerKeyInvalid), w)))) /\
  (List.length key = 32%nat ->
   calculateEncryptionHeaders algo key =
   inr (algo, base64_EncodeToString key, base64_EncodeToString (md5_Sum key))) /\
  ((forall path opt,
      pairStorageRead.HasServerSideEncryptionCustomerAlgorithm opt = false ->
      pairStorageRead.ServerSideEncryptionCustomerKey opt = key ->
      exists input,
        formatGetObjectInput s path opt = inr input /\
        GetObjectInput.SSECustomerAlgorithm input = None /\
        GetObjectInput.SSECustomerKey input = None /\
        GetObjectInput.SSECustomerKeyMD5 input = None) /\
   (forall path size opt,
      pairStorageWrite.HasServerSideEncryptionCustomerAlgorithm opt = false ->
      pairStorageWrite.ServerSideEncryptionCustomerKey opt = key ->
      exists input,
        formatPutObjectInput s path size opt = inr input /\
        PutObjectInput.SSECustomerAlgorithm input = None /\
        PutObjectInput.SSECustomerKey input = None /\
        PutObjectInput.SSECustomerKeyMD5 input = None /\
        forall r w,
          size <= writeSizeMaximum -> is_nil r = false \/ size = 0 ->
          exists body,
            write s path r size opt w =
              (let sent := PutObjectInput.SetBody body input in
               let '(res, b) := S3.PutObject (Storage.service s) sent (World.backend w) in
               (Normal (match res with
                        | inl err => (0, Some err)
                        | inr _ => (size, None)
                        end),
                World.mk b (World.calls w ++ [CallPutObject sent])))) /\
   (forall path opt,
      pairStorageCreateMultipart.HasServerSideEncryptionCustomerAlgorithm opt = false ->
      pairStorageCreateMultipart.ServerSideEncryptionCustomerKey opt = key ->
      exists input,
        formatCreateMultipartUploadInput s path opt = inr input /\
        CreateMultipartUploadInput.SSECustomerAlgorithm input = None /\
        CreateMultipartUploadInput.SSECustomerKey input = None /\
        CreateMultipartUploadInput.SSECustomerKeyMD5 input = None) /\
   (forall o size index opt id,
      pairStorageWriteMultipart.HasServerSideEncryptionCustomerAlgorithm opt = false ->
      pairStorageWriteMultipart.ServerSideEncryptionCustomerKey opt = key ->
      Object.multipartID o = Some id ->
      exists input,
        formatUploadPartInput s o size index opt = Normal (inr input) /\
        UploadPartInput.SSECustomerAlgorithm input = None /\
        UploadPartInput.SSECustomerKey input = None /\
        UploadPartInput.SSECustomerKeyMD5 input = None /\
        forall r w,
          size <= multipartSizeMaximum -> 0 <= index < multipartNumberMaximum ->
          exists sent,
            World.calls (snd (writeMultipart s o r size index opt w)) =
              World.calls w ++ [CallUploadPart sent] /\
            UploadPartInput.SSECustomerAlgorithm sent = None /\
            UploadPartInput.SSECustomerKey sent = None /\
            UploadPartInput.SSECustomerKeyMD5 sent = None)).
Proof.
  split; [| split; [apply calculateEncryptionHeaders_valid |]]; cycle 1.
  { split; [| split; [| split]].
    - intros path opt Hno _. unfold formatGetObjectInput. rewrite Hno.
      eexists. split; [reflexivity |]. repeat split.
    - intros path size opt Hno _.
      assert (Hfmt : exists input,
                formatPutObjectInput s path size opt = inr input /\
                PutObjectInput.SSECustomerAlgorithm input = None /\
                PutObjectInput.SSECustomerKey input = None /\
                PutObjectInput.SSECustomerKeyMD5 input = None).
      { unfold formatPutObjectInput. rewrite Hno.
        eexists. split; [reflexivity |]. repeat split. }
      destruct Hfmt as (input & Hfmt & Ha & Hk & Hm).
      exists input. do 4 (split; [assumption |]).
      intros r w Hsize Hr. unfold write.
      destruct (size >? writeSizeMaximum) eqn:E; [lia |].
      assert (Hsend : forall body,
                (match formatPutObjectInput s path size opt with
                 | inl err => ret (0, Some err)
                 | inr input =>
                     let input := PutObjectInput.SetBody (ReadSeekCloser body) input in
                     bind (invoke (S3.PutObject (Storage.service s)) CallPutObject input)
                       (fun res =>
                          match res with
                          | inl err => ret (0, Some err)
                          | inr _ => ret (size, None)
                          end)
                 end) w =
                (let sent := PutObjectInput.SetBody (ReadSeekCloser body) input in
                 let '(res, b) :=
                   S3.PutObject (Storage.service s) sent (World.backend w) in
                 (Normal (match res with
                          | inl err => (0, Some err)
                          | inr _ => (size, None)
                          end),
                  World.mk b (World.calls w ++ [CallPutObject sent])))).
      { intros body. rewrite Hfmt. cbv zeta. unfold bind, invoke, ret.
        destruct (S3.PutObject (Storage.service s) _ (World.backend w)) as [[e | out] b];
          reflexivity. }
      destruct Hr as [Hr | Hr].
      + rewrite Hr. simpl. destruct (size =? 0); simpl; eexists; apply Hsend.
      + subst size. simpl. destruct (is_nil r); simpl; eexists; apply Hsend.
    - intros path opt Hno _. unfold formatCreateMultipartUploadInput. rewrite Hno.
      eexists. split; [reflexivity |]. repeat split.
    - intros o size index opt id Hno _ Hid.
      unfold formatUploadPartInput, MustGetMultipartID. rewrite Hid, Hno.
      eexists. split; [reflexivity |]. do 3 (split; [reflexivity |]).
      intros r w Hsize Hindex. unfold writeMultipart.
      destruct (size >? multipartSizeMaximum) eqn:E1; [lia |].
      destruct (index <? 0) eqn:E2; [lia |].
      destruct (index >=? multipartNumberMaximum) eqn:E3; [lia |].
      simpl. unfold bind at 1. unfold lift, MustGetMultipartID. rewrite Hid, Hno.
      match goal with |- context [invoke _ _ ?x] => exists x end.
      split; [| repeat split].
      unfold bind, invoke, ret.
      destruct (S3.UploadPart (Storage.service s) _ (World.backend w)) as [[e | out] b];
        reflexivity. }
  intros Hlen.
  pose proof (@calculateEncryptionHeaders_invalid algo key Hlen) as Hbad.
  assert (Hany : forall a, calculateEncryptionHeaders a key =
                           inl ErrServerSideEncryptionCustomerKeyInvalid)
    by (intros a; now apply calculateEncryptionHeaders_invalid).
  split; [exact Hbad |]. split; [| split; [| split]].
  - intros path opt Hhas Hkey. unfold formatGetObjectInput.
    now rewrite Hhas, Hkey, Hany.
  - intros path size opt Hhas Hkey.
    assert (Hfmt : formatPutObjectInput s path size opt =
                   inl ErrServerSideEncryptionCustomerKeyInvalid).
    { unfold formatPutObjectInput. now rewrite Hhas, Hkey, Hany. }
    split; [exact Hfmt |].
    intros r w Hsize Hr. now apply write_prepared.
  - intros path opt Hhas Hkey. unfold formatCreateMultipartUploadInput.
    now rewrite Hhas, Hkey, Hany.
  - intros o size index opt id Hhas Hkey Hid. split.
    + unfold formatUploadPartInput, MustGetMultipartID.
      now rewrite Hid, Hhas, Hkey, Hany.
    + intros r w Hsize Hindex. unfold writeMultipart.
      destruct (size >? multipartSizeMaximum) eqn:E1; [lia |].
      destruct (index <? 0) eqn:E2; [lia |].
      destruct (index >=? multipartNumberMaximum) eqn:E3; [lia |].
      simpl. unfold bind, lift, MustGetMultipartID.
      now rewrite Hid, Hhas, Hkey, Hany.
Qed.

End EncryptionProperties.

Lemma calculateEncryptionHeaders_key_length_witness :
  (calculateEncryptionHeaders "AES256" key16 =
     inl ErrServerSideEncryptionCustomerKeyInvalid /\
   formatGetObjectInput sampleStorage "o" (readOptionsWithKey key16) =
     inl ErrServerSideEncryptionCustomerKeyInvalid /\
   write sampleStorage "o" (StreamReader [x61]) 1 (writeOptionsWithKey key16) startWorld =
     (Normal (0, Some ErrServerSideEncryptionCustomerKeyInvalid), startWorld) /\
   formatCreateMultipartUploadInput sampleStorage "o" (createMultipartOptionsWithKey key16) =
     inl ErrServerSideEncryptionCustomerKeyInvalid /\
   writeMultipart sampleStorage sampleUpload (StreamReader [x61]) 1 0
       (writeMultipartOptionsWithKey key16) startWorld =
     (Normal (0, None, Some ErrServerSideEncryptionCustomerKeyInvalid), startWorld)) /\
  calculateEncryptionHeaders "AES256" key32 =
    inr ("AES256", "AAECAwQFBgcICQoLDA0ODxAREhMUFRYXGBkaGxwdHh8=",
         "tP/LI3N87DFaSk0aoqYgzg==") /\
  (exists input,
     formatPutObjectInput sampleStorage "o" 1 (writeOptionsKeyOnly key16) = inr input /\
     PutObjectInput.SSECustomerKey input = None) /\
  (exists sent,
     World.calls (snd (writeMultipart sampleStorage sampleUpload (StreamReader [x61]) 1 0
                         (writeMultipartOptionsKeyOnly key16) startWorld)) =
       World.calls startWorld ++ [CallUploadPart sent] /\
     UploadPartInput.SSECustomerKey sent = None).
Proof.
  split; [| split; [| split]].
  - destruct (calculateEncryptionHeaders_key_length sampleStorage "AES256" key16)
      as [H _].
    destruct H as (H1 & H2 & H3 & H4 & H5); [vm_compute; discriminate |].
    split; [exact H1 |].
    split; [apply H2; reflexivity |].
    split.
    { destruct (H3 "o" 1 (writeOptionsWithKey key16) eq_refl eq_refl) as [_ Hw].
      apply Hw; [vm_compute; discriminate | left; reflexivity]. }
    split; [apply H4; reflexivity |].
    destruct (H5 sampleUpload 1 0 (writeMultipartOptionsWithKey key16) "upload-1"
                eq_refl eq_refl eq_refl) as [_ Hw].
    apply Hw; [vm_compute; discriminate | vm_compute; split; [discriminate | reflexivity]].
  - destruct (calculateEncryptionHeaders_key_length sampleStorage "AES256" key32)
      as (_ & H & _).
    rewrite H by reflexivity. vm_compute. reflexivity.
  - destruct (calculateEncryptionHeaders_key_length sampleStorage "AES256" key16)
      as (_ & _ & _ & H & _).
    destruct (H "o" 1 (writeOptionsKeyOnly key16) eq_refl eq_refl)
      as (input & Hfmt & _ & Hkey & _).
    exists input. split; [exact Hfmt | exact Hkey].
  - destruct (calculateEncryptionHeaders_key_length sampleStorage "AES256" key16)
      as (_ & _ & _ & _ & _ & H).
    destruct (H sampleUpload 1 0 (writeMultipartOptionsKeyOnly key16) "upload-1"
                eq_refl eq_refl eq_refl) as (input & _ & _ & _ & _ & Hsent).
    destruct (Hsent (StreamReader [x61]) startWorld) as (sent & Hcalls & _ & Hkey & _);
      [vm_compute; discriminate | vm_compute; split; [discriminate | reflexivity] |].
    exists sent. split; [exact Hcalls | exact Hkey].
Defined.

(** C3, as the specification states it, fails: a 16-byte key given by the key
    option alone is not refused.  [write] sends the one-byte object and
    returns its size with no error, and the formatters build their requests. *)
Lemma customer_key_alone_is_not_checked :
  List.length key16 <> 32%nat /\
  pairStorageWrite.HasServerSideEncryptionCustomerKey (writeOptionsKeyOnly key16) = true /\
  pairStorageWrite.ServerSideEncryptionCustomerKey (writeOptionsKeyOnly key16) = key16 /\
  fst (write acceptingStorage "o" (StreamReader [x61]) 1 (writeOptionsKeyOnly key16)
         startWorld) = Normal (1, None) /\
  fst (write acceptingStorage "o" (StreamReader [x61]) 1 (writeOptionsKeyOnly key16)
         startWorld) <> Normal (0, Some ErrServerSideEncryptionCustomerKeyInvalid) /\
  List.length
    (World.calls
       (snd (write acceptingStorage "o" (StreamReader [x61]) 1
               (writeOptionsKeyOnly key16) startWorld))) = 1%nat /\
  formatPutObjectInput acceptingStorage "o" 1 (writeOptionsKeyOnly key16) <>
    inl ErrServerSideEncryptionCustomerKeyInvalid /\
  fst (writeMultipart acceptingStorage sampleUpload (StreamReader [x61]) 1 0
         (writeMultipartOptionsKeyOnly key16) startWorld) =
    Normal (1, Some (Part.mk 0 1 "etag-part"), None).
Proof. vm_compute. repeat split; discriminate. Qed.

(** ** Size and index limits *)

Section LimitProperties.
Variable W : Type.
Variable s : Storage.t W.

Lemma write_too_large (path : string) (r : Reader) (size : Z)
    (opt : pairStorageWrite.t) (w : World.t W) :
  size > writeSizeMaximum ->
  write s path r size opt w =
  (Normal (0, Some (ErrorfW "size limit exceeded" ErrRestrictionDissatisfied)), w).
Proof.
  intros H. unfold write.
  destruct (size >? writeSizeMaximum) eqn:E; [reflexivity | lia].
Qed.

Lemma writeMultipart_too_large (o : Object.t) (r : Reader) (size index : Z)
    (opt : pairStorageWriteMultipart.t) (w : World.t W) :
  size > multipartSizeMaximum ->
  writeMultipart s o r size index opt w =
  (Normal (0, None, Some (ErrorfW "size limit exceeded" ErrRestrictionDissatisfied)), w).
Proof.
  intros H. unfold writeMultipart.
  destruct (size >? multipartSizeMaximum) eqn:E; [reflexivity | lia].
Qed.

Lemma writeMultipart_bad_index (o : Object.t) (r : Reader) (size index : Z)
    (opt : pairStorageWriteMultipart.t) (w : World.t W) :
  size <= multipartSizeMaximum ->
  index < 0 \/ index >= multipartNumberMaximum ->
  writeMultipart s o r size index opt w =
  (Normal (0, None,
           Some (ErrorfW "multipart number limit exceeded" ErrRestrictionDissatisfied)),
   w).
Proof.
  intros Hs Hi. unfold writeMultipart.
  destruct (size >? multipartSizeMaximum) eqn:E; [lia |].
  destruct (index <? 0) eqn:E1; [reflexivity |].
  destruct (index >=? multipartNumberMaximum) eqn:E2; [reflexivity | lia].
Qed.

(** C9. [write] with a size above 5 GiB, and [writeMultipart] with a size
    above the part maximum or an index outside [0, 10000), return an error
    that wraps [ErrRestrictionDissatisfied]; the backend and the log of calls
    are left as they were, so no call was made. *)
Theorem restriction_checked_before_any_call :
  writeSizeMaximum = 5 * 2 ^ 30 /\
  (forall path r size opt (w : World.t W),
     size > writeSizeMaximum ->
     exists err,
       write s path r size opt w = (Normal (0, Some err), w) /\
       errors_Is err ErrRestrictionDissatisfied = true) /\
  (forall o r size index opt (w : World.t W),
     size > multipartSizeMaximum \/ index < 0 \/ index >= 10000 ->
     exists err,
       writeMultipart s o r size index opt w = (Normal (0, None, Some err), w) /\
       errors_Is err ErrRestrictionDissatisfied = true).
Proof.
  split; [reflexivity |]. split.
  - intros path r size opt w H. eexists. split.
    + now apply write_too_large.
    + reflexivity.
  - intros o r size index opt w H.
    destruct (Z_le_gt_dec size multipartSizeMaximum) as [Hle | Hgt].
    + eexists. split.
      * apply writeMultipart_bad_index; [exact Hle |].
        unfold multipartNumberMaximum. lia.
      * reflexivity.
    + eexists. split.
      * now apply writeMultipart_too_large.
      * reflexivity.
Qed.

End LimitProperties.

Lemma restriction_checked_before_any_call_witness :
  (exists err,
     write sampleStorage "o" (StreamReader []) (5 * 2 ^ 30 + 1) plainWrite startWorld =
       (Normal (0, Some err), startWorld) /\
     errors_Is err ErrRestrictionDissatisfied = true) /\
  (exists err,
     writeMultipart sampleStorage sampleUpload (StreamReader []) 1 10000
       plainWriteMultipart startWorld = (Normal (0, None, Some err), startWorld) /\
     errors_Is err ErrRestrictionDissatisfied = true) /\
  (exists err,
     writeMultipart sampleStorage sampleUpload (StreamReader []) 1 (-1)
       plainWriteMultipart startWorld = (Normal (0, None, Some err), startWorld) /\
     errors_Is err ErrRestrictionDissatisfied = true).
Proof.
  destruct (restriction_checked_before_any_call sampleStorage) as (_ & Hw & Hm).
  split; [apply Hw; reflexivity |].
  split; apply Hm; right; [right | left]; vm_compute; congruence.
Defined.

(** ** Readers of [write] *)

Lemma read_all_LimitReader (r : Reader) (size : Z) (c : list byte) :
  read_all r = Some c -> 0 < size ->
  read_all (LimitReader r size) = Some (firstn (Z.to_nat size) c) /\
  Z.of_nat (List.length (firstn (Z.to_nat size) c)) =
    Z.min size (Z.of_nat (List.length c)).
Proof.
  intros Hc Hs. simpl. destruct (size <=? 0) eqn:E; [lia |].
  rewrite Hc. split; [reflexivity |]. rewrite length_firstn. lia.
Qed.

Section WriteProperties.
Variable W : Type.
Variable s : Storage.t W.

Lemma formatPutObjectInput_ContentLength (path : string) (size : Z)
    (opt : pairStorageWrite.t) (input : PutObjectInput.t) :
  formatPutObjectInput s path size opt = inr input ->
  PutObjectInput.ContentLength input = Some size /\ PutObjectInput.Body input = None.
Proof.
  unfold formatPutObjectInput. intros H.
  destruct (pairStorageWrite.HasServerSideEncryptionCustomerAlgorithm opt).
  - destruct (calculateEncryptionHeaders _ _); [discriminate |].
    inversion H. split; reflexivity.
  - inversion H. split; reflexivity.
Qed.

Lemma write_sends (path : string) (r r' : Reader) (size : Z)
    (opt : pairStorageWrite.t) (input : PutObjectInput.t) (w : World.t W) :
  size <= writeSizeMaximum ->
  (if size =? 0 then r' = BytesReader [] else is_nil r = false /\ r' = LimitReader r size) ->
  formatPutObjectInput s path size opt = inr input ->
  write s path r size opt w =
  putObjectOnce s
    (PutObjectInput.SetBody
       (ReadSeekCloser
          (if pairStorageWrite.HasIoCallback opt
           then CallbackReader r' (pairStorageWrite.IoCallback opt) else r'))
       input)
    size w.
Proof.
  intros Hsize Hr Hfmt. unfold write, putObjectOnce.
  destruct (size >? writeSizeMaximum) eqn:E; [lia |].
  destruct (size =? 0) eqn:E0.
  - subst r'. destruct (is_nil r); simpl; rewrite Hfmt; round_trip (@S3.PutObject W).
  - destruct Hr as [Hnil ->]. rewrite Hnil. simpl. rewrite Hfmt.
    round_trip (@S3.PutObject W).
Qed.

(** C10. In [write], a size of zero is accepted with any reader, the nil
    reader included: the request carries content length zero and a body that
    reads as empty.  The nil reader with a size other than zero is an error
    and nothing is sent.  Any other reader with a size other than zero (and
    within the write limit) is sent behind [io.LimitReader] with limit
    [size]: the body reads as the first [size] bytes of the reader.  In the
    cases that send, exactly one [PutObject] call is made. *)
Theorem write_reader_and_size (path : string) (r : Reader) (size : Z)
    (opt : pairStorageWrite.t) (w : World.t W) :
  (size = 0 ->
   forall input, formatPutObjectInput s path size opt = inr input ->
   exists body,
     read_all body = Some [] /\
     PutObjectInput.ContentLength input = Some 0 /\
     write s path r size opt w =
       putObjectOnce s (PutObjectInput.SetBody (ReadSeekCloser body) input) size w) /\
  (is_nil r = true -> size <> 0 ->
   exists err, write s path r size opt w = (Normal (0, Some err), w)) /\
  (is_nil r = false -> size <> 0 -> size <= writeSizeMaximum ->
   forall input, formatPutObjectInput s path size opt = inr input ->
   exists body,
     read_all body = read_all (LimitReader r size) /\
     (forall c, read_all r = Some c -> 0 < size ->
        read_all body = Some (firstn (Z.to_nat size) c) /\
        Z.of_nat (List.length (firstn (Z.to_nat size) c)) =
          Z.min size (Z.of_nat (List.length c))) /\
     write s path r size opt w =
       putObjectOnce s (PutObjectInput.SetBody (ReadSeekCloser body) input) size w).
Proof.
  repeat split.
  - intros -> input Hfmt.
    exists (if pairStorageWrite.HasIoCallback opt
            then CallbackReader (BytesReader []) (pairStorageWrite.IoCallback opt)
            else BytesReader []).
    split; [destruct (pairStorageWrite.HasIoCallback opt); reflexivity |].
    split; [apply (formatPutObjectInput_ContentLength _ _ _ Hfmt) |].
    apply write_sends; [unfold writeSizeMaximum; lia | reflexivity | exact Hfmt].
  - intros Hnil Hsize. unfold write.
    destruct (size >? writeSizeMaximum); [eexists; reflexivity |].
    rewrite Hnil. simpl. destruct (size =? 0) eqn:E; [lia |].
    simpl. eexists; reflexivity.
  - intros Hnil Hsize Hmax input Hfmt.
    exists (if pairStorageWrite.HasIoCallback opt
            then CallbackReader (LimitReader r size) (pairStorageWrite.IoCallback opt)
            else LimitReader r size).
    split; [destruct (pairStorageWrite.HasIoCallback opt); reflexivity |].
    split.
    + intros c Hc Hpos.
      destruct (read_all_LimitReader r Hc Hpos) as [E1 E2]. split; [| exact E2].
      rewrite <- E1. destruct (pairStorageWrite.HasIoCallback opt); reflexivity.
    + apply write_sends; [exact Hmax | | exact Hfmt].
      destruct (size =? 0) eqn:E; [lia | split; [exact Hnil | reflexivity]].
Qed.

End WriteProperties.

Lemma write_reader_and_size_witness :
  (exists input body,
     formatPutObjectInput acceptingStorage "o" 0 plainWrite = inr input /\
     read_all body = Some [] /\
     write acceptingStorage "o" NilReader 0 plainWrite startWorld =
       putObjectOnce acceptingStorage
         (PutObjectInput.SetBody (ReadSeekCloser body) input) 0 startWorld) /\
  (exists err,
     write acceptingStorage "o" NilReader 3 plainWrite startWorld =
       (Normal (0, Some err), startWorld)) /\
  (exists input body,
     formatPutObjectInput acceptingStorage "o" 3 plainWrite = inr input /\
     read_all body = Some [x61; x62; x63] /\
     write acceptingStorage "o" (StreamReader [x61; x62; x63; x64; x65]) 3 plainWrite
       startWorld =
       putObjectOnce acceptingStorage
         (PutObjectInput.SetBody (ReadSeekCloser body) input) 3 startWorld).
Proof.
  split; [| split].
  - destruct (write_reader_and_size acceptingStorage "o" NilReader 0 plainWrite startWorld)
      as (H & _ & _).
    destruct (H eq_refl _ eq_refl) as (body & Hb & _ & Hw).
    eexists. exists body. split; [reflexivity |]. split; [exact Hb | exact Hw].
  - destruct (write_reader_and_size acceptingStorage "o" NilReader 3 plainWrite startWorld)
      as (_ & H & _).
    apply H; [reflexivity | discriminate].
  - destruct (write_reader_and_size acceptingStorage "o"
                (StreamReader [x61; x62; x63; x64; x65]) 3 plainWrite startWorld)
      as (_ & _ & H).
    destruct (H eq_refl) with (input :=
      PutObjectInput.mk (Some "bucket") (Some "work/o") (Some 3) None None None None
        None None None None None None None) as (body & _ & Hc & Hw);
      [discriminate | vm_compute; discriminate | reflexivity |].
    eexists. exists body. split; [reflexivity |]. split; [| exact Hw].
    destruct (Hc _ eq_refl) as [Hread _]; [reflexivity | exact Hread].
Defined.

(** ** Completing a multipart upload *)

Lemma fold_left_append_map (A B : Type) (f : A -> B) (l : list A) (init : list B) :
  fold_left (fun acc v => acc ++ [f v]) l init = init ++ map f l.
Proof.
  revert init. induction l as [| a l IH]; intros init; simpl.
  - now rewrite app_nil_r.
  - rewrite IH, <- app_assoc. reflexivity.
Qed.

(** Bit [n] of a mode after [Del(ModePart)] and [Add(ModeRead)]. *)
Lemma flipped_mode_bit (m n : Z) :
  0 <= n ->
  Z.testbit (Mode_Add (Mode_Del m ModePart) ModeRead) n =
  if n =? 1 then true
  else if n =? 3 then false
  else if n <? 32 then Z.testbit m n else false.
Proof.
  intros Hn. unfold Mode_Add, Mode_Del, not32, ModePart, ModeRead.
  rewrite Z.lor_spec, Z.land_spec, Z.lxor_spec.
  change 8 with (2 ^ 3). change 2 with (2 ^ 1) at 3.
  rewrite !Z.pow2_bits_eqb by lia.
  change (2 ^ 32 - 1) with (Z.ones 32).
  destruct (n =? 1) eqn:E1, (n =? 3) eqn:E3, (n <? 32) eqn:E32;
    try lia;
    try (rewrite Z.ones_spec_low by lia);
    try (rewrite Z.ones_spec_high by lia);
    repeat match goal with
           | |- context [?a =? n] =>
               let E := fresh in destruct (a =? n) eqn:E; try lia
           end;
    simpl; rewrite ?andb_true_r, ?andb_false_r, ?orb_false_r, ?orb_true_r;
    reflexivity.
Qed.

Lemma flipped_mode_not_part (m : Z) :
  Mode_IsPart (Mode_Add (Mode_Del m ModePart) ModeRead) = false.
Proof.
  unfold Mode_IsPart. apply negb_false_iff, Z.eqb_eq, Z.bits_inj'.
  intros n Hn. rewrite Z.land_spec, flipped_mode_bit, Z.bits_0 by exact Hn.
  unfold ModePart. change 8 with (2 ^ 3). rewrite Z.pow2_bits_eqb by lia.
  destruct (n =? 1) eqn:E1, (n =? 3) eqn:E3; try lia;
    destruct (3 =? n) eqn:E; try lia; simpl; try reflexivity.
Qed.

Lemma flipped_mode_read (m : Z) :
  Mode_IsRead (Mode_Add (Mode_Del m ModePart) ModeRead) = true.
Proof.
  unfold Mode_IsRead. apply negb_true_iff, Z.eqb_neq. intros H.
  assert (B : Z.testbit
                (Z.land (Mode_Add (Mode_Del m ModePart) ModeRead) ModeRead) 1 = true).
  { rewrite Z.land_spec, flipped_mode_bit by lia. reflexivity. }
  rewrite H in B. discriminate.
Qed.

Section CompleteProperties.
Variable W : Type.
Variable s : Storage.t W.

Lemma formatCompleteMultipartUploadInput_parts (o : Object.t) (parts : list Part.t)
    (opt : pairStorageCompleteMultipart.t) (id : string) :
  Object.multipartID o = Some id ->
  exists input,
    formatCompleteMultipartUploadInput s o parts opt = Normal input /\
    CompleteMultipartUploadInput.MultipartUpload input =
      Some (CompletedMultipartUpload.mk (map completedPart parts)) /\
    CompleteMultipartUploadInput.UploadId input = Some id /\
    CompleteMultipartUploadInput.Key input = Some (Object.ID o).
Proof.
  intros Hid. unfold formatCompleteMultipartUploadInput, MustGetMultipartID.
  rewrite Hid, fold_left_append_map. eexists. repeat split.
Qed.

(** C2. [completeMultipart] on an object that carries an upload ID sends one
    [CompleteMultipartUpload] request whose parts are the caller's parts in
    the caller's order, each with its ETag and with part number
    [Index + 1] (computed in [int], hence the integer [Index + 1] whenever
    that fits).  When the backend accepts, the returned object has
    [ModePart] cleared and [ModeRead] set, and no other mode flag changed;
    when the backend refuses, the error is returned and the object is as it
    was. *)
Theorem completeMultipart_order_and_mode (o : Object.t) (parts : list Part.t)
    (opt : pairStorageCompleteMultipart.t) (w : World.t W) (id : string) :
  Object.multipartID o = Some id ->
  exists input,
    formatCompleteMultipartUploadInput s o parts opt = Normal input /\
    CompleteMultipartUploadInput.MultipartUpload input =
      Some (CompletedMultipartUpload.mk (map completedPart parts)) /\
    map CompletedPart.PartNumber (map completedPart parts) =
      map (fun p => Some (int64_add (Part.Index p) 1)) parts /\
    map CompletedPart.ETag (map completedPart parts) =
      map (fun p => Some (Part.ETag p)) parts /\
    (forall p, In p parts -> in_int64 (Part.Index p + 1) ->
               CompletedPart.PartNumber (completedPart p) = Some (Part.Index p + 1)) /\
    World.calls (snd (completeMultipart s o parts opt w)) =
      World.calls w ++ [CallCompleteMultipartUpload input] /\
    match fst (S3.CompleteMultipartUpload (Storage.service s) input (World.backend w)) with
    | inl err => fst (completeMultipart s o parts opt w) = Normal (Some err, o)
    | inr _ =>
        exists o',
          fst (completeMultipart s o parts opt w) = Normal (None, o') /\
          Mode_IsPart (Object.Mode o') = false /\
          Mode_IsRead (Object.Mode o') = true /\
          (forall n, 0 <= n < 32 -> n <> 1 -> n <> 3 ->
                     Z.testbit (Object.Mode o') n = Z.testbit (Object.Mode o) n) /\
          (Object.Mode o = ModePart -> Object.Mode o' = ModeRead) /\
          Object.ID o' = Object.ID o /\
          Object.Path o' = Object.Path o /\
          Object.multipartID o' = Object.multipartID o
    end.
Proof.
  intros Hid.
  destruct (formatCompleteMultipartUploadInput_parts o parts opt Hid)
    as (input & Hfmt & Hparts & _).
  exists input. split; [exact Hfmt |]. split; [exact Hparts |].
  split; [rewrite map_map; reflexivity |].
  split; [rewrite map_map; reflexivity |].
  split.
  { intros p _ Hfit. simpl. now rewrite int64_add_exact. }
  unfold completeMultipart, bind, lift, invoke. rewrite Hfmt.
  destruct (S3.CompleteMultipartUpload _ _ _) as [[err | out] b]; simpl.
  - split; reflexivity.
  - split; [reflexivity |].
    eexists. split; [reflexivity |]. simpl.
    split; [apply flipped_mode_not_part |].
    split; [apply flipped_mode_read |].
    split.
    { intros n Hn H1 H3. rewrite flipped_mode_bit by lia.
      destruct (n =? 1) eqn:E1; [lia |]. destruct (n =? 3) eqn:E3; [lia |].
      destruct (n <? 32) eqn:E32; [reflexivity | lia]. }
    split; [intros ->; reflexivity |].
    repeat split.
Qed.

End CompleteProperties.

Lemma completeMultipart_order_and_mode_witness :
  exists input o',
    formatCompleteMultipartUploadInput acceptingStorage sampleUpload outOfOrder
      plainComplete = Normal input /\
    CompleteMultipartUploadInput.MultipartUpload input =
      Some (CompletedMultipartUpload.mk
              [CompletedPart.mk (Some "etag-c") (Some 3);
               CompletedPart.mk (Some "etag-a") (Some 1);
               CompletedPart.mk (Some "etag-b") (Some 2)]) /\
    fst (completeMultipart acceptingStorage sampleUpload outOfOrder plainComplete
           startWorld) = Normal (None, o') /\
    Object.Mode o' = ModeRead.
Proof.
  destruct (completeMultipart_order_and_mode acceptingStorage sampleUpload outOfOrder
              plainComplete startWorld (id := "upload-1") eq_refl)
    as (input & Hfmt & Hparts & _ & _ & _ & _ & o' & Hres & _ & _ & _ & Hmode & _).
  exists input, o'. split; [exact Hfmt |]. split; [exact Hparts |].
  split; [exact Hres | apply Hmode; reflexivity].
Defined.

(** ** Part numbers: upload, then list *)

Lemma appendParts_wellFormed (parts : list s3Part.t) (data : list Part.t) :
  Forall wellFormedPart parts ->
  appendParts parts data = Normal (data ++ map listedPart parts).
Proof.
  intros Hwf. revert data.
  induction Hwf as [| v parts (n & size & Hn & Hsize & _) _ IH]; intros data; simpl.
  - now rewrite app_nil_r.
  - rewrite Hn, Hsize, IH, <- app_assoc. unfold listedPart. rewrite Hn, Hsize.
    reflexivity.
Qed.

Lemma listedPart_spec_part (v : s3Part.t) :
  in_int64 (Int64Value (s3Part.PartNumber v) - 1) -> listedPart v = spec_part v.
Proof.
  intros H. unfold listedPart, spec_part. now rewrite int64_sub_exact.
Qed.

Lemma countIndex_app (i : Z) (a b : list Part.t) :
  countIndex i (a ++ b) = (countIndex i a + countIndex i b)%nat.
Proof. unfold countIndex. now rewrite filter_app, length_app. Qed.

Lemma countIndex_listed (i : Z) (parts : list s3Part.t) :
  0 <= i < multipartNumberMaximum ->
  Forall wellFormedPart parts ->
  countIndex i (map listedPart parts) = countNumber (i + 1) parts.
Proof.
  intros Hi Hwf. unfold countIndex, countNumber.
  induction Hwf as [| v parts (n & size & Hn & Hsize & Hrange) _ IH]; simpl.
  - reflexivity.
  - rewrite Hn. simpl.
    assert (E : (int64_sub n 1 =? i) = (n =? i + 1)).
    { destruct (int64_sub_one_inj Hrange Hi) as [H1 H2].
      destruct (int64_sub n 1 =? i) eqn:E1, (n =? i + 1) eqn:E2;
        try reflexivity; lia. }
    rewrite E. destruct (n =? i + 1); simpl; now rewrite IH.
Qed.

Section PartProperties.
Variable W : Type.
Variable s : Storage.t W.

Lemma writeMultipart_sends (o : Object.t) (r : Reader) (size i : Z)
    (opt : pairStorageWriteMultipart.t) (w : World.t W) (id : string) :
  0 <= i < multipartNumberMaximum ->
  size <= multipartSizeMaximum ->
  Object.multipartID o = Some id ->
  (pairStorageWriteMultipart.HasServerSideEncryptionCustomerAlgorithm opt = false \/
   List.length (pairStorageWriteMultipart.ServerSideEncryptionCustomerKey opt) = 32%nat) ->
  exists input,
    UploadPartInput.PartNumber input = Some (int64_add i 1) /\
    UploadPartInput.UploadId input = Some id /\
    UploadPartInput.Key input = Some (Object.ID o) /\
    writeMultipart s o r size i opt w =
      (let '(res, b) := S3.UploadPart (Storage.service s) input (World.backend w) in
       (Normal
          match res with
          | inl err => (0, None, Some err)
          | inr output =>
              (size, Some (Part.mk i size (StringValue (UploadPartOutput.ETag output))),
               None)
          end,
        World.mk b (World.calls w ++ [CallUploadPart input]))).
Proof.
  intros Hi Hsize Hid Hkey. unfold writeMultipart.
  destruct (size >? multipartSizeMaximum) eqn:E1; [lia |].
  destruct (i <? 0) eqn:E2; [lia |].
  destruct (i >=? multipartNumberMaximum) eqn:E3; [lia |].
  simpl. unfold bind at 1. unfold lift, MustGetMultipartID. rewrite Hid.
  assert (Hheaders :
            pairStorageWriteMultipart.HasServerSideEncryptionCustomerAlgorithm opt = true ->
            exists h,
              calculateEncryptionHeaders
                (pairStorageWriteMultipart.ServerSideEncryptionCustomerAlgorithm opt)
                (pairStorageWriteMultipart.ServerSideEncryptionCustomerKey opt) = inr h).
  { intros Hhas. destruct Hkey as [Hkey | Hkey]; [congruence |].
    rewrite calculateEncryptionHeaders_valid by exact Hkey. eauto. }
  destruct (pairStorageWriteMultipart.HasServerSideEncryptionCustomerAlgorithm opt).
  - destruct (Hheaders eq_refl) as [h ->].
    match goal with |- context [invoke _ _ ?x] => exists x end.
    repeat split. round_trip (@S3.UploadPart W).
  - match goal with |- context [invoke _ _ ?x] => exists x end.
    repeat split. round_trip (@S3.UploadPart W).
Qed.

Lemma nextPartPage_lists (page : PartPage.t) (w : World.t W)
    (out : ListPartsOutput.t) (b : W) :
  S3.ListParts (Storage.service s) (listInputParts s (PartPage.Status page))
    (World.backend w) = (inr out, b) ->
  Forall wellFormedPart (ListPartsOutput.Parts out) ->
  exists err status,
    nextPartPage s page w =
      (Normal (err,
               PartPage.mk status
                 (PartPage.Data page ++ map listedPart (ListPartsOutput.Parts out))),
       World.mk b
         (World.calls w ++ [CallListParts (listInputParts s (PartPage.Status page))])).
Proof.
  intros Hcall Hwf. unfold nextPartPage, bind, invoke, lift. rewrite Hcall.
  rewrite (appendParts_wellFormed _ Hwf).
  destruct (negb (BoolValue (ListPartsOutput.IsTruncated out))); eexists; eexists;
    reflexivity.
Qed.

(** C1. For an index [i] in [0, 9999], [writeMultipart] (when its size and
    key checks pass on an object that carries an upload ID) sends exactly one
    [UploadPart] request, with part number [i + 1], and when the backend
    accepts returns a part whose [Index] is [i].  [nextPartPage] appends, for
    every entry of the listing and in the listing's order, a part whose index
    is the entry's part number minus one; an entry that carries the part
    number that was sent comes back with index [i].  Hence the number of
    parts with index [i] that a page fetch adds equals the number of entries
    with part number [i + 1]: a listing of the same upload (same key and
    upload ID) that reports the uploaded part once yields exactly one part
    with index [i]. *)
Theorem part_index_round_trip (o : Object.t) (r : Reader) (size i : Z)
    (opt : pairStorageWriteMultipart.t) (w : World.t W) (id : string) :
  0 <= i <= 9999 ->
  size <= multipartSizeMaximum ->
  Object.multipartID o = Some id ->
  (pairStorageWriteMultipart.HasServerSideEncryptionCustomerAlgorithm opt = false \/
   List.length (pairStorageWriteMultipart.ServerSideEncryptionCustomerKey opt) = 32%nat) ->
  exists input,
    UploadPartInput.PartNumber input = Some (i + 1) /\
    World.calls (snd (writeMultipart s o r size i opt w)) =
      World.calls w ++ [CallUploadPart input] /\
    (forall output b,
       S3.UploadPart (Storage.service s) input (World.backend w) = (inr output, b) ->
       exists part,
         fst (writeMultipart s o r size i opt w) = Normal (size, Some part, None) /\
         Part.Index part = i) /\
    (forall listOpt status,
       listMultipart o listOpt = Normal status ->
       ListPartsInput.UploadId (listInputParts s status) = UploadPartInput.UploadId input /\
       ListPartsInput.Key (listInputParts s status) = UploadPartInput.Key input) /\
    (forall page w2 out b2,
       S3.ListParts (Storage.service s) (listInputParts s (PartPage.Status page))
         (World.backend w2) = (inr out, b2) ->
       Forall wellFormedPart (ListPartsOutput.Parts out) ->
       exists err page',
         fst (nextPartPage s page w2) = Normal (err, page') /\
         PartPage.Data page' =
           PartPage.Data page ++ map listedPart (ListPartsOutput.Parts out) /\
         (forall v, In v (ListPartsOutput.Parts out) ->
                    1 <= Int64Value (s3Part.PartNumber v) <= 10000 ->
                    listedPart v = spec_part v) /\
         (forall v, In v (ListPartsOutput.Parts out) ->
                    s3Part.PartNumber v = UploadPartInput.PartNumber input ->
                    Part.Index (listedPart v) = i) /\
         countIndex i (PartPage.Data page') =
           (countIndex i (PartPage.Data page)
            + countNumber (i + 1) (ListPartsOutput.Parts out))%nat /\
         (PartPage.Data page = [] ->
          countNumber (i + 1) (ListPartsOutput.Parts out) = 1%nat ->
          countIndex i (PartPage.Data page') = 1%nat)).
Proof.
  intros Hi Hsize Hid Hkey.
  assert (Hi' : 0 <= i < multipartNumberMaximum) by (unfold multipartNumberMaximum; lia).
  destruct (writeMultipart_sends o r opt w Hi' Hsize Hid Hkey)
    as (input & Hnum & Hupload & Hk & Hrun).
  exists input. split.
  { rewrite Hnum, int64_add_exact; [reflexivity |].
    unfold in_int64, min_int64, max_int64. lia. }
  split.
  { rewrite Hrun. destruct (S3.UploadPart _ _ _) as [res b]. reflexivity. }
  split.
  { intros output b Hcall. rewrite Hrun, Hcall. eexists. split; reflexivity. }
  split.
  { intros listOpt status Hlist. unfold listMultipart, MustGetMultipartID in Hlist.
    rewrite Hid in Hlist. inversion Hlist. rewrite Hupload, Hk. split; reflexivity. }
  intros page w2 out b2 Hcall Hwf.
  destruct (nextPartPage_lists page w2 Hcall Hwf) as (err & status & Hnext).
  exists err,
    (PartPage.mk status
       (PartPage.Data page ++ map listedPart (ListPartsOutput.Parts out))).
  rewrite Hnext. cbn [fst PartPage.Data]. split; [reflexivity |].
  split; [reflexivity |].
  assert (Hcount : countIndex i
                     (PartPage.Data page ++ map listedPart (ListPartsOutput.Parts out)) =
                   (countIndex i (PartPage.Data page)
                    + countNumber (i + 1) (ListPartsOutput.Parts out))%nat).
  { rewrite countIndex_app, countIndex_listed by assumption. reflexivity. }
  split.
  { intros v _ Hrange. apply listedPart_spec_part.
    unfold in_int64, min_int64, max_int64. lia. }
  split.
  { intros v _ Hsame. unfold listedPart. rewrite Hsame, Hnum.
    cbn [Part.Index Int64Value]. apply int64_sub_add_one.
    unfold in_int64, min_int64, max_int64. lia. }
  split; [exact Hcount |].
  intros Hempty Hone. rewrite Hcount, Hempty, Hone. reflexivity.
Qed.

End PartProperties.

Lemma part_index_round_trip_witness :
  listMultipart sampleUpload plainListMultipart = Normal sampleStatus /\
  exists input part world1 err page,
    writeMultipart partStorage sampleUpload (StreamReader [x61; x62; x63; x64; x65]) 5 7
      plainWriteMultipart emptyStore = (Normal (5, Some part, None), world1) /\
    World.calls world1 = [CallUploadPart input] /\
    UploadPartInput.PartNumber input = Some 8 /\
    Part.Index part = 7 /\
    fst (nextPartPage partStorage (PartPage.mk sampleStatus []) world1) =
      Normal (err, page) /\
    countIndex 7 (PartPage.Data page) = 1%nat.
Proof.
  split; [reflexivity |].
  destruct (part_index_round_trip partStorage sampleUpload
              (StreamReader [x61; x62; x63; x64; x65]) (size := 5) (i := 7)
              plainWriteMultipart emptyStore (id := "upload-1"))
    as (input & Hnum & Hcalls & Hup & _ & Hlist);
    [lia | vm_compute; discriminate | reflexivity | left; reflexivity |].
  destruct (Hup (UploadPartOutput.mk (Some "etag-part")) [8]) as (part & Hres & Hidx).
  { assert (E : input =
                UploadPartInput.mk (Some "bucket") (Some 8) (Some "work/big")
                  (Some "upload-1") (Some 5)
                  (Some (SizedReadSeekCloser (StreamReader [x61; x62; x63; x64; x65]) 5))
                  None None None None).
    { vm_compute in Hcalls. inversion Hcalls. reflexivity. }
    rewrite E. reflexivity. }
  set (world1 := snd (writeMultipart partStorage sampleUpload
                        (StreamReader [x61; x62; x63; x64; x65]) 5 7
                        plainWriteMultipart emptyStore)).
  destruct (Hlist (PartPage.mk sampleStatus []) world1
              (ListPartsOutput.mk [s3Part.mk (Some 8) (Some 5) (Some "etag-part")]
                 (Some false) None) [8])
    as (err & page & Hnext & _ & _ & _ & _ & Hone).
  { reflexivity. }
  { repeat constructor. exists 8, 5. repeat split; vm_compute; discriminate. }
  exists input, part, world1, err, page.
  split.
  { rewrite (surjective_pairing (writeMultipart _ _ _ _ _ _ _)). rewrite Hres.
    reflexivity. }
  split; [exact Hcalls |].
  split; [exact Hnum |].
  split; [exact Hidx |].
  split; [exact Hnext |].
  apply Hone; reflexivity.
Defined.

(** ** Object listings: termination of the pull loop *)

Section PullLoop.
Variable W : Type.
Variable next : ObjectPage.t -> M W (option error * ObjectPage.t).

Lemma pull_last_page (fuel : nat) (page page' : ObjectPage.t)
    (pages : list (list Object.t)) (w w' : World.t W) :
  next (ObjectPage.mk (ObjectPage.Status page) []) w =
    (Normal (Some IterateDone, page'), w') ->
  pullObjectPages (S fuel) next page pages w =
    (Normal (pages ++ [ObjectPage.Data page'], IterCompleted), w').
Proof. intros H. simpl. unfold bind. rewrite H. reflexivity. Qed.

Lemma pull_next_page (fuel : nat) (page page' : ObjectPage.t)
    (pages : list (list Object.t)) (w w' : World.t W) :
  next (ObjectPage.mk (ObjectPage.Status page) []) w = (Normal (None, page'), w') ->
  pullObjectPages (S fuel) next page pages w =
    pullObjectPages fuel next page' (pages ++ [ObjectPage.Data page']) w'.
Proof. intros H. simpl. unfold bind. rewrite H. reflexivity. Qed.

End PullLoop.

Section ListingProperties.
Variable W : Type.
Variable s : Storage.t W.
Variable getServiceContinuationToken : objectPageStatus.t -> option string.

Lemma appendContents_wellFormed (contents : list s3Object.t) (data : list Object.t) :
  Forall (fun v => s3Object.Key v <> None) contents ->
  appendContents s contents data = Normal (data ++ map (fileObject s) contents, None).
Proof.
  intros Hwf. revert data. induction Hwf as [| v contents Hv _ IH]; intros data; simpl.
  - now rewrite app_nil_r.
  - unfold fileObject, formatFileObject.
    destruct (s3Object.Key v) as [key |]; [| contradiction].
    rewrite IH, <- app_assoc. reflexivity.
Qed.

Lemma appendCommonPrefixes_wellFormed (prefixes : list CommonPrefix.t)
    (data : list Object.t) :
  Forall (fun v => CommonPrefix.Prefix v <> None) prefixes ->
  appendCommonPrefixes s prefixes data = Normal (data ++ map (dirObject s) prefixes).
Proof.
  intros Hwf. revert data. induction Hwf as [| v prefixes Hv _ IH]; intros data; simpl.
  - now rewrite app_nil_r.
  - unfold dirObject.
    destruct (CommonPrefix.Prefix v) as [prefix |]; [| contradiction].
    rewrite IH, <- app_assoc. reflexivity.
Qed.

(** One page fetch of either mode on a well-formed response. *)
Lemma nextObjectPage_fetch (m : listing) (page : ObjectPage.t) (w : World.t W)
    (out : ListObjectsV2Output.t) (b : W) :
  let st := ObjectPage.Status page in
  S3.ListObjectsV2 (Storage.service s) (listInput s getServiceContinuationToken m st)
    (World.backend w) = (inr out, b) ->
  wellFormedListing m out ->
  nextObjectPage s getServiceContinuationToken m page w =
    (Normal
       (if BoolValue (ListObjectsV2Output.IsTruncated out)
        then (None,
              ObjectPage.mk
                (objectPageStatus.SetContinuationToken
                   (StringValue (ListObjectsV2Output.NextContinuationToken out)) st)
                (ObjectPage.Data page ++ listedObjects s m out))
        else (Some IterateDone,
              ObjectPage.mk st (ObjectPage.Data page ++ listedObjects s m out))),
     World.mk b
       (World.calls w
          ++ [CallListObjectsV2 (listInput s getServiceContinuationToken m st)])).
Proof.
  intros st Hcall [Hkeys Hmode]. destruct m; simpl in *.
  - unfold nextObjectPageByPrefix, bind, invoke, lift. fold st. rewrite Hcall.
    rewrite (appendContents_wellFormed _ Hkeys).
    destruct (BoolValue (ListObjectsV2Output.IsTruncated out)); reflexivity.
  - destruct Hmode as [Hprefixes Htoken].
    unfold nextObjectPageByDir, bind, invoke, lift. fold st. rewrite Hcall.
    rewrite (appendCommonPrefixes_wellFormed _ Hprefixes).
    rewrite (appendContents_wellFormed _ Hkeys), app_assoc.
    destruct (BoolValue (ListObjectsV2Output.IsTruncated out)); [| reflexivity].
    simpl. destruct (ListObjectsV2Output.NextContinuationToken out) as [token |].
    + reflexivity.
    + exfalso. now apply Htoken.
Qed.

(** C6. In prefix mode and in directory mode alike: when the first response
    is not truncated, the page function returns the page with [IterateDone],
    and the pull loop hands over exactly one page and is complete after one
    [ListObjectsV2] call; when the first response is truncated and the second
    (asked for with the token of the first) is not, the first fetch returns
    its page with no error and the second its page with [IterateDone], and
    the pull loop hands over exactly two pages and is complete after two
    calls.  No error is reported in either case, however many further
    advances are allowed. *)
Theorem object_listing_terminates (m : listing) (page : ObjectPage.t)
    (w : World.t W) (fuel : nat) :
  let st := ObjectPage.Status page in
  let request := listInput s getServiceContinuationToken m in
  let next := nextObjectPage s getServiceContinuationToken m in
  (forall out b,
     S3.ListObjectsV2 (Storage.service s) (request st) (World.backend w) = (inr out, b) ->
     wellFormedListing m out ->
     BoolValue (ListObjectsV2Output.IsTruncated out) = false ->
     let w1 := World.mk b (World.calls w ++ [CallListObjectsV2 (request st)]) in
     next (ObjectPage.mk st []) w =
       (Normal (Some IterateDone, ObjectPage.mk st (listedObjects s m out)), w1) /\
     pullObjectPages (S fuel) next page [] w =
       (Normal ([listedObjects s m out], IterCompleted), w1)) /\
  (forall out1 b1 out2 b2,
     S3.ListObjectsV2 (Storage.service s) (request st) (World.backend w) = (inr out1, b1) ->
     wellFormedListing m out1 ->
     BoolValue (ListObjectsV2Output.IsTruncated out1) = true ->
     let st1 :=
       objectPageStatus.SetContinuationToken
         (StringValue (ListObjectsV2Output.NextContinuationToken out1)) st in
     S3.ListObjectsV2 (Storage.service s) (request st1) b1 = (inr out2, b2) ->
     wellFormedListing m out2 ->
     BoolValue (ListObjectsV2Output.IsTruncated out2) = false ->
     let w1 := World.mk b1 (World.calls w ++ [CallListObjectsV2 (request st)]) in
     let w2 :=
       World.mk b2
         (World.calls w
            ++ [CallListObjectsV2 (request st); CallListObjectsV2 (request st1)]) in
     next (ObjectPage.mk st []) w =
       (Normal (None, ObjectPage.mk st1 (listedObjects s m out1)), w1) /\
     next (ObjectPage.mk st1 []) w1 =
       (Normal (Some IterateDone, ObjectPage.mk st1 (listedObjects s m out2)), w2) /\
     pullObjectPages (S (S fuel)) next page [] w =
       (Normal ([listedObjects s m out1; listedObjects s m out2], IterCompleted), w2)).
Proof.
  intros st request next. split.
  - intros out b Hcall Hwf Hlast w1.
    pose proof (@nextObjectPage_fetch m (ObjectPage.mk st []) w out b Hcall Hwf)
      as Hfetch.
    rewrite Hlast in Hfetch. cbn [ObjectPage.Status ObjectPage.Data app] in Hfetch.
    split; [exact Hfetch |].
    rewrite (@pull_last_page W next fuel page _ [] w _ Hfetch). reflexivity.
  - intros out1 b1 out2 b2 Hcall1 Hwf1 Hmore st1 Hcall2 Hwf2 Hlast w1 w2.
    subst w1 w2.
    pose proof (@nextObjectPage_fetch m (ObjectPage.mk st []) w out1 b1 Hcall1 Hwf1)
      as Hfetch1.
    rewrite Hmore in Hfetch1. cbn [ObjectPage.Status ObjectPage.Data app] in Hfetch1.
    pose proof (@nextObjectPage_fetch m (ObjectPage.mk st1 [])
                  (World.mk b1 (World.calls w ++ [CallListObjectsV2 (request st)]))
                  out2 b2 Hcall2 Hwf2) as Hfetch2.
    rewrite Hlast in Hfetch2.
    cbn [ObjectPage.Status ObjectPage.Data World.calls app] in Hfetch2.
    rewrite <- app_assoc in Hfetch2.
    split; [exact Hfetch1 |]. split; [exact Hfetch2 |].
    rewrite (@pull_next_page W next (S fuel) page _ [] w _ Hfetch1).
    rewrite (@pull_last_page W next fuel
               (ObjectPage.mk st1 (listedObjects s m out1)) _ _ _ _ Hfetch2).
    reflexivity.
Qed.

End ListingProperties.

Lemma object_listing_terminates_witness :
  (exists page world,
     pullObjectPages 5 (nextObjectPage pagingStorage tokenOrNil ByPrefix)
       (ObjectPage.mk (listStatus "work/small/" "") []) [] startWorld =
       (Normal ([page], IterCompleted), world) /\
     List.length (World.calls world) = 1%nat) /\
  (exists page1 page2 world,
     pullObjectPages 5 (nextObjectPage pagingStorage tokenOrNil ByDir)
       (ObjectPage.mk (listStatus "work/" "/") []) [] startWorld =
       (Normal ([page1; page2], IterCompleted), world) /\
     List.length page1 = 3%nat /\ List.length page2 = 1%nat /\
     List.length (World.calls world) = 2%nat).
Proof.
  split.
  - destruct (object_listing_terminates pagingStorage tokenOrNil ByPrefix
                (ObjectPage.mk (listStatus "work/small/" "") []) startWorld 4)
      as [Hone _].
    destruct (Hone (ListObjectsV2Output.mk [] [entry "work/small/x"] (Some false) None)
                tt) as [_ Hpull];
      [reflexivity | | reflexivity |].
    { split; [| exact I]. repeat constructor; discriminate. }
    eexists. eexists. split; [exact Hpull | reflexivity].
  - destruct (object_listing_terminates pagingStorage tokenOrNil ByDir
                (ObjectPage.mk (listStatus "work/" "/") []) startWorld 3)
      as [_ Htwo].
    destruct (Htwo (ListObjectsV2Output.mk [CommonPrefix.mk (Some "work/small/")]
                      [entry "work/a"; entry "work/b"] (Some true) (Some "token-1"))
                tt
                (ListObjectsV2Output.mk [] [entry "work/c"] (Some false) None) tt)
      as (_ & _ & Hpull); try reflexivity.
    { split; [repeat constructor; discriminate |].
      split; [repeat constructor; discriminate | discriminate]. }
    { split; [repeat constructor; discriminate |].
      split; [constructor | discriminate]. }
    eexists. eexists. eexists. split; [exact Hpull | repeat split].
Defined.

(** ** Multipart-upload listings: the cursor *)

Lemma appendUploads_wellFormed (W : Type) (s : Storage.t W)
    (ups : list MultipartUpload.t) (data : list Object.t) :
  Forall (fun v => MultipartUpload.Key v <> None /\ MultipartUpload.UploadId v <> None)
    ups ->
  exists objects,
    appendUploads s ups data = Normal (data ++ objects) /\
    List.length objects = List.length ups.
Proof.
  intros Hwf. revert data.
  induction Hwf as [| v ups [Hk Hu] _ IH]; intros data; simpl.
  - exists []. now rewrite app_nil_r.
  - destruct (MultipartUpload.Key v) as [key |]; [| contradiction].
    destruct (MultipartUpload.UploadId v) as [id |]; [| contradiction].
    destruct (IH (data ++
                    [Object.SetMultipartID id
                       (Object.SetMode (Z.lor (Object.Mode (newObject true)) ModePart)
                          (Object.SetPath (getRelPath s key)
                             (Object.SetID key (newObject true))))]))
      as (objects & E & L).
    eexists (_ :: objects). split.
    + simpl in E. rewrite E, <- app_assoc. reflexivity.
    + simpl. now rewrite L.
Qed.

(** What a page fetch of the multipart-upload listing stores: on a truncated
    response, the fields [KeyMarker] and [UploadIdMarker] of the response;
    [NextKeyMarker] and [NextUploadIdMarker] are not read.  On a response
    that is not truncated it reports [IterateDone]. *)
Lemma nextPartObjectPageByPrefix_cursor (W : Type) (s : Storage.t W)
    (page : ObjectPage.t) (w : World.t W)
    (out : ListMultipartUploadsOutput.t) (b : W) :
  S3.ListMultipartUploads (Storage.service s)
    (listInputUploads s (ObjectPage.Status page)) (World.backend w) = (inr out, b) ->
  Forall (fun v => MultipartUpload.Key v <> None /\ MultipartUpload.UploadId v <> None)
    (ListMultipartUploadsOutput.Uploads out) ->
  exists err page',
    fst (nextPartObjectPageByPrefix s page w) = Normal (err, page') /\
    (BoolValue (ListMultipartUploadsOutput.IsTruncated out) = false ->
     err = Some IterateDone /\ ObjectPage.Status page' = ObjectPage.Status page) /\
    (BoolValue (ListMultipartUploadsOutput.IsTruncated out) = true ->
     err = None /\
     ObjectPage.Status page' =
       objectPageStatus.SetMarkers
         (StringValue (ListMultipartUploadsOutput.KeyMarker out))
         (StringValue (ListMultipartUploadsOutput.UploadIdMarker out))
         (ObjectPage.Status page)).
Proof.
  intros Hcall Hwf.
  destruct (appendUploads_wellFormed s (ObjectPage.Data page) Hwf) as (objects & E & _).
  unfold nextPartObjectPageByPrefix, bind, invoke, lift. rewrite Hcall, E.
  destruct (BoolValue (ListMultipartUploadsOutput.IsTruncated out));
    eexists; eexists; (split; [reflexivity |]); split; intros H;
    try discriminate; split; reflexivity.
Qed.

Lemma uploads_first_page (page : ObjectPage.t) (calls : list Call) :
  ObjectPage.Status page = listStatus "work/" "" ->
  nextPartObjectPageByPrefix uploadsStorage
    (ObjectPage.mk (ObjectPage.Status page) []) (World.mk tt calls) =
  (Normal (None, ObjectPage.mk (listStatus "work/" "") [uploadA]),
   World.mk tt (calls ++ [CallListMultipartUploads firstUploadsRequest])).
Proof. intros ->. reflexivity. Qed.

Lemma uploads_never_complete (fuel : nat) :
  forall (page : ObjectPage.t) (pages : list (list Object.t)) (calls : list Call),
    ObjectPage.Status page = listStatus "work/" "" ->
    pullObjectPages fuel (nextPartObjectPageByPrefix uploadsStorage) page pages
      (World.mk tt calls) =
    (Normal (pages ++ repeat [uploadA] fuel, IterPending),
     World.mk tt (calls ++ repeat (CallListMultipartUploads firstUploadsRequest) fuel)).
Proof.
  induction fuel as [| fuel IH]; intros page pages calls Hst.
  - simpl. now rewrite !app_nil_r.
  - rewrite (@pull_next_page unit _ fuel page _ pages _ _ (@uploads_first_page page calls Hst)).
    rewrite IH by reflexivity. simpl. rewrite <- !app_assoc. reflexivity.
Qed.

(** C7. On a truncated page of the multipart-upload listing the cursor does
    not move: the backend answers the first request (empty markers) with one
    upload, the flag [IsTruncated] and the next markers ["work/a"] and
    ["id-a"], and the status after the fetch still holds the empty markers
    (the response's [KeyMarker] and [UploadIdMarker]).  Every further advance
    sends the first request again and receives the first page again, so the
    iteration never reaches the second upload and never completes. *)
Theorem multipart_listing_cursor_does_not_advance :
  fst (S3.ListMultipartUploads uploads firstUploadsRequest tt) =
    inr (ListMultipartUploadsOutput.mk [upload "work/a" "id-a"] (Some true)
           (Some "") (Some "") (Some "work/a") (Some "id-a")) /\
  nextPartObjectPageByPrefix uploadsStorage
    (ObjectPage.mk (listStatus "work/" "") []) startWorld =
    (Normal (None, ObjectPage.mk (listStatus "work/" "") [uploadA]),
     World.mk tt [CallListMultipartUploads firstUploadsRequest]) /\
  forall fuel,
    pullObjectPages fuel (nextPartObjectPageByPrefix uploadsStorage)
      (ObjectPage.mk (listStatus "work/" "") []) [] startWorld =
    (Normal (repeat [uploadA] fuel, IterPending),
     World.mk tt (repeat (CallListMultipartUploads firstUploadsRequest) fuel)).
Proof.
  split; [reflexivity |]. split; [reflexivity |].
  intros fuel. unfold startWorld.
  now rewrite uploads_never_complete.
Qed.

(** ** Delete and abort *)

Section DeleteProperties.
Variable W : Type.
Variable s : Storage.t W.

(** C8. [delete] has no not-found case.  Without a multipart ID it makes one
    [DeleteObject] call and returns what the backend returned: success on a
    success answer, the error on an error answer.  With a multipart ID, an
    error of the [AbortMultipartUpload] call is returned after that one
    call.  Success on a missing key or upload is therefore the backend's
    own answer, not an error that the package suppresses; [formatError]
    maps an error with code [NoSuchKey] or [NotFound] to
    [ErrObjectNotExist]. *)
Theorem delete_returns_backend_answer (path : string) (opt : pairStorageDelete.t)
    (w : World.t W) :
  (pairStorageDelete.HasMultipartID opt = false ->
   forall input res b,
     formatDeleteObjectInput s path opt = inr input ->
     S3.DeleteObject (Storage.service s) input (World.backend w) = (res, b) ->
     delete s path opt w =
       (Normal (error_of res), World.mk b (World.calls w ++ [CallDeleteObject input]))) /\
  (pairStorageDelete.HasMultipartID opt = true ->
   forall err b,
     S3.AbortMultipartUpload (Storage.service s)
       (formatAbortMultipartUploadInput s path opt) (World.backend w) = (inl err, b) ->
     delete s path opt w =
       (Normal (Some err),
        World.mk b
          (World.calls w
             ++ [CallAbortMultipartUpload (formatAbortMultipartUploadInput s path opt)]))) /\
  (forall code message,
     code = "NoSuchKey" \/ code = "NotFound" ->
     formatError (RequestFailure code message) =
       ErrorfWV ErrObjectNotExist (RequestFailure code message)).
Proof.
  split; [| split].
  - intros Hid input res b Hfmt Hcall. unfold delete. rewrite Hid.
    unfold bind at 1. unfold ret at 1. rewrite Hfmt. unfold bind, invoke.
    rewrite Hcall. reflexivity.
  - intros Hid err b Hcall. unfold delete. rewrite Hid.
    unfold bind, invoke. rewrite Hcall. reflexivity.
  - intros code message [-> | ->]; reflexivity.
Qed.

End DeleteProperties.

Lemma delete_returns_backend_answer_witness :
  delete acceptingStorage "gone" plainDelete startWorld =
    (Normal None,
     World.mk tt
       [CallDeleteObject (DeleteObjectInput.mk (Some "bucket") (Some "work/gone") None)]) /\
  delete missingStorage "gone" abortDelete startWorld =
    (Normal (Some notFoundUpload),
     World.mk tt
       [CallAbortMultipartUpload
          (AbortMultipartUploadInput.mk (Some "bucket") (Some "work/gone")
             (Some "upload-1") None)]) /\
  formatError notFoundKey = ErrorfWV ErrObjectNotExist notFoundKey.
Proof.
  split; [| split].
  - destruct (delete_returns_backend_answer acceptingStorage "gone" plainDelete
                startWorld) as (H & _ & _).
    apply (H eq_refl _ (inr (DeleteObjectOutput.mk None)) tt); reflexivity.
  - destruct (delete_returns_backend_answer missingStorage "gone" abortDelete
                startWorld) as (_ & H & _).
    apply (H eq_refl notFoundUpload tt). reflexivity.
  - destruct (delete_returns_backend_answer missingStorage "gone" plainDelete
                startWorld) as (_ & _ & H).
    apply H. left. reflexivity.
Defined.

(** C8, as the specification states it, fails: a backend that reports a
    missing key, or a missing upload, has its error returned by [delete]. *)
Lemma delete_not_found_is_returned :
  fst (S3.DeleteObject missing
         (DeleteObjectInput.mk (Some "bucket") (Some "work/gone") None) tt) =
    inl notFoundKey /\
  fst (delete missingStorage "gone" plainDelete startWorld) = Normal (Some notFoundKey) /\
  fst (delete missingStorage "gone" plainDelete startWorld) <> Normal None /\
  fst (delete missingStorage "gone" abortDelete startWorld) = Normal (Some notFoundUpload) /\
  fst (delete missingStorage "gone" abortDelete startWorld) <> Normal None.
Proof. repeat split; discriminate. Qed.

Example md5_abc :
  map byte_to_Z (md5_Sum (map byte_of_Z [97; 98; 99])) =
  [144; 1; 80; 152; 60; 210; 79; 176; 214; 150; 63; 125; 40; 225; 127; 114].
Proof. vm_compute. reflexivity. Qed.

Example md5_base64_long :
  base64_EncodeToString (md5_Sum (repeat x61 100)) = "NqksyUqeD6IfYl+L+wB63w==".
Proof. vm_compute. reflexivity. Qed.

Example base64_examples :
  base64_EncodeToString [x61; x62] = "YWI=" /\
  base64_EncodeToString [x61] = "YQ==" /\
  base64_EncodeToString [x61; x62; x63] = "YWJj" /\
  base64_EncodeToString (md5_Sum []) = "1B2M2Y8AsgTpgAmY7PhCfg==".
Proof. vm_compute. repeat split. Qed.

(** * Further properties *)

(** ** Listings of any number of pages *)

Section ManyPages.
Variable W : Type.
Variable s : Storage.t W.
Variable getServiceContinuationToken : objectPageStatus.t -> option string.

(* The pull loop over a backend that serves [outs], from any page and any
   pages already handed over. *)
Lemma pull_served_object_pages (m : listing) (st : objectPageStatus.t)
    (b b' : W) (outs : list ListObjectsV2Output.t) :
  servedObjectPages s getServiceContinuationToken m st b outs b' ->
  forall (fuel : nat) (page : ObjectPage.t) (pages : list (list Object.t))
         (calls : list Call),
    ObjectPage.Status page = st ->
    (List.length outs <= fuel)%nat ->
    exists calls',
      pullObjectPages fuel (nextObjectPage s getServiceContinuationToken m) page pages
        (World.mk b calls) =
        (Normal (pages ++ map (listedObjects s m) outs, IterCompleted),
         World.mk b' (calls ++ calls')) /\
      List.length calls' = List.length outs /\
      Forall (listRequest m (Storage.name s) (objectPageStatus.prefix st)
                (objectPageStatus.maxKeys st) (objectPageStatus.delimiter st)) calls'.
Proof.
  assert (Hreq : forall st,
            listRequest m (Storage.name s) (objectPageStatus.prefix st)
              (objectPageStatus.maxKeys st) (objectPageStatus.delimiter st)
              (CallListObjectsV2 (listInput s getServiceContinuationToken m st))).
  { intros st0. eexists. split; [reflexivity |]. destruct m; repeat split. }
  induction 1 as [st b b' out Hcall Hwf Hlast
                 | st b b' b'' out outs Hcall Hwf Hmore Hrest IH];
    intros fuel page pages calls Hst Hfuel.
  - destruct fuel as [| fuel]; [simpl in Hfuel; lia |].
    pose proof (@nextObjectPage_fetch W s getServiceContinuationToken m
                  (ObjectPage.mk st []) (World.mk b calls) out b' Hcall Hwf) as Hfetch.
    rewrite Hlast in Hfetch. cbn [ObjectPage.Status ObjectPage.Data app] in Hfetch.
    subst st.
    rewrite (@pull_last_page W _ fuel page _ pages _ _ Hfetch).
    eexists. split; [reflexivity |]. split; [reflexivity |].
    constructor; [apply Hreq | constructor].
  - destruct fuel as [| fuel]; [simpl in Hfuel; lia |].
    pose proof (@nextObjectPage_fetch W s getServiceContinuationToken m
                  (ObjectPage.mk st []) (World.mk b calls) out b' Hcall Hwf) as Hfetch.
    rewrite Hmore in Hfetch. cbn [ObjectPage.Status ObjectPage.Data app] in Hfetch.
    subst st.
    rewrite (@pull_next_page W _ fuel page _ pages _ _ Hfetch).
    cbn [World.calls].
    match goal with
    | |- context [pullObjectPages fuel _ ?pg ?pgs (World.mk _ ?cs)] =>
        destruct (IH fuel pg pgs cs eq_refl) as (calls' & Hpull & Hlen & Hall);
          [simpl in Hfuel; lia |]
    end.
    rewrite Hpull.
    eexists. cbn [ObjectPage.Data map]. rewrite <- !app_assoc. split; [reflexivity |].
    split; [simpl; now rewrite Hlen |].
    constructor; [apply Hreq | exact Hall].
Qed.


Lemma nextPartPage_fetch (page : PartPage.t) (w : World.t W)
    (out : ListPartsOutput.t) (b : W) :
  let st := PartPage.Status page in
  S3.ListParts (Storage.service s) (listInputParts s st) (World.backend w) = (inr out, b) ->
  Forall wellFormedPart (ListPartsOutput.Parts out) ->
  nextPartPage s page w =
    (Normal
       (if BoolValue (ListPartsOutput.IsTruncated out)
        then (None,
              PartPage.mk
                (partPageStatus.SetPartNumberMarker
                   (Int64Value (ListPartsOutput.NextPartNumberMarker out)) st)
                (PartPage.Data page ++ map listedPart (ListPartsOutput.Parts out)))
        else (Some IterateDone,
              PartPage.mk st
                (PartPage.Data page ++ map listedPart (ListPartsOutput.Parts out)))),
     World.mk b (World.calls w ++ [CallListParts (listInputParts s st)])).
Proof.
  intros st Hcall Hwf. unfold nextPartPage, bind, invoke, lift. fold st.
  rewrite Hcall, (appendParts_wellFormed _ Hwf).
  destruct (BoolValue (ListPartsOutput.IsTruncated out)); reflexivity.
Qed.

Lemma pull_last_part_page (next : PartPage.t -> M W (option error * PartPage.t))
    (fuel : nat) (page page' : PartPage.t)
    (pages : list (list Part.t)) (w w' : World.t W) :
  next (PartPage.mk (PartPage.Status page) []) w =
    (Normal (Some IterateDone, page'), w') ->
  pullPartPages (S fuel) next page pages w =
    (Normal (pages ++ [PartPage.Data page'], IterCompleted), w').
Proof. intros H. simpl. unfold bind. rewrite H. reflexivity. Qed.

Lemma pull_next_part_page (next : PartPage.t -> M W (option error * PartPage.t))
    (fuel : nat) (page page' : PartPage.t)
    (pages : list (list Part.t)) (w w' : World.t W) :
  next (PartPage.mk (PartPage.Status page) []) w = (Normal (None, page'), w') ->
  pullPartPages (S fuel) next page pages w =
    pullPartPages fuel next page' (pages ++ [PartPage.Data page']) w'.
Proof. intros H. simpl. unfold bind. rewrite H. reflexivity. Qed.

(** Whatever the number of pages of a part listing: the pull loop hands over
    one page per response and completes, and the parts of all pages taken
    together are the entries of all responses in the backend's order, each
    with its part number brought back by one. *)
Theorem part_listing_yields_every_part (st : partPageStatus.t) (b b' : W)
    (outs : list ListPartsOutput.t) :
  servedPartPages s st b outs b' ->
  forall (fuel : nat) (page : PartPage.t) (pages : list (list Part.t))
         (calls : list Call),
    PartPage.Status page = st ->
    (List.length outs <= fuel)%nat ->
    exists calls' pages',
      pullPartPages fuel (nextPartPage s) page pages (World.mk b calls) =
        (Normal (pages ++ pages', IterCompleted), World.mk b' (calls ++ calls')) /\
      List.length calls' = List.length outs /\
      List.length pages' = List.length outs /\
      List.concat pages' =
        map listedPart (List.concat (map ListPartsOutput.Parts outs)).
Proof.
  induction 1 as [st b b' out Hcall Hwf Hlast
                 | st b b' b'' out outs Hcall Hwf Hmore Hrest IH];
    intros fuel page pages calls Hst Hfuel.
  - destruct fuel as [| fuel]; [simpl in Hfuel; lia |].
    pose proof (@nextPartPage_fetch (PartPage.mk st []) (World.mk b calls) out b'
                  Hcall Hwf) as Hfetch.
    rewrite Hlast in Hfetch. cbn [PartPage.Status PartPage.Data app] in Hfetch.
    subst st.
    rewrite (@pull_last_part_page _ fuel page _ pages _ _ Hfetch).
    eexists. exists [map listedPart (ListPartsOutput.Parts out)].
    split; [reflexivity |]. split; [reflexivity |]. split; [reflexivity |].
    simpl. now rewrite !app_nil_r.
  - destruct fuel as [| fuel]; [simpl in Hfuel; lia |].
    pose proof (@nextPartPage_fetch (PartPage.mk st []) (World.mk b calls) out b'
                  Hcall Hwf) as Hfetch.
    rewrite Hmore in Hfetch. cbn [PartPage.Status PartPage.Data app] in Hfetch.
    subst st.
    rewrite (@pull_next_part_page _ fuel page _ pages _ _ Hfetch).
    cbn [World.calls].
    match goal with
    | |- context [pullPartPages fuel _ ?pg ?pgs (World.mk _ ?cs)] =>
        destruct (IH fuel pg pgs cs eq_refl)
          as (calls' & pages' & Hpull & Hlen & Hlen' & Hall);
          [simpl in Hfuel; lia |]
    end.
    rewrite Hpull. cbn [PartPage.Data].
    eexists. exists (map listedPart (ListPartsOutput.Parts out) :: pages').
    rewrite <- !app_assoc. split; [reflexivity |].
    split; [simpl; now rewrite Hlen |].
    split; [simpl; now rewrite Hlen' |].
    simpl. now rewrite Hall, map_app.
Qed.

End ManyPages.


Lemma part_listing_yields_every_part_witness :
  exists calls pages,
    pullPartPages 9 (nextPartPage partPagesStorage) (PartPage.mk sampleStatus []) []
      startWorld = (Normal (pages, IterCompleted), World.mk tt calls) /\
    List.length calls = 2%nat /\
    map Part.Index (List.concat pages) = [0; 1; 2].
Proof.
  destruct (@part_listing_yields_every_part unit partPagesStorage sampleStatus tt tt
              [firstParts; lastParts])
    with (fuel := 9%nat) (page := PartPage.mk sampleStatus [])
         (pages := @nil (list Part.t)) (calls := @nil Call)
    as (calls & pages & Hpull & Hlen & _ & Hall).
  - assert (Hwf : forall n, in_int64 n -> wellFormedPart (listedEntry n)).
    { intros n Hn. exists n, 5. repeat split; apply Hn. }
    apply served_more_parts with (b' := tt); [reflexivity | | reflexivity |].
    + repeat constructor; apply Hwf; vm_compute; split; discriminate.
    + apply served_last_parts; [reflexivity | | reflexivity].
      repeat constructor; apply Hwf; vm_compute; split; discriminate.
  - reflexivity.
  - simpl. lia.
  - exists calls, pages. split; [exact Hpull |]. split; [exact Hlen |].
    rewrite Hall. reflexivity.
Defined.

(** ** A fetch that fails *)

Section FailedFetch.
Variable W : Type.
Variable s : Storage.t W.
Variable getServiceContinuationToken : objectPageStatus.t -> option string.

(** When the backend answers the listing call of a page function with an
    error, the page function returns that error after the one call and
    leaves the page as it was: the cursor does not move and no entry is
    added, so the same fetch can be asked again.  In the pull loop such an
    error (one that is not [IterateDone]) ends the iteration with no page
    handed over for the fetch. *)
Theorem failed_fetch_changes_nothing (e : error) (b : W) (w : World.t W) :
  (forall m page,
     S3.ListObjectsV2 (Storage.service s)
       (listInput s getServiceContinuationToken m (ObjectPage.Status page))
       (World.backend w) = (inl e, b) ->
     nextObjectPage s getServiceContinuationToken m page w =
       (Normal (Some e, page),
        World.mk b
          (World.calls w
             ++ [CallListObjectsV2
                   (listInput s getServiceContinuationToken m (ObjectPage.Status page))])) /\
     forall fuel pages,
       errors_Is e IterateDone = false ->
       pullObjectPages (S fuel) (nextObjectPage s getServiceContinuationToken m)
         page pages w =
         (Normal (pages, IterFailed e),
          World.mk b
            (World.calls w
               ++ [CallListObjectsV2
                     (listInput s getServiceContinuationToken m
                        (ObjectPage.Status page))]))) /\
  (forall page,
     S3.ListMultipartUploads (Storage.service s)
       (listInputUploads s (ObjectPage.Status page)) (World.backend w) = (inl e, b) ->
     nextPartObjectPageByPrefix s page w =
       (Normal (Some e, page),
        World.mk b
          (World.calls w
             ++ [CallListMultipartUploads (listInputUploads s (ObjectPage.Status page))]))) /\
  (forall page,
     S3.ListParts (Storage.service s) (listInputParts s (PartPage.Status page))
       (World.backend w) = (inl e, b) ->
     nextPartPage s page w =
       (Normal (Some e, page),
        World.mk b
          (World.calls w ++ [CallListParts (listInputParts s (PartPage.Status page))]))).
Proof.
  split; [| split].
  - intros m page Hcall.
    assert (Hnext : forall data,
               nextObjectPage s getServiceContinuationToken m
                 (ObjectPage.mk (ObjectPage.Status page) data) w =
               (Normal (Some e, ObjectPage.mk (ObjectPage.Status page) data),
                World.mk b
                  (World.calls w
                     ++ [CallListObjectsV2
                           (listInput s getServiceContinuationToken m
                              (ObjectPage.Status page))]))).
    { intros data. destruct m; simpl in *;
        [unfold nextObjectPageByPrefix | unfold nextObjectPageByDir];
        unfold bind, invoke; cbn [ObjectPage.Status]; rewrite Hcall; reflexivity. }
    split.
    + destruct page as [st data]. apply Hnext.
    + intros fuel pages Hnot. simpl. unfold bind. rewrite Hnext, Hnot. reflexivity.
  - intros page Hcall. unfold nextPartObjectPageByPrefix, bind, invoke.
    rewrite Hcall. reflexivity.
  - intros page Hcall. unfold nextPartPage, bind, invoke. rewrite Hcall. reflexivity.
Qed.

End FailedFetch.

Lemma failed_fetch_changes_nothing_witness :
  nextObjectPage sampleStorage tokenOrNil ByDir
    (ObjectPage.mk (listStatus "work/" "/") []) startWorld =
    (Normal (Some (TransportError "connection refused"),
             ObjectPage.mk (listStatus "work/" "/") []),
     World.mk tt
       [CallListObjectsV2
          (listInput sampleStorage tokenOrNil ByDir (listStatus "work/" "/"))]) /\
  fst (pullObjectPages 3 (nextObjectPage sampleStorage tokenOrNil ByDir)
         (ObjectPage.mk (listStatus "work/" "/") []) [] startWorld) =
    Normal ([], IterFailed (TransportError "connection refused")) /\
  fst (nextPartPage sampleStorage (PartPage.mk sampleStatus []) startWorld) =
    Normal (Some (TransportError "connection refused"), PartPage.mk sampleStatus []).
Proof.
  destruct (failed_fetch_changes_nothing sampleStorage tokenOrNil
              (TransportError "connection refused") tt startWorld)
    as (Hobjects & _ & Hparts).
  destruct (Hobjects ByDir (ObjectPage.mk (listStatus "work/" "/") []) eq_refl)
    as [Hnext Hpull].
  split; [exact Hnext |]. split.
  - rewrite (Hpull 2%nat [] eq_refl). reflexivity.
  - rewrite (Hparts (PartPage.mk sampleStatus []) eq_refl). reflexivity.
Defined.

(** ** Creating objects *)

Lemma string_app_assoc (a b c : string) : ((a ++ b) ++ c = a ++ (b ++ c))%string.
Proof. induction a as [| x a IH]; simpl; [reflexivity | now rewrite IH]. Qed.

Section CreateProperties.
Variable W : Type.
Variable s : Storage.t W.

(** [create] makes no object exactly when a directory is asked for (without
    a multipart ID) and directories are not emulated.  Otherwise the object
    carries the caller's path and exactly one mode: [ModePart] with the given
    upload ID, or [ModeDir] with the key ended by a slash, or [ModeRead]; but
    for the slash of a directory, its ID is the absolute key, from which
    [getRelPath] gives the path back. *)
Theorem create_object (path : string) (opt : pairStorageCreate.t) :
  let dir := pairStorageCreate.HasObjectMode opt
             && Mode_IsDir (pairStorageCreate.ObjectMode opt) in
  (create s path opt = None <->
   pairStorageCreate.HasMultipartID opt = false /\ dir = true /\
   StorageFeatures.VirtualDir (Storage.features s) = false) /\
  (forall o,
     create s path opt = Some o ->
     Object.Path o = path /\
     (pairStorageCreate.HasMultipartID opt = true ->
      Object.Mode o = ModePart /\
      Object.multipartID o = Some (pairStorageCreate.MultipartID opt) /\
      Object.ID o = getAbsPath s path /\ getRelPath s (Object.ID o) = path) /\
     (pairStorageCreate.HasMultipartID opt = false -> dir = true ->
      Object.Mode o = ModeDir /\ Object.multipartID o = None /\
      Object.ID o = (getAbsPath s path ++ "/")%string /\
      getRelPath s (Object.ID o) = (path ++ "/")%string) /\
     (pairStorageCreate.HasMultipartID opt = false -> dir = false ->
      Object.Mode o = ModeRead /\ Object.multipartID o = None /\
      Object.ID o = getAbsPath s path /\ getRelPath s (Object.ID o) = path)).
Proof.
  intros dir. subst dir. unfold create.
  assert (Hround : getRelPath s (getAbsPath s path) = path)
    by (apply getRelPath_strips; reflexivity).
  assert (Hslash : getRelPath s (getAbsPath s path ++ "/")%string = (path ++ "/")%string).
  { apply getRelPath_strips. unfold getAbsPath. apply string_app_assoc. }
  destruct (pairStorageCreate.HasMultipartID opt) eqn:Hm.
  - split.
    + split; [discriminate | intros (H & _); discriminate].
    + intros o H. inversion H; subst o; clear H.
      cbn [Object.Path Object.Mode Object.ID Object.multipartID Object.SetPath
           Object.SetID Object.SetMode Object.SetMultipartID newObject].
      split; [reflexivity |]. split; [intros _; repeat split; exact Hround |].
      split; intros; discriminate.
  - destruct (pairStorageCreate.HasObjectMode opt
              && Mode_IsDir (pairStorageCreate.ObjectMode opt)) eqn:Hd.
    + destruct (StorageFeatures.VirtualDir (Storage.features s)) eqn:Hv;
        cbn [negb].
      * split.
        { split; [discriminate | intros (_ & _ & H); discriminate]. }
        intros o H. inversion H; subst o; clear H.
        cbn [Object.Path Object.Mode Object.ID Object.multipartID Object.SetPath
             Object.SetID Object.SetMode Object.SetMultipartID newObject].
        split; [reflexivity |]. split; [intros; discriminate |].
        split; [intros _ _; repeat split; exact Hslash |].
        intros; discriminate.
      * split; [split; [intros _; repeat split | reflexivity] |].
        intros o H. discriminate.
    + split.
      * split; [discriminate | intros (_ & H & _); discriminate].
      * intros o H. inversion H; subst o; clear H.
        cbn [Object.Path Object.Mode Object.ID Object.multipartID Object.SetPath
             Object.SetID Object.SetMode Object.SetMultipartID newObject].
        split; [reflexivity |]. split; [intros; discriminate |].
        split; [intros; discriminate |].
        intros _ _. repeat split. exact Hround.
Qed.

(** An object made by [create] with a multipart ID addresses that upload in
    every multipart operation: the part upload, the completion and the part
    listing all carry the absolute key of the path and the given upload
    ID. *)
Theorem created_object_addresses_the_upload (path : string)
    (opt : pairStorageCreate.t) :
  pairStorageCreate.HasMultipartID opt = true ->
  exists o,
    create s path opt = Some o /\
    (forall r size i wopt (w : World.t W),
       0 <= i < multipartNumberMaximum -> size <= multipartSizeMaximum ->
       pairStorageWriteMultipart.HasServerSideEncryptionCustomerAlgorithm wopt = false \/
       List.length (pairStorageWriteMultipart.ServerSideEncryptionCustomerKey wopt)
         = 32%nat ->
       exists input,
         World.calls (snd (writeMultipart s o r size i wopt w)) =
           World.calls w ++ [CallUploadPart input] /\
         UploadPartInput.Key input = Some (getAbsPath s path) /\
         UploadPartInput.UploadId input = Some (pairStorageCreate.MultipartID opt)) /\
    (forall parts copt,
       exists input,
         formatCompleteMultipartUploadInput s o parts copt = Normal input /\
         CompleteMultipartUploadInput.Key input = Some (getAbsPath s path) /\
         CompleteMultipartUploadInput.UploadId input =
           Some (pairStorageCreate.MultipartID opt)) /\
    (forall lopt,
       exists status,
         listMultipart o lopt = Normal status /\
         ListPartsInput.Key (listInputParts s status) = Some (getAbsPath s path) /\
         ListPartsInput.UploadId (listInputParts s status) =
           Some (pairStorageCreate.MultipartID opt)).
Proof.
  intros Hid. unfold create. rewrite Hid. eexists. split; [reflexivity |].
  split; [| split].
  - intros r size i wopt w Hi Hsize Hkey.
    match goal with
    | |- context [writeMultipart s ?o _ _ _ _ _] =>
        destruct (@writeMultipart_sends W s o r size i wopt w _ Hi Hsize eq_refl Hkey)
          as (input & _ & Hu & Hk & Hrun)
    end.
    exists input. rewrite Hrun. split.
    + destruct (S3.UploadPart _ _ _) as [res b]. reflexivity.
    + split; [exact Hk | exact Hu].
  - intros parts copt.
    match goal with
    | |- context [formatCompleteMultipartUploadInput s ?o _ _] =>
        destruct (@formatCompleteMultipartUploadInput_parts W s o parts copt _ eq_refl)
          as (input & Hfmt & _ & Hu & Hk)
    end.
    exists input. split; [exact Hfmt |]. split; [exact Hk | exact Hu].
  - intros lopt. eexists. split; [reflexivity |]. split; reflexivity.
Qed.

End CreateProperties.

Lemma create_object_witness :
  create sampleStorage "dir" createDirectory = None /\
  (exists o, create pagingStorage "dir" createDirectory = Some o /\
             Object.ID o = "work/dir/" /\ Object.Mode o = ModeDir) /\
  (exists o, create sampleStorage "big" createUpload = Some o /\
             Object.ID o = "work/big" /\ Object.Mode o = ModePart /\
             Object.multipartID o = Some "upload-1").
Proof.
  split; [| split].
  - apply (create_object sampleStorage "dir" createDirectory). repeat split.
  - eexists. split; [reflexivity |].
    destruct (create_object pagingStorage "dir" createDirectory) as [_ H].
    destruct (H _ eq_refl) as (_ & _ & Hdir & _).
    destruct (Hdir eq_refl eq_refl) as (Hmode & _ & Hid & _).
    split; [exact Hid | exact Hmode].
  - eexists. split; [reflexivity |].
    destruct (create_object sampleStorage "big" createUpload) as [_ H].
    destruct (H _ eq_refl) as (_ & Hpart & _).
    destruct (Hpart eq_refl) as (Hmode & Hmid & Hid & _).
    split; [exact Hid |]. split; [exact Hmode | exact Hmid].
Defined.

Lemma created_object_addresses_the_upload_witness :
  exists o input,
    create partStorage "big" createUpload = Some o /\
    World.calls (snd (writeMultipart partStorage o (StreamReader [x61]) 1 0
                        plainWriteMultipart emptyStore)) = [CallUploadPart input] /\
    UploadPartInput.Key input = Some "work/big" /\
    UploadPartInput.UploadId input = Some "upload-1".
Proof.
  destruct (created_object_addresses_the_upload partStorage "big" createUpload eq_refl)
    as (o & Hcreate & Hupload & _).
  destruct (Hupload (StreamReader [x61]) 1 0 plainWriteMultipart emptyStore)
    as (input & Hcalls & Hkey & Hid);
    [vm_compute; split; [discriminate | reflexivity]
    | vm_compute; discriminate | left; reflexivity |].
  exists o, input. split; [exact Hcreate |]. split; [exact Hcalls |].
  split; [exact Hkey | exact Hid].
Defined.

(** ** Deleting *)

Section MoreDeleteProperties.
Variable W : Type.
Variable s : Storage.t W.

(** Deleting a directory (no multipart ID): when directories are not
    emulated, [delete] returns the unsupported-pair error and calls nothing;
    when they are, it makes one [DeleteObject] call whose key is the absolute
    key of the path followed by a slash, and returns the backend's answer. *)
Theorem delete_directory (path : string) (opt : pairStorageDelete.t) (w : World.t W) :
  pairStorageDelete.HasMultipartID opt = false ->
  pairStorageDelete.HasObjectMode opt = true ->
  Mode_IsDir (pairStorageDelete.ObjectMode opt) = true ->
  (StorageFeatures.VirtualDir (Storage.features s) = false ->
   delete s path opt w = (Normal (Some (PairUnsupportedError "object_mode")), w)) /\
  (StorageFeatures.VirtualDir (Storage.features s) = true ->
   exists input,
     DeleteObjectInput.Key input = Some (getAbsPath s path ++ "/")%string /\
     DeleteObjectInput.Bucket input = Some (Storage.name s) /\
     delete s path opt w =
       (let '(res, b) := S3.DeleteObject (Storage.service s) input (World.backend w) in
        (Normal (error_of res), World.mk b (World.calls w ++ [CallDeleteObject input])))).
Proof.
  intros Hid Hhas Hdir. split; intros Hv.
  - unfold delete, formatDeleteObjectInput. rewrite Hid, Hhas, Hdir, Hv. reflexivity.
  - assert (Hfmt : formatDeleteObjectInput s path opt =
                   inr (DeleteObjectInput.mk (Some (Storage.name s))
                          (Some (getAbsPath s path ++ "/")%string)
                          (if pairStorageDelete.HasExceptedBucketOwner opt
                           then Some (pairStorageDelete.ExceptedBucketOwner opt)
                           else None))).
    { unfold formatDeleteObjectInput. rewrite Hhas, Hdir, Hv. reflexivity. }
    exists (DeleteObjectInput.mk (Some (Storage.name s))
              (Some (getAbsPath s path ++ "/")%string)
              (if pairStorageDelete.HasExceptedBucketOwner opt
               then Some (pairStorageDelete.ExceptedBucketOwner opt)
               else None)).
    split; [| split; [| unfold delete; rewrite Hid, Hfmt]].
    + reflexivity.
    + reflexivity.
    + unfold bind at 1. unfold ret at 1. unfold bind, invoke.
      destruct (S3.DeleteObject _ _ _) as [res b]. reflexivity.
Qed.

(** Deleting with a multipart ID when the abort succeeds: [delete] does not
    stop there.  It goes on to the plain delete of the same path: it formats
    the [DeleteObject] request, returns the format error if there is one, and
    otherwise makes the [DeleteObject] call after the abort and returns its
    answer. *)
Theorem delete_continues_after_abort (path : string) (opt : pairStorageDelete.t)
    (w : World.t W) (out : AbortMultipartUploadOutput.t) (b1 : W) :
  pairStorageDelete.HasMultipartID opt = true ->
  S3.AbortMultipartUpload (Storage.service s)
    (formatAbortMultipartUploadInput s path opt) (World.backend w) = (inr out, b1) ->
  let abort := CallAbortMultipartUpload (formatAbortMultipartUploadInput s path opt) in
  match formatDeleteObjectInput s path opt with
  | inl err =>
      delete s path opt w = (Normal (Some err), World.mk b1 (World.calls w ++ [abort]))
  | inr input =>
      delete s path opt w =
        (let '(res, b2) := S3.DeleteObject (Storage.service s) input b1 in
         (Normal (error_of res),
          World.mk b2 (World.calls w ++ [abort; CallDeleteObject input])))
  end.
Proof.
  intros Hid Hcall abort. subst abort. unfold delete, bind, invoke, ret.
  rewrite Hid, Hcall. cbn [error_of World.backend World.calls].
  destruct (formatDeleteObjectInput s path opt) as [err | input].
  - reflexivity.
  - destruct (S3.DeleteObject _ _ _) as [res b2]. cbn [World.calls].
    rewrite <- app_assoc. reflexivity.
Qed.

End MoreDeleteProperties.

Lemma delete_directory_witness :
  delete sampleStorage "dir" deleteDirectory startWorld =
    (Normal (Some (PairUnsupportedError "object_mode")), startWorld) /\
  delete pagingStorage "dir" deleteDirectory startWorld =
    (Normal (Some (TransportError "connection refused")),
     World.mk tt
       [CallDeleteObject (DeleteObjectInput.mk (Some "bucket") (Some "work/dir/") None)]).
Proof.
  split.
  - apply (delete_directory sampleStorage "dir" deleteDirectory startWorld);
      reflexivity.
  - destruct (delete_directory pagingStorage "dir" deleteDirectory startWorld
                eq_refl eq_refl eq_refl) as [_ H].
    destruct (H eq_refl) as (input & Hkey & Hbucket & Hrun).
    rewrite Hrun. destruct input as [bucket key owner].
    cbn [DeleteObjectInput.Key DeleteObjectInput.Bucket] in Hkey, Hbucket.
    subst bucket key.
    assert (Howner : owner = None).
    { vm_compute in Hrun. inversion Hrun. reflexivity. }
    subst owner. reflexivity.
Defined.

Lemma delete_continues_after_abort_witness :
  delete acceptingStorage "big" abortDelete startWorld =
    (Normal None,
     World.mk tt
       [CallAbortMultipartUpload
          (AbortMultipartUploadInput.mk (Some "bucket") (Some "work/big")
             (Some "upload-1") None);
        CallDeleteObject (DeleteObjectInput.mk (Some "bucket") (Some "work/big") None)]).
Proof.
  apply (delete_continues_after_abort acceptingStorage "big" abortDelete startWorld
           (out := AbortMultipartUploadOutput.mk None) (b1 := tt) eq_refl eq_refl).
Defined.

(** ** Classifying errors *)

Lemma errors_Is_kind (kind k v : error) (c1 c2 : string) :
  kind = ErrorCode c1 -> k = ErrorCode c2 ->
  (errors_Is (ErrorfWV kind v) k = true <-> k = kind).
Proof.
  intros -> ->. simpl. unfold error_eqb.
  destruct (error_eq_dec (ErrorfWV (ErrorCode c1) v) (ErrorCode c2)) as [E | _];
    [discriminate |].
  destruct (error_eq_dec (ErrorCode c1) (ErrorCode c2)) as [E | N]; simpl.
  - split; [intros _; now symmetry | reflexivity].
  - split; [discriminate | intros E; symmetry in E; contradiction].
Qed.

(** [formatError] returns an error of the framework as it is.  Any other
    error is wrapped under exactly one of [ErrObjectNotExist],
    [ErrPermissionDenied] and [ErrUnexpected], and [errors.Is] on the result
    holds for that kind alone: not-exist exactly for a request failure with
    code [NoSuchKey] or [NotFound], permission-denied exactly for one with
    code [AccessDenied], unexpected for everything else. *)
Theorem formatError_classifies (err : error) :
  (IsInternalError err = true -> formatError err = err) /\
  (IsInternalError err = false ->
   exists kind,
     formatError err = ErrorfWV kind err /\
     In kind taxonomy /\
     (forall k, In k taxonomy -> errors_Is (formatError err) k = true <-> k = kind) /\
     (kind = ErrObjectNotExist <->
      exists code message,
        err = RequestFailure code message /\ (code = "NoSuchKey" \/ code = "NotFound")) /\
     (kind = ErrPermissionDenied <->
      exists message, err = RequestFailure "AccessDenied" message)).
Proof.
  split.
  - intros H. unfold formatError. now rewrite H.
  - intros Hint.
    assert (Hkinds : forall kind, In kind taxonomy ->
              forall k, In k taxonomy ->
                errors_Is (ErrorfWV kind err) k = true <-> k = kind).
    { intros kind Hkind k Hk. unfold taxonomy in *. simpl in Hkind, Hk.
      destruct Hkind as [<- | [<- | [<- | []]]];
        destruct Hk as [<- | [<- | [<- | []]]];
        eapply errors_Is_kind; reflexivity. }
    assert (Hother : (forall code message, err <> RequestFailure code message) ->
              formatError err = ErrorfWV ErrUnexpected err).
    { intros Hno. unfold formatError. rewrite Hint.
      destruct err; try reflexivity. exfalso. now apply (Hno code message). }
    destruct err as [c | | m | m e | e v | code message | pair | m];
      try discriminate Hint.
    1-4, 6:
      (exists ErrUnexpected; rewrite Hother by (intros; discriminate);
       split; [reflexivity |]; split; [right; right; left; reflexivity |];
       split; [apply Hkinds; right; right; left; reflexivity |];
       split; (split; [discriminate | intros (? & H); try destruct H as (? & H & _);
                                      discriminate])).
    unfold formatError. rewrite Hint.
    destruct (code =? "NoSuchKey")%string eqn:E1;
      [| destruct (code =? "NotFound")%string eqn:E2;
         [| destruct (code =? "AccessDenied")%string eqn:E3]]; cbn [orb].
    + apply String.eqb_eq in E1. subst code.
      exists ErrObjectNotExist. split; [reflexivity |].
      split; [left; reflexivity |].
      split; [apply Hkinds; left; reflexivity |]. split.
      * split; [intros _; eauto | reflexivity].
      * split; [discriminate | intros (m & H); discriminate].
    + apply String.eqb_eq in E2. subst code.
      exists ErrObjectNotExist. split; [reflexivity |].
      split; [left; reflexivity |].
      split; [apply Hkinds; left; reflexivity |]. split.
      * split; [intros _; eauto | reflexivity].
      * split; [discriminate | intros (m & H); discriminate].
    + apply String.eqb_eq in E3. subst code.
      exists ErrPermissionDenied. split; [reflexivity |].
      split; [right; left; reflexivity |].
      split; [apply Hkinds; right; left; reflexivity |]. split.
      * split; [discriminate |].
        intros (code & m & H & [-> | ->]); discriminate.
      * split; [intros _; eauto | reflexivity].
    + apply String.eqb_neq in E1, E2, E3.
      exists ErrUnexpected. split; [reflexivity |].
      split; [right; right; left; reflexivity |].
      split; [apply Hkinds; right; right; left; reflexivity |]. split.
      * split; [discriminate |].
        intros (code' & m & H & [-> | ->]); inversion H; contradiction.
      * split; [discriminate |]. intros (m & H). inversion H. contradiction.
Qed.

Lemma formatError_classifies_witness :
  formatError notFoundKey = ErrorfWV ErrObjectNotExist notFoundKey /\
  errors_Is (formatError notFoundKey) ErrObjectNotExist = true /\
  errors_Is (formatError notFoundKey) ErrUnexpected = false /\
  formatError notFoundUpload = ErrorfWV ErrUnexpected notFoundUpload /\
  formatError (PairUnsupportedError "object_mode") = PairUnsupportedError "object_mode".
Proof.
  destruct (formatError_classifies notFoundKey) as [_ H].
  destruct (H eq_refl) as (kind & Hfmt & Hin & His & Hne & _).
  assert (Hkind : kind = ErrObjectNotExist) by (apply Hne; unfold notFoundKey; eauto).
  subst kind.
  split; [exact Hfmt |].
  split; [apply His; [left; reflexivity | reflexivity] |].
  split.
  { destruct (errors_Is (formatError notFoundKey) ErrUnexpected) eqn:E; [| reflexivity].
    apply His in E; [discriminate | right; right; left; reflexivity]. }
  split; [reflexivity |].
  apply (formatError_classifies (PairUnsupportedError "object_mode")). reflexivity.
Defined.

Section FormattedErrors.
Variable W : Type.
Variable s : Storage.t W.

(** The errors that [write] and [writeMultipart] return for a size or an
    index beyond the limits match [ErrRestrictionDissatisfied] under
    [errors.Is]; once passed through the storage's [formatError] they are
    classified as unexpected and match [ErrRestrictionDissatisfied] no
    more. *)
Theorem restriction_error_is_reclassified (path : string) (r : Reader) (size : Z)
    (opt : pairStorageWrite.t) (o : Object.t) (index : Z)
    (mopt : pairStorageWriteMultipart.t) (w : World.t W) :
  (size > writeSizeMaximum ->
   exists err formatted,
     write s path r size opt w = (Normal (0, Some err), w) /\
     errors_Is err ErrRestrictionDissatisfied = true /\
     Storage_formatError s "write" (Some err) [path] = Some formatted /\
     errors_Is (StorageError.Err formatted) ErrRestrictionDissatisfied = false /\
     errors_Is (StorageError.Err formatted) ErrUnexpected = true) /\
  (size > multipartSizeMaximum \/ index < 0 \/ index >= multipartNumberMaximum ->
   exists err formatted,
     writeMultipart s o r size index mopt w = (Normal (0, None, Some err), w) /\
     errors_Is err ErrRestrictionDissatisfied = true /\
     Storage_formatError s "write_multipart" (Some err) [Object.Path o] = Some formatted /\
     errors_Is (StorageError.Err formatted) ErrRestrictionDissatisfied = false /\
     errors_Is (StorageError.Err formatted) ErrUnexpected = true).
Proof.
  split.
  - intros Hsize. eexists. eexists. split; [now apply write_too_large |].
    repeat split.
  - intros H.
    destruct (Z_le_gt_dec size multipartSizeMaximum) as [Hle | Hgt].
    + eexists. eexists. split; [apply writeMultipart_bad_index; [exact Hle | lia] |].
      repeat split.
    + eexists. eexists. split; [now apply writeMultipart_too_large |].
      repeat split.
Qed.

(** The storage's [formatError] keeps success as success and never turns an
    error into success. *)
Lemma Storage_formatError_nil (op : string) (err : option error) (path : list string) :
  Storage_formatError s op err path = None <-> err = None.
Proof. destruct err; simpl; split; intros H; try discriminate; reflexivity. Qed.

End FormattedErrors.

Lemma restriction_error_is_reclassified_witness :
  exists err formatted,
    write sampleStorage "o" (StreamReader []) (5 * 2 ^ 30 + 1) plainWrite startWorld =
      (Normal (0, Some err), startWorld) /\
    errors_Is err ErrRestrictionDissatisfied = true /\
    Storage_formatError sampleStorage "write" (Some err) ["o"] = Some formatted /\
    errors_Is (StorageError.Err formatted) ErrRestrictionDissatisfied = false.
Proof.
  destruct (restriction_error_is_reclassified sampleStorage "o" (StreamReader [])
              (5 * 2 ^ 30 + 1) plainWrite sampleUpload 0 plainWriteMultipart startWorld)
    as [H _].
  destruct H as (err & formatted & Hw & His & Hfmt & Hnot & _); [reflexivity |].
  exists err, formatted. repeat split; assumption.
Defined.

(** ** The formatted request of a part upload *)

Section UploadPartProperties.
Variable W : Type.
Variable s : Storage.t W.

(** [writeMultipart] and [formatUploadPartInput] (the formatter of the
    presigned part upload) agree: within the size and index limits,
    [writeMultipart] panics, or fails without a call, exactly when the
    formatter does, and otherwise the one request it sends is the formatter's
    request with the body attached. *)
Theorem writeMultipart_sends_formatted_request (o : Object.t) (r : Reader)
    (size i : Z) (opt : pairStorageWriteMultipart.t) (w : World.t W) :
  0 <= i < multipartNumberMaximum ->
  size <= multipartSizeMaximum ->
  let body :=
    SizedReadSeekCloser
      (if pairStorageWriteMultipart.HasIoCallback opt
       then CallbackReader r (pairStorageWriteMultipart.IoCallback opt) else r)
      size in
  match formatUploadPartInput s o size i opt with
  | Panic reason => writeMultipart s o r size i opt w = (Panic reason, w)
  | Normal (inl err) => writeMultipart s o r size i opt w = (Normal (0, None, Some err), w)
  | Normal (inr input) =>
      World.calls (snd (writeMultipart s o r size i opt w)) =
        World.calls w ++ [CallUploadPart (UploadPartInput_SetBody body input)]
  end.
Proof.
  intros Hi Hsize body. subst body. unfold writeMultipart, formatUploadPartInput.
  destruct (size >? multipartSizeMaximum) eqn:E1; [lia |].
  destruct (i <? 0) eqn:E2; [lia |].
  destruct (i >=? multipartNumberMaximum) eqn:E3; [lia |].
  cbn [orb]. unfold bind at 1. unfold lift.
  destruct (MustGetMultipartID o) as [id | reason]; [| reflexivity].
  destruct (pairStorageWriteMultipart.HasServerSideEncryptionCustomerAlgorithm opt).
  - destruct (calculateEncryptionHeaders _ _) as [err | headers]; [reflexivity |].
    unfold bind, invoke. destruct (S3.UploadPart _ _ _) as [[e | out] b]; reflexivity.
  - unfold bind, invoke. destruct (S3.UploadPart _ _ _) as [[e | out] b]; reflexivity.
Qed.

End UploadPartProperties.

Lemma writeMultipart_sends_formatted_request_witness :
  exists input,
    formatUploadPartInput partStorage sampleUpload 5 7 plainWriteMultipart =
      Normal (inr input) /\
    UploadPartInput.Body input = None /\
    World.calls (snd (writeMultipart partStorage sampleUpload (StreamReader [x61]) 5 7
                        plainWriteMultipart emptyStore)) =
      [CallUploadPart
         (UploadPartInput_SetBody (SizedReadSeekCloser (StreamReader [x61]) 5) input)].
Proof.
  eexists. split; [reflexivity |]. split; [reflexivity |].
  apply (writeMultipart_sends_formatted_request partStorage sampleUpload
           (StreamReader [x61]) (size := 5) (i := 7) plainWriteMultipart emptyStore).
  - vm_compute. split; [discriminate | reflexivity].
  - vm_compute. discriminate.
Defined.

(** ** The customer-key fields of the requests *)

Section CustomerKeyProperties.
Variable W : Type.
Variable s : Storage.t W.


End CustomerKeyProperties.


(** ** The size of the customer-key headers *)

Lemma md5_Sum_length (data : list byte) : List.length (md5_Sum data) = 16%nat.
Proof.
  unfold md5_Sum.
  destruct (md5_blocks _ _ _) as [a b c d].
  rewrite length_map, !length_app. reflexivity.
Qed.

Lemma base64_of_Z_length (n : nat) :
  forall l, (List.length l <= n)%nat ->
            String.length (base64_of_Z l) = (4 * ((List.length l + 2) / 3))%nat.
Proof.
  induction n as [n IH] using lt_wf_ind. intros l Hl.
  destruct l as [| a [| b [| c rest]]]; try reflexivity.
  change (base64_of_Z (a :: b :: c :: rest))
    with (let v := Z.lor (Z.shiftl a 16) (Z.lor (Z.shiftl b 8) c) in
          String (b64_char (Z.shiftr v 18))
            (String (b64_char (Z.shiftr v 12))
               (String (b64_char (Z.shiftr v 6))
                  (String (b64_char v) (base64_of_Z rest))))).
  cbn [String.length]. cbn zeta. cbn [String.length].
  simpl List.length in *.
  rewrite (IH (List.length rest)) by lia.
  replace (S (S (S (List.length rest))) + 2)%nat
    with ((List.length rest + 2) + 1 * 3)%nat by lia.
  rewrite Nat.div_add by discriminate. lia.
Qed.

(** For every 32-byte key the two encoded headers have a fixed size: the
    base64 of the key has 44 characters and the base64 of its MD5 digest
    (16 bytes) has 24. *)
Theorem customer_key_header_sizes (algo : string) (key : list byte) :
  List.length key = 32%nat ->
  exists keyBase64 keyMD5Base64,
    calculateEncryptionHeaders algo key = inr (algo, keyBase64, keyMD5Base64) /\
    String.length keyBase64 = 44%nat /\
    String.length keyMD5Base64 = 24%nat.
Proof.
  intros Hlen. rewrite (calculateEncryptionHeaders_valid algo key Hlen).
  eexists. eexists. split; [reflexivity |].
  unfold base64_EncodeToString. split.
  - rewrite (base64_of_Z_length (n := 32)) by (rewrite length_map; lia).
    rewrite length_map, Hlen. reflexivity.
  - rewrite (base64_of_Z_length (n := 16))
      by (rewrite length_map, md5_Sum_length; lia).
    rewrite length_map, md5_Sum_length. reflexivity.
Qed.

Lemma customer_key_header_sizes_witness :
  exists keyBase64 keyMD5Base64,
    calculateEncryptionHeaders "AES256" key32 = inr ("AES256", keyBase64, keyMD5Base64) /\
    String.length keyBase64 = 44%nat /\
    String.length keyMD5Base64 = 24%nat.
Proof. apply customer_key_header_sizes. reflexivity. Defined.

(** ** Listing a path *)

Section ListProperties.
Variable W : Type.
Variable s : Storage.t W.
Variable getServiceContinuationToken : objectPageStatus.t -> option string.
Variables ListModeDir ListModePart ListModePrefix : Z.

(** [list] calls nothing itself.  With no list mode, or the prefix flag, it
    starts a prefix listing, and with the directory flag a directory
    listing: page size 200, the absolute key of the path as prefix, an empty
    cursor, and the delimiter ["/"] in directory mode.  Iterating what it
    returns over a backend that serves [outs] yields every page, and every
    request carries that prefix and page size.  A mode with none of the three
    flags is refused with the mode in the error. *)
Theorem list_then_iterate (path : string) (opt : pairStorageList.t) :
  ListMode_IsPart ListModePart ListModePrefix = false ->
  ListMode_IsDir ListModeDir ListModePrefix = false ->
  ListMode_IsPrefix ListModePrefix ListModePrefix = true ->
  let run := Storage_list s getServiceContinuationToken
               ListModeDir ListModePart ListModePrefix path opt in
  (forall m,
     selects ListModeDir ListModePart ListModePrefix opt m ->
     exists it,
       run = inr it /\
       ObjectIterator.next it = nextObjectPage s getServiceContinuationToken m /\
       objectPageStatus.prefix (ObjectIterator.status it) = getAbsPath s path /\
       objectPageStatus.maxKeys (ObjectIterator.status it) = 200 /\
       objectPageStatus.continuationToken (ObjectIterator.status it) = "" /\
       (m = ByDir -> objectPageStatus.delimiter (ObjectIterator.status it) = "/") /\
       forall b b' outs fuel calls,
         servedObjectPages s getServiceContinuationToken m (ObjectIterator.status it)
           b outs b' ->
         (List.length outs <= fuel)%nat ->
         exists calls',
           pullObjectPages fuel (ObjectIterator.next it)
             (ObjectPage.mk (ObjectIterator.status it) []) [] (World.mk b calls) =
             (Normal (map (listedObjects s m) outs, IterCompleted),
              World.mk b' (calls ++ calls')) /\
           List.length calls' = List.length outs /\
           Forall (listRequest m (Storage.name s) (getAbsPath s path) 200 "/") calls') /\
  (pairStorageList.HasListMode opt = true ->
   ListMode_IsPart ListModePart (pairStorageList.ListMode opt) = false ->
   ListMode_IsDir ListModeDir (pairStorageList.ListMode opt) = false ->
   ListMode_IsPrefix ListModePrefix (pairStorageList.ListMode opt) = false ->
   run = inl (pairStorageList.ListMode opt)).
Proof.
  intros Hpart Hdir Hprefix run. subst run. split.
  - intros m Hsel.
    assert (Hrun : exists delimiter,
              Storage_list s getServiceContinuationToken
                ListModeDir ListModePart ListModePrefix path opt =
              inr (ObjectIterator.mk (nextObjectPage s getServiceContinuationToken m)
                     (objectPageStatus.mk delimiter 200 (getAbsPath s path) "" "" ""
                        (if pairStorageList.HasExceptedBucketOwner opt
                         then pairStorageList.ExceptedBucketOwner opt else ""))) /\
              (m = ByDir -> delimiter = "/")).
    { unfold Storage_list. destruct m; simpl in Hsel.
      - exists "". split; [| discriminate].
        destruct Hsel as [Hno | (Hhas & H1 & H2 & H3)].
        + rewrite Hno. cbn [negb]. now rewrite Hpart, Hdir, Hprefix.
        + rewrite Hhas. cbn [negb]. now rewrite H1, H2, H3.
      - exists "/". split; [| reflexivity].
        destruct Hsel as (Hhas & H1 & H2).
        rewrite Hhas. cbn [negb]. now rewrite H1, H2. }
    destruct Hrun as (delimiter & Hrun & Hdelim).
    eexists. split; [exact Hrun |]. cbn [ObjectIterator.next ObjectIterator.status].
    split; [reflexivity |]. split; [reflexivity |]. split; [reflexivity |].
    split; [reflexivity |]. split; [exact Hdelim |].
    intros b b' outs fuel calls Hserved Hfuel.
    destruct (@pull_served_object_pages W s getServiceContinuationToken m _ b b'
                outs Hserved fuel
                (ObjectPage.mk
                   (objectPageStatus.mk delimiter 200 (getAbsPath s path) "" "" ""
                      (if pairStorageList.HasExceptedBucketOwner opt
                       then pairStorageList.ExceptedBucketOwner opt else "")) [])
                [] calls eq_refl Hfuel)
      as (calls' & Hpull & Hlen & Hall).
    exists calls'. split; [exact Hpull |]. split; [exact Hlen |].
    cbn [objectPageStatus.prefix objectPageStatus.maxKeys objectPageStatus.delimiter]
      in Hall.
    destruct m; [| now rewrite (Hdelim eq_refl) in Hall].
    eapply Forall_impl; [| exact Hall].
    intros c (i & Hc & Hb & Hp & Hk & Hd). exists i. repeat split; assumption.
  - intros Hhas H1 H2 H3. unfold Storage_list. rewrite Hhas. cbn [negb].
    now rewrite H1, H2, H3.
Qed.

End ListProperties.

Lemma list_then_iterate_witness :
  exists it calls,
    Storage_list pagingStorage tokenOrNil 2 4 1 "" listDirectory = inr it /\
    pullObjectPages 9 (ObjectIterator.next it)
      (ObjectPage.mk (ObjectIterator.status it) []) [] startWorld =
      (Normal (map (listedObjects pagingStorage ByDir) [firstObjects; lastObjects],
               IterCompleted),
       World.mk tt calls) /\
    Forall (listRequest ByDir "bucket" "work/" 200 "/") calls /\
    Storage_list pagingStorage tokenOrNil 2 4 1 "" listDefault =
      inr (ObjectIterator.mk (nextObjectPageByPrefix pagingStorage tokenOrNil)
             (listStatus "work/" "")).
Proof.
  destruct (@list_then_iterate unit pagingStorage tokenOrNil 2 4 1 "" listDirectory
              eq_refl eq_refl eq_refl) as [H _].
  destruct (H ByDir) as (it & Hrun & _ & _ & _ & _ & _ & Hiter).
  { repeat split. }
  destruct (Hiter tt tt [firstObjects; lastObjects] 9%nat (@nil Call))
    as (calls & Hpull & _ & Hall).
  { assert (E : ObjectIterator.status it = listStatus "work/" "/").
    { vm_compute in Hrun. inversion Hrun. reflexivity. }
    rewrite E.
    apply served_more_objects with (b' := tt); [reflexivity | | reflexivity |].
    + split; [repeat constructor; discriminate |].
      split; [repeat constructor; discriminate | discriminate].
    + apply served_last_objects; [reflexivity | | reflexivity].
      split; [repeat constructor; discriminate |].
      split; [constructor | discriminate]. }
  { simpl. lia. }
  exists it, calls. split; [exact Hrun |]. split; [exact Hpull |].
  split; [exact Hall | reflexivity].
Defined.

(** ** [stat] *)

Section StatProperties.
Variable W : Type.
Variable s : Storage.t W.
Variable more : S3More.t W.

(** [stat] of a path (no multipart ID), when the request can be made: it
    makes one [HeadObject] call, on the key of the path (ended by a slash for
    a directory), and returns the backend's error if there is one.  On an
    answer, the object has that key as ID, the caller's path, and exactly one
    mode: [ModeLink] with target ["/" + entry] when the answer's metadata has
    the link-target entry and links are emulated, [ModeRead] when it has the
    entry and links are not emulated, and otherwise [ModeDir] if a directory
    was asked for and [ModeRead] if not. *)
Theorem stat_reports_one_mode (path : string) (opt : pairStorageStat.t)
    (ss : Session.t W) :
  let dir := pairStorageStat.HasObjectMode opt
             && Mode_IsDir (pairStorageStat.ObjectMode opt) in
  let link := StorageFeatures.VirtualLink (Storage.features s) in
  pairStorageStat.HasMultipartID opt = false ->
  dir = false \/ StorageFeatures.VirtualDir (Storage.features s) = true ->
  pairStorageStat.HasServerSideEncryptionCustomerAlgorithm opt = false \/
  List.length (pairStorageStat.ServerSideEncryptionCustomerKey opt) = 32%nat ->
  exists input,
    HeadObjectInput.Key input = Some (statKey s path dir) /\
    HeadObjectInput.Bucket input = Some (Storage.name s) /\
    Session.calls (snd (stat s more path opt ss)) =
      Session.calls ss ++ [inr (CallHeadObject input)] /\
    (forall err b,
       S3More.HeadObject more input (Session.backend ss) = (inl err, b) ->
       fst (stat s more path opt ss) = Normal (inl err)) /\
    (forall output b,
       S3More.HeadObject more input (Session.backend ss) = (inr output, b) ->
       match lookupMetadata metadataLinkTargetHeader (HeadObjectOutput.Metadata output) with
       | Some None =>
           if link then fst (stat s more path opt ss) = Panic nil_dereference
           else exists o,
                  fst (stat s more path opt ss) = Normal (inr o) /\
                  Object.Mode (StatObject.Object o) = ModeRead /\
                  StatObject.LinkTarget o = None
       | Some (Some target) =>
           exists o,
             fst (stat s more path opt ss) = Normal (inr o) /\
             Object.Mode (StatObject.Object o) = statMode true link dir /\
             StatObject.LinkTarget o =
               (if link then Some ("/" ++ target)%string else None) /\
             Object.ID (StatObject.Object o) = statKey s path dir /\
             Object.Path (StatObject.Object o) = path
       | None =>
           exists o,
             fst (stat s more path opt ss) = Normal (inr o) /\
             Object.Mode (StatObject.Object o) = statMode false link dir /\
             StatObject.LinkTarget o = None /\
             Object.ID (StatObject.Object o) = statKey s path dir /\
             Object.Path (StatObject.Object o) = path
       end).
Proof.
  intros dir link Hid Hdir Hkey. subst link.
  assert (Hguard : dir && negb (StorageFeatures.VirtualDir (Storage.features s)) = false).
  { destruct Hdir as [-> | ->]; [reflexivity | now rewrite andb_false_r]. }
  assert (Hheaders :
            exists sse,
              (if pairStorageStat.HasServerSideEncryptionCustomerAlgorithm opt then
                 match calculateEncryptionHeaders
                         (pairStorageStat.ServerSideEncryptionCustomerAlgorithm opt)
                         (pairStorageStat.ServerSideEncryptionCustomerKey opt) with
                 | inl err => inl err
                 | inr h => inr (Some h)
                 end
               else inr None) = inr sse).
  { destruct (pairStorageStat.HasServerSideEncryptionCustomerAlgorithm opt); [| eauto].
    destruct Hkey as [Hkey | Hkey]; [discriminate |].
    rewrite calculateEncryptionHeaders_valid by exact Hkey. eauto. }
  destruct Hheaders as [sse Hsse].
  unfold stat. rewrite Hid. fold dir. rewrite Hguard, Hsse.
  match goal with |- context [invokeMore _ _ ?x] => exists x end.
  split; [unfold statKey; destruct dir; reflexivity |].
  split; [reflexivity |].
  unfold bind2, invokeMore.
  destruct (S3More.HeadObject more _ (Session.backend ss)) as [[err | output] b] eqn:Hcall.
  - split; [reflexivity |]. split.
    + intros err' b' H. inversion H. reflexivity.
    + intros output b' H. discriminate.
  - split.
    { destruct (lookupMetadata _ _) as [[t |] |];
        destruct (StorageFeatures.VirtualLink (Storage.features s)); reflexivity. }
    split; [intros err b' H; discriminate |].
    intros output' b' H. inversion H. subst output' b'. clear H.
    unfold statKey, statMode.
    destruct (lookupMetadata _ _) as [[t |] |];
      destruct (StorageFeatures.VirtualLink (Storage.features s));
      destruct dir;
      try reflexivity;
      eexists; (split; [reflexivity |]);
      destruct (HeadObjectOutput.ETag output); repeat split.
Qed.

(** [stat] calls nothing when the request cannot be made: a directory is
    asked for and directories are not emulated, or the customer key has the
    wrong length. *)
Theorem stat_refuses_before_any_call (path : string) (opt : pairStorageStat.t)
    (ss : Session.t W) :
  pairStorageStat.HasMultipartID opt = false ->
  let dir := pairStorageStat.HasObjectMode opt
             && Mode_IsDir (pairStorageStat.ObjectMode opt) in
  (dir = true -> StorageFeatures.VirtualDir (Storage.features s) = false ->
   stat s more path opt ss = (Normal (inl (PairUnsupportedError "object_mode")), ss)) /\
  (dir = false \/ StorageFeatures.VirtualDir (Storage.features s) = true ->
   pairStorageStat.HasServerSideEncryptionCustomerAlgorithm opt = true ->
   List.length (pairStorageStat.ServerSideEncryptionCustomerKey opt) <> 32%nat ->
   stat s more path opt ss =
     (Normal (inl ErrServerSideEncryptionCustomerKeyInvalid), ss)).
Proof.
  intros Hid dir. split.
  - intros Hd Hv. unfold stat. rewrite Hid. fold dir. rewrite Hd, Hv. reflexivity.
  - intros Hd Hhas Hlen. unfold stat. rewrite Hid. fold dir.
    assert (Hguard : dir && negb (StorageFeatures.VirtualDir (Storage.features s)) = false).
    { destruct Hd as [-> | ->]; [reflexivity | now rewrite andb_false_r]. }
    rewrite Hguard, Hhas, calculateEncryptionHeaders_invalid by exact Hlen.
    reflexivity.
Qed.

(** [stat] with a multipart ID asks the backend for the parts of that upload
    (one [ListParts] call, on the key of the path, with no page size and no
    marker) and makes no [HeadObject] call.  It returns the backend's error,
    or else an object in [ModePart] that carries the upload ID and whose part
    listing addresses the same key and upload. *)
Theorem stat_of_an_upload (path : string) (opt : pairStorageStat.t)
    (ss : Session.t W) :
  pairStorageStat.HasMultipartID opt = true ->
  exists input,
    ListPartsInput.Key input = Some (getAbsPath s path) /\
    ListPartsInput.UploadId input = Some (pairStorageStat.MultipartID opt) /\
    ListPartsInput.MaxParts input = None /\
    ListPartsInput.PartNumberMarker input = None /\
    Session.calls (snd (stat s more path opt ss)) =
      Session.calls ss ++ [inl (CallListParts input)] /\
    (forall err b,
       S3.ListParts (Storage.service s) input (Session.backend ss) = (inl err, b) ->
       fst (stat s more path opt ss) = Normal (inl err)) /\
    (forall out b,
       S3.ListParts (Storage.service s) input (Session.backend ss) = (inr out, b) ->
       exists o,
         fst (stat s more path opt ss) = Normal (inr o) /\
         Object.Mode (StatObject.Object o) = ModePart /\
         Object.multipartID (StatObject.Object o) =
           Some (pairStorageStat.MultipartID opt) /\
         forall lopt,
           exists status,
             listMultipart (StatObject.Object o) lopt = Normal status /\
             partPageStatus.key status = getAbsPath s path /\
             partPageStatus.uploadId status = pairStorageStat.MultipartID opt).
Proof.
  intros Hid. unfold stat. rewrite Hid.
  match goal with |- context [invoke _ _ ?x] => exists x end.
  split; [reflexivity |]. split; [reflexivity |].
  split; [reflexivity |]. split; [reflexivity |].
  unfold bind2, inSession, invoke. cbn [World.backend World.calls].
  destruct (S3.ListParts _ _ _) as [[err | out] b] eqn:Hcall.
  - split; [reflexivity |]. split.
    + intros err' b' H. inversion H. reflexivity.
    + intros out b' H. discriminate.
  - split; [reflexivity |]. split; [intros err b' H; discriminate |].
    intros out' b' _. eexists. split; [reflexivity |].
    split; [reflexivity |]. split; [reflexivity |].
    intros lopt. eexists. split; [reflexivity |]. split; reflexivity.
Qed.

End StatProperties.

Lemma stat_reports_one_mode_witness :
  (exists o,
     fst (stat linkStorage linking "l" plainStat startSession) = Normal (inr o) /\
     Object.Mode (StatObject.Object o) = ModeLink /\
     StatObject.LinkTarget o = Some "/work/target") /\
  (exists o,
     fst (stat acceptingStorage linking "l" plainStat startSession) = Normal (inr o) /\
     Object.Mode (StatObject.Object o) = ModeRead /\
     StatObject.LinkTarget o = None).
Proof.
  split.
  - destruct (stat_reports_one_mode linkStorage linking "l" plainStat startSession)
      as (input & _ & _ & _ & _ & H);
      [reflexivity | left; reflexivity | left; reflexivity |].
    destruct (H linkOutput tt eq_refl) as (o & Hres & Hmode & Htarget & _).
    exists o. split; [exact Hres |]. split; [exact Hmode | exact Htarget].
  - destruct (stat_reports_one_mode acceptingStorage linking "l" plainStat startSession)
      as (input & _ & _ & _ & _ & H);
      [reflexivity | left; reflexivity | left; reflexivity |].
    destruct (H linkOutput tt eq_refl) as (o & Hres & Hmode & Htarget & _).
    exists o. split; [exact Hres |]. split; [exact Hmode | exact Htarget].
Defined.

Lemma stat_refuses_before_any_call_witness :
  stat sampleStorage linking "dir" statDirectory startSession =
    (Normal (inl (PairUnsupportedError "object_mode")), startSession).
Proof.
  apply (stat_refuses_before_any_call sampleStorage linking "dir" statDirectory
           startSession eq_refl); reflexivity.
Defined.

Lemma stat_of_an_upload_witness :
  exists o,
    fst (stat acceptingStorage linking "big" statUpload startSession) = Normal (inr o) /\
    Object.Mode (StatObject.Object o) = ModePart /\
    Object.multipartID (StatObject.Object o) = Some "upload-1".
Proof.
  destruct (stat_of_an_upload acceptingStorage linking "big" statUpload startSession
              eq_refl) as (input & _ & _ & _ & _ & Hcalls & _ & H).
  assert (E : input =
              ListPartsInput.mk (Some "bucket") (Some "work/big") None None
                (Some "upload-1") None).
  { vm_compute in Hcalls. inversion Hcalls. reflexivity. }
  subst input.
  destruct (H (ListPartsOutput.mk [] None None) tt eq_refl) as (o & Hres & Hmode & Hid & _).
  exists o. split; [exact Hres |]. split; [exact Hmode | exact Hid].
Defined.

(** ** A multipart upload from creation to completion *)

Section UploadSession.
Variable W : Type.
Variable s : Storage.t W.
Variable more : S3More.t W.

(** [createMultipart] checks the customer key only when the
    customer-algorithm option is given: with that option and a key that is
    not 32 bytes long it calls nothing and returns the invalid-key error.
    Without that option (whatever the key), or with a 32-byte key, it makes
    one [CreateMultipartUpload] call on the key of the path and returns the
    backend's error or an object in [ModePart] that carries the upload ID of
    the answer.  That object ties the session together: every part upload
    and the completion are sent with the same key and that upload ID, and a
    completion that the backend accepts leaves the object in [ModeRead]
    alone. *)
Theorem multipart_upload_session (path : string) (copt : pairStorageCreateMultipart.t)
    (ss : Session.t W) :
  (pairStorageCreateMultipart.HasServerSideEncryptionCustomerAlgorithm copt = true ->
   List.length (pairStorageCreateMultipart.ServerSideEncryptionCustomerKey copt)
     <> 32%nat ->
   createMultipart s more path copt ss =
     (Normal (inl ErrServerSideEncryptionCustomerKeyInvalid), ss)) /\
  (pairStorageCreateMultipart.HasServerSideEncryptionCustomerAlgorithm copt = false \/
   List.length (pairStorageCreateMultipart.ServerSideEncryptionCustomerKey copt)
     = 32%nat ->
   exists input,
     formatCreateMultipartUploadInput s path copt = inr input /\
     CreateMultipartUploadInput.Key input = Some (getAbsPath s path) /\
     Session.calls (snd (createMultipart s more path copt ss)) =
       Session.calls ss ++ [inr (CallCreateMultipartUpload input)] /\
     (forall err b,
        S3More.CreateMultipartUpload more input (Session.backend ss) = (inl err, b) ->
        fst (createMultipart s more path copt ss) = Normal (inl err)) /\
     (forall out b,
        S3More.CreateMultipartUpload more input (Session.backend ss) = (inr out, b) ->
        let id := StringValue (CreateMultipartUploadOutput.UploadId out) in
        exists o,
          fst (createMultipart s more path copt ss) = Normal (inr o) /\
          Object.Mode o = ModePart /\
          Object.ID o = getAbsPath s path /\
          Object.Path o = path /\
          Object.multipartID o = Some id /\
          (forall r size i wopt (w : World.t W),
             0 <= i < multipartNumberMaximum -> size <= multipartSizeMaximum ->
             pairStorageWriteMultipart.HasServerSideEncryptionCustomerAlgorithm wopt
               = false \/
             List.length (pairStorageWriteMultipart.ServerSideEncryptionCustomerKey wopt)
               = 32%nat ->
             exists sent,
               World.calls (snd (writeMultipart s o r size i wopt w)) =
                 World.calls w ++ [CallUploadPart sent] /\
               UploadPartInput.Key sent = Some (getAbsPath s path) /\
               UploadPartInput.UploadId sent = Some id) /\
          (forall parts opt (w : World.t W),
             exists sent,
               formatCompleteMultipartUploadInput s o parts opt = Normal sent /\
               CompleteMultipartUploadInput.Key sent = Some (getAbsPath s path) /\
               CompleteMultipartUploadInput.UploadId sent = Some id /\
               forall cout b',
                 S3.CompleteMultipartUpload (Storage.service s) sent (World.backend w) =
                   (inr cout, b') ->
                 exists o',
                   fst (completeMultipart s o parts opt w) = Normal (None, o') /\
                   Object.Mode o' = ModeRead /\
                   Object.ID o' = getAbsPath s path))).
Proof.
  split.
  - intros Hhas Hlen. unfold createMultipart, formatCreateMultipartUploadInput.
    rewrite Hhas, calculateEncryptionHeaders_invalid by exact Hlen. reflexivity.
  - intros Hkey.
    assert (Hfmt : exists input,
              formatCreateMultipartUploadInput s path copt = inr input /\
              CreateMultipartUploadInput.Key input = Some (getAbsPath s path)).
    { unfold formatCreateMultipartUploadInput.
      destruct (pairStorageCreateMultipart.HasServerSideEncryptionCustomerAlgorithm copt).
      - destruct Hkey as [Hkey | Hkey]; [discriminate |].
        rewrite calculateEncryptionHeaders_valid by exact Hkey.
        eexists. split; reflexivity.
      - eexists. split; reflexivity. }
    destruct Hfmt as (input & Hfmt & Hk).
    exists input. split; [exact Hfmt |]. split; [exact Hk |].
    unfold createMultipart. rewrite Hfmt. unfold bind2, invokeMore.
    destruct (S3More.CreateMultipartUpload more input (Session.backend ss))
      as [[err | out] b] eqn:Hcall.
    + split; [reflexivity |]. split.
      * intros err' b' H. inversion H. reflexivity.
      * intros out b' H. discriminate.
    + split; [reflexivity |]. split; [intros err b' H; discriminate |].
      intros out' b' H. inversion H. subst out' b'. clear H.
      eexists. split; [reflexivity |].
      split; [reflexivity |]. split; [reflexivity |]. split; [reflexivity |].
      split; [reflexivity |]. split.
      * intros r size i wopt w Hi Hsize Hwkey.
        match goal with
        | |- context [writeMultipart s ?o _ _ _ _ _] =>
            destruct (@writeMultipart_sends W s o r size i wopt w _ Hi Hsize eq_refl Hwkey)
              as (sent & _ & Hu & Hsk & Hrun)
        end.
        exists sent. rewrite Hrun. split.
        { destruct (S3.UploadPart _ _ _) as [res b']. reflexivity. }
        split; [exact Hsk | exact Hu].
      * intros parts opt w.
        match goal with
        | |- context [formatCompleteMultipartUploadInput s ?o _ _] =>
            destruct (@formatCompleteMultipartUploadInput_parts W s o parts opt _ eq_refl)
              as (sent & Hcfmt & _ & Hu & Hsk)
        end.
        exists sent. split; [exact Hcfmt |]. split; [exact Hsk |]. split; [exact Hu |].
        intros cout b' Hc. unfold completeMultipart, bind, lift, invoke.
        rewrite Hcfmt, Hc. eexists. split; [reflexivity |]. split; reflexivity.
Qed.

End UploadSession.

Lemma multipart_upload_session_witness :
  exists o sent o',
    fst (createMultipart acceptingStorage linking "big" plainCreateMultipart startSession)
      = Normal (inr o) /\
    Object.multipartID o = Some "upload-1" /\
    formatCompleteMultipartUploadInput acceptingStorage o outOfOrder plainComplete =
      Normal sent /\
    CompleteMultipartUploadInput.UploadId sent = Some "upload-1" /\
    fst (completeMultipart acceptingStorage o outOfOrder plainComplete startWorld) =
      Normal (None, o') /\
    Object.Mode o' = ModeRead.
Proof.
  destruct (multipart_upload_session acceptingStorage linking "big" plainCreateMultipart
              startSession) as [_ H].
  destruct H as (input & Hfmt & _ & _ & _ & H); [left; reflexivity |].
  assert (E : input =
              CreateMultipartUploadInput.mk (Some "bucket") (Some "work/big") None None
                None None None None None None).
  { vm_compute in Hfmt. inversion Hfmt. reflexivity. }
  subst input.
  destruct (H (CreateMultipartUploadOutput.mk (Some "upload-1") None None None None None
                 None) tt eq_refl)
    as (o & Hres & _ & _ & _ & Hid & _ & Hcomplete).
  destruct (Hcomplete outOfOrder plainComplete startWorld)
    as (sent & Hcfmt & _ & Hu & Hdone).
  assert (Hcall : S3.CompleteMultipartUpload (Storage.service acceptingStorage) sent
                    (World.backend startWorld) =
                  (inr (CompleteMultipartUploadOutput.mk (Some "etag-all")), tt))
    by reflexivity.
  destruct (Hdone _ _ Hcall) as (o' & Hfin & Hmode & _).
  exists o, sent, o'.
  split; [exact Hres |]. split; [exact Hid |]. split; [exact Hcfmt |].
  split; [exact Hu |]. split; [exact Hfin | exact Hmode].
Defined.

(** ** Initialisation *)

Section InitProperties.
Variables W Pair HTTPClientOptions HTTPClient EndpointT CredentialT Credentials
          Session DefaultServicePairs ServiceFeatures : Type.
Variable Type_ : string.
Variable parsePairServiceNew :
  list Pair -> error + pairServiceNew.t HTTPClientOptions DefaultServicePairs ServiceFeatures.
Variable parsePairStorageNew : list Pair -> error + pairStorageNew.t.
Variable httpclient_New : HTTPClientOptions -> HTTPClient.
Variable endpoint_Parse : string -> error + EndpointT.
Variable Endpoint_Protocol : EndpointT -> string.
Variables Endpoint_HTTP Endpoint_HTTPS : EndpointT -> string.
Variables ProtocolHTTP ProtocolHTTPS : string.
Variable credential_Parse : string -> error + CredentialT.
Variable Credential_Protocol : CredentialT -> string.
Variable Credential_Hmac : CredentialT -> string * string.
Variables ProtocolHmac ProtocolEnv : string.
Variable NewStaticCredentials : string -> string -> string -> Credentials.
Variable NewEnvCredentials : Credentials.
Variable session_NewSession : Config.t HTTPClient Credentials -> error + Session.
Variable newS3Service : Session -> option string -> S3.t W.

Local Abbreviation config :=
  (servicerConfig (DefaultServicePairs := DefaultServicePairs)
     (ServiceFeatures := ServiceFeatures) httpclient_New endpoint_Parse
     Endpoint_Protocol Endpoint_HTTP Endpoint_HTTPS ProtocolHTTP ProtocolHTTPS
     credential_Parse Credential_Protocol Credential_Hmac ProtocolHmac ProtocolEnv
     NewStaticCredentials NewEnvCredentials).

Local Abbreviation servicer :=
  (newServicer (W := W) Type_ parsePairServiceNew httpclient_New endpoint_Parse
     Endpoint_Protocol Endpoint_HTTP Endpoint_HTTPS ProtocolHTTP ProtocolHTTPS
     credential_Parse Credential_Protocol Credential_Hmac ProtocolHmac ProtocolEnv
     NewStaticCredentials NewEnvCredentials session_NewSession newS3Service).

(** The session of a service is made from a configuration in which the
    content-MD5 validation is disabled and header maps are lower-cased,
    whatever the options.  The accelerate switch of the SDK is never set: the
    option [UseAccelerate], when present, is written to the
    100-continue switch instead, over the option [Disable100Continue]. *)
Theorem newServicer_configuration (pairs : list Pair)
    (opt : pairServiceNew.t HTTPClientOptions DefaultServicePairs ServiceFeatures)
    (cfg : Config.t HTTPClient Credentials) :
  parsePairServiceNew pairs = inr opt ->
  config opt = inr cfg ->
  Config.S3DisableContentMD5Validation cfg = Some true /\
  Config.LowerCaseHeaderMaps cfg = Some true /\
  Config.S3UseAccelerate cfg = None /\
  (pairServiceNew.HasUseAccelerate opt = true ->
   Config.S3Disable100Continue cfg = Some (pairServiceNew.UseAccelerate opt)) /\
  (pairServiceNew.HasUseAccelerate opt = false ->
   Config.S3Disable100Continue cfg =
     if pairServiceNew.HasDisable100Continue opt
     then Some (pairServiceNew.Disable100Continue opt) else None) /\
  (pairServiceNew.HasEndpoint opt = false -> Config.Endpoint cfg = None) /\
  match session_NewSession cfg with
  | inl err =>
      servicer pairs = inl (InitError.mk "new_servicer" Type_ (formatError err) pairs)
  | inr sess =>
      exists srv,
        servicer pairs = inr srv /\ Service.sess srv = sess /\
        Service.service srv = newS3Service sess None
  end.
Proof.
  intros Hparse Hcfg. unfold newServicer.
  rewrite Hparse, Hcfg. unfold servicerConfig in Hcfg.
  assert (Hshape : exists url credentials,
            cfg = Config.mk
                    (Some (httpclient_New (pairServiceNew.HTTPClientOptions_ opt)))
                    (Some true) (Some true) url
                    (if pairServiceNew.HasForcePathStyle opt
                     then Some (pairServiceNew.ForcePathStyle opt) else None)
                    (if pairServiceNew.HasUseAccelerate opt
                     then Some (pairServiceNew.UseAccelerate opt)
                     else if pairServiceNew.HasDisable100Continue opt
                     then Some (pairServiceNew.Disable100Continue opt)
                     else None)
                    None
                    (if pairServiceNew.HasUseArnRegion opt
                     then Some (pairServiceNew.UseArnRegion opt) else None)
                    (Some credentials) /\
            (pairServiceNew.HasEndpoint opt = false -> url = None)).
  { destruct (pairServiceNew.HasEndpoint opt).
    - destruct (endpoint_Parse _) as [e | ep]; [discriminate |].
      destruct (Endpoint_Protocol ep =? ProtocolHTTP)%string;
        [| destruct (Endpoint_Protocol ep =? ProtocolHTTPS)%string; [| discriminate]];
        (destruct (credential_Parse _) as [e | cp]; [discriminate |]);
        (destruct (Credential_Protocol cp =? ProtocolHmac)%string;
         [destruct (Credential_Hmac cp) as [ak sk]
         | destruct (Credential_Protocol cp =? ProtocolEnv)%string; [| discriminate]]);
        inversion Hcfg; eexists; eexists; (split; [reflexivity | discriminate]).
    - destruct (credential_Parse _) as [e | cp]; [discriminate |].
      destruct (Credential_Protocol cp =? ProtocolHmac)%string;
        [destruct (Credential_Hmac cp) as [ak sk]
        | destruct (Credential_Protocol cp =? ProtocolEnv)%string; [| discriminate]];
        inversion Hcfg; eexists; eexists; (split; [reflexivity | reflexivity]). }
  destruct Hshape as (url & credentials & -> & Hurl).
  cbn [Config.S3DisableContentMD5Validation Config.LowerCaseHeaderMaps
       Config.S3UseAccelerate Config.S3Disable100Continue Config.Endpoint].
  split; [reflexivity |]. split; [reflexivity |]. split; [reflexivity |].
  split; [intros ->; reflexivity |]. split; [intros ->; reflexivity |].
  split; [exact Hurl |].
  destruct (session_NewSession _) as [err | sess]; [reflexivity |].
  eexists. split; [reflexivity |]. split; reflexivity.
Qed.

(** Every failure of [newServicer] is an [InitError] of the operation
    ["new_servicer"] that carries the pairs and a classified cause: an error
    of the framework, or one wrapped under a kind of the taxonomy.  An
    endpoint whose protocol is neither HTTP nor HTTPS is refused with the
    unsupported-pair error, whatever the credential and the session maker
    would do. *)
Theorem newServicer_failures (pairs : list Pair) :
  (forall failure,
     servicer pairs = inl failure ->
     InitError.Op failure = "new_servicer" /\
     InitError.Pairs failure = pairs /\
     (IsInternalError (InitError.Err failure) = true \/
      exists kind cause,
        In kind taxonomy /\ InitError.Err failure = ErrorfWV kind cause)) /\
  (forall opt ep,
     parsePairServiceNew pairs = inr opt ->
     pairServiceNew.HasEndpoint opt = true ->
     endpoint_Parse (pairServiceNew.Endpoint opt) = inr ep ->
     Endpoint_Protocol ep <> ProtocolHTTP ->
     Endpoint_Protocol ep <> ProtocolHTTPS ->
     servicer pairs =
       inl (InitError.mk "new_servicer" Type_ (PairUnsupportedError "endpoint") pairs)).
Proof.
  assert (Hformatted : forall err,
            IsInternalError (formatError err) = true \/
            exists kind cause, In kind taxonomy /\ formatError err = ErrorfWV kind cause).
  { intros err. unfold formatError.
    destruct (IsInternalError err) eqn:Hint; [left; exact Hint | right].
    destruct err; try (exists ErrUnexpected; eexists; split;
                       [right; right; left; reflexivity | reflexivity]).
    destruct (code =? "NoSuchKey")%string; [| destruct (code =? "NotFound")%string];
      cbn [orb];
      try (exists ErrObjectNotExist; eexists; split; [left; reflexivity | reflexivity]).
    destruct (code =? "AccessDenied")%string.
    - exists ErrPermissionDenied. eexists. split; [right; left; reflexivity | reflexivity].
    - exists ErrUnexpected. eexists.
      split; [right; right; left; reflexivity | reflexivity]. }
  split.
  - intros failure. unfold newServicer.
    destruct (parsePairServiceNew pairs) as [e | opt].
    + intros H. inversion H. cbn. repeat split. apply Hformatted.
    + destruct (servicerConfig _ _ _ _ _ _ _ _ _ _ _ _ _ _ opt) as [e | cfg].
      * intros H. inversion H. cbn. repeat split. apply Hformatted.
      * destruct (session_NewSession cfg) as [e | sess]; [| discriminate].
        intros H. inversion H. cbn. repeat split. apply Hformatted.
  - intros opt ep Hparse Hhas Hep Hhttp Hhttps. unfold newServicer, servicerConfig.
    rewrite Hparse, Hhas, Hep.
    apply String.eqb_neq in Hhttp, Hhttps. rewrite Hhttp, Hhttps. reflexivity.
Qed.

(** A storage made with no working directory has the root as working
    directory: the key of a path is the path itself, and back.  With a
    working directory, the key is the path behind that directory without its
    leading slash.  A failure of [newStorage] reaches the caller of
    [newServicerAndStorager] as an [InitError] of the operation
    ["new_storager"], together with the service. *)
Theorem newStorage_working_directory
    (srv : Service.t W Session DefaultServicePairs ServiceFeatures)
    (pairs : list Pair) :
  (forall opt,
     parsePairStorageNew pairs = inr opt ->
     exists store,
       newStorage parsePairStorageNew newS3Service srv pairs = inr store /\
       Storage.name store = pairStorageNew.Name opt /\
       (pairStorageNew.HasWorkDir opt = false ->
        Storage.workDir store = "/" /\
        forall path, getAbsPath store path = path /\ getRelPath store path = path) /\
       (pairStorageNew.HasWorkDir opt = true ->
        forall path,
          getAbsPath store path =
            (TrimPrefix (pairStorageNew.WorkDir opt) "/" ++ path)%string /\
          getRelPath store (getAbsPath store path) = path)) /\
  (forall err,
     parsePairStorageNew pairs = inl err ->
     servicer pairs = inr srv ->
     newServicerAndStorager (W := W) Type_ parsePairServiceNew parsePairStorageNew
       httpclient_New endpoint_Parse Endpoint_Protocol Endpoint_HTTP Endpoint_HTTPS
       ProtocolHTTP ProtocolHTTPS credential_Parse Credential_Protocol Credential_Hmac
       ProtocolHmac ProtocolEnv NewStaticCredentials NewEnvCredentials
       session_NewSession newS3Service pairs =
       (Some srv, None,
        Some (InitError.mk "new_storager" Type_ (formatError err) pairs))).
Proof.
  split.
  - intros opt Hparse. unfold newStorage. rewrite Hparse.
    eexists. split; [reflexivity |]. split; [reflexivity |]. split.
    + intros Hno. unfold getAbsPath, getRelPath. cbn [Storage.workDir]. rewrite Hno.
      split; [reflexivity |]. intros path. split; [reflexivity |].
      destruct path; reflexivity.
    + intros Hhas path. unfold getAbsPath. cbn [Storage.workDir]. rewrite Hhas.
      split; [reflexivity |].
      match goal with |- getRelPath ?st _ = _ => apply (getRelPath_strips st) end.
      reflexivity.
  - intros err Hparse Hsrv. unfold newServicerAndStorager.
    rewrite Hsrv. unfold newStorage. rewrite Hparse. reflexivity.
Qed.

End InitProperties.

Lemma newServicer_configuration_witness :
  exists cfg,
    sampleConfig (sampleServiceOptions "https:host" true) = inr cfg /\
    Config.S3UseAccelerate cfg = None /\
    Config.S3Disable100Continue cfg = Some true /\
    exists srv,
      sampleServicer (sampleServiceOptions "https:host" true) samplePairs = inr srv /\
      Service.sess srv = Some "https:host".
Proof.
  eexists. split; [reflexivity |].
  match goal with
  | |- Config.S3UseAccelerate ?made = _ /\ _ =>
      pose proof
        (@newServicer_configuration unit (string * string) unit unit string string
           string (option string) unit unit "s3"
           (fun _ => inr (sampleServiceOptions "https:host" true))
           (fun _ => tt) (fun e => inr e) protocolOf (fun e => e) (fun e => e)
           "http" "https" (fun c => inr c) (fun _ => "hmac")
           (fun _ => ("key", "secret")) "hmac" "env"
           (fun ak sk _ => (ak ++ ":" ++ sk)%string) "env"
           (fun c => inr (Config.Endpoint c)) (fun _ _ => accepting)
           samplePairs (sampleServiceOptions "https:host" true) made
           eq_refl eq_refl) as H
  end.
  destruct H as (_ & _ & Haccelerate & Hcontinue & _ & _ & srv & Hsrv & Hsess & _).
  split; [exact Haccelerate |]. split; [exact (Hcontinue eq_refl) |].
  exists srv. split; [exact Hsrv | exact Hsess].
Defined.

Lemma newServicer_failures_witness :
  sampleServicer (sampleServiceOptions "ftp:host" false) samplePairs =
    inl (InitError.mk "new_servicer" "s3" (PairUnsupportedError "endpoint") samplePairs) /\
  forall failure,
    sampleServicer (sampleServiceOptions "ftp:host" false) samplePairs = inl failure ->
    InitError.Op failure = "new_servicer".
Proof.
  destruct
    (@newServicer_failures unit (string * string) unit unit string string
       string (option string) unit unit "s3"
       (fun _ => inr (sampleServiceOptions "ftp:host" false))
       (fun _ => tt) (fun e => inr e) protocolOf (fun e => e) (fun e => e)
       "http" "https" (fun c => inr c) (fun _ => "hmac")
       (fun _ => ("key", "secret")) "hmac" "env"
       (fun ak sk _ => (ak ++ ":" ++ sk)%string) "env"
       (fun c => inr (Config.Endpoint c)) (fun _ _ => accepting)
       samplePairs) as [Hfailure Hendpoint].
  split.
  - apply (Hendpoint (sampleServiceOptions "ftp:host" false) "ftp:host");
      [reflexivity | reflexivity | reflexivity | discriminate | discriminate].
  - intros failure H. exact (proj1 (Hfailure failure H)).
Defined.

Lemma newStorage_working_directory_witness :
  exists store,
    newStorage (fun _ : list (string * string) => inr sampleStorageOptions)
      (fun _ _ => accepting) sampleService samplePairs = inr store /\
    Storage.name store = "bucket" /\
    getAbsPath store "a/b" = "a/b" /\ getRelPath store "a/b" = "a/b".
Proof.
  destruct
    (@newStorage_working_directory unit (string * string) unit unit string string
       string (option string) unit unit "s3"
       (fun _ => inr (sampleServiceOptions "https:host" true))
       (fun _ => inr sampleStorageOptions)
       (fun _ => tt) (fun e => inr e) protocolOf (fun e => e) (fun e => e)
       "http" "https" (fun c => inr c) (fun _ => "hmac")
       (fun _ => ("key", "secret")) "hmac" "env"
       (fun ak sk _ => (ak ++ ":" ++ sk)%string) "env"
       (fun c => inr (Config.Endpoint c)) (fun _ _ => accepting)
       sampleService samplePairs) as [Hmade _].
  destruct (Hmade sampleStorageOptions eq_refl) as (store & Hstore & Hname & Hroot & _).
  exists store. split; [exact Hstore |]. split; [exact Hname |].
  exact (proj2 (Hroot eq_refl) "a/b").
Defined.

(** ** Directories and links: [createDir], [createLink] *)

Section DirAndLinkProperties.
Variable W : Type.
Variable s : Storage.t W.
Variable more : S3More.t W.

(** [createDir] calls nothing when directories are not emulated and returns
    the not-implemented error of ["create_dir"].  When they are, it makes one
    [PutObject] call, with no body, content length 0, no metadata, and the
    absolute key of the path followed by a slash as key; it returns the
    backend's error, or else an object in [ModeDir] alone whose ID is that
    key.  It is the key on which [stat] and [delete] of the path as a
    directory act. *)
Theorem createDir_makes_the_directory_key (path : string)
    (opt : pairStorageCreateDir.t) (ss : Session.t W) :
  (StorageFeatures.VirtualDir (Storage.features s) = false ->
   createDir s more path opt ss =
     (Normal (inl (NewOperationNotImplementedError "create_dir")), ss)) /\
  (StorageFeatures.VirtualDir (Storage.features s) = true ->
   exists input,
     PutObjectInput.Bucket (PutObjectInputWithMetadata.Input input)
       = Some (Storage.name s) /\
     PutObjectInput.Key (PutObjectInputWithMetadata.Input input)
       = Some (getAbsPath s path ++ "/")%string /\
     PutObjectInput.ContentLength (PutObjectInputWithMetadata.Input input) = Some 0 /\
     PutObjectInput.Body (PutObjectInputWithMetadata.Input input) = None /\
     PutObjectInputWithMetadata.Metadata input = [] /\
     Session.calls (snd (createDir s more path opt ss)) =
       Session.calls ss ++ [inr (CallPutObjectWithMetadata input)] /\
     (forall err b,
        S3More.PutObject more input (Session.backend ss) = (inl err, b) ->
        fst (createDir s more path opt ss) = Normal (inl (PutObjectError err))) /\
     (forall output b,
        S3More.PutObject more input (Session.backend ss) = (inr output, b) ->
        exists o,
          fst (createDir s more path opt ss) = Normal (inr o) /\
          Object.Mode o = ModeDir /\
          Object.ID o = (getAbsPath s path ++ "/")%string /\
          Object.Path o = path /\
          getRelPath s (Object.ID o) = (path ++ "/")%string /\
          Object.etag o = Some (StringValue (PutObjectOutputWithEncryption.ETag output)) /\
          (forall dopt,
             pairStorageDelete.HasObjectMode dopt = true ->
             Mode_IsDir (pairStorageDelete.ObjectMode dopt) = true ->
             exists sent,
               formatDeleteObjectInput s path dopt = inr sent /\
               DeleteObjectInput.Key sent = Some (Object.ID o)) /\
          (forall sopt ss',
             pairStorageStat.HasMultipartID sopt = false ->
             pairStorageStat.HasObjectMode sopt = true ->
             Mode_IsDir (pairStorageStat.ObjectMode sopt) = true ->
             pairStorageStat.HasServerSideEncryptionCustomerAlgorithm sopt = false ->
             exists sent,
               Session.calls (snd (stat s more path sopt ss')) =
                 Session.calls ss' ++ [inr (CallHeadObject sent)] /\
               HeadObjectInput.Key sent = Some (Object.ID o)))).
Proof.
  split.
  - intros Hno. unfold createDir. rewrite Hno. reflexivity.
  - intros Hdir. unfold createDir. rewrite Hdir. cbn [negb].
    match goal with |- context [invokeMore _ _ ?x] => exists x end.
    do 5 (split; [reflexivity |]).
    unfold bind2, invokeMore.
    destruct (S3More.PutObject more _ (Session.backend ss)) as [[err | output] b] eqn:Hcall.
    + split; [reflexivity |]. split.
      * intros err' b' H. inversion H. reflexivity.
      * intros output b' H. discriminate.
    + split; [reflexivity |]. split; [intros err b' H; discriminate |].
      intros output' b' H. inversion H. subst output' b'. clear H.
      eexists. split; [reflexivity |].
      cbn [Object.Mode Object.ID Object.Path Object.etag Object.SetSystemMetadata
           Object.SetEtag Object.SetPath Object.SetID Object.SetMode newObject].
      split; [reflexivity |]. split; [reflexivity |]. split; [reflexivity |].
      split; [apply getRelPath_strips; unfold getAbsPath; apply string_app_assoc |].
      split; [reflexivity |]. split.
      * intros dopt Hmode Hisdir. unfold formatDeleteObjectInput.
        rewrite Hmode, Hisdir, Hdir. cbn [andb negb].
        eexists. split; reflexivity.
      * intros sopt ss' Hid Hmode Hisdir Hsse. unfold stat.
        rewrite Hid, Hmode, Hisdir, Hdir, Hsse. cbn [andb negb].
        match goal with |- context [invokeMore _ _ ?x] => exists x end.
        split; [| reflexivity].
        unfold bind2, invokeMore.
        destruct (S3More.HeadObject more _ (Session.backend ss')) as [[e | head] b'];
          [reflexivity |].
        destruct (lookupMetadata _ _) as [[t |] |];
          destruct (StorageFeatures.VirtualLink (Storage.features s)); reflexivity.
Qed.

(** [createLink] makes one [PutObject] call whatever the features: on the
    absolute key of the path, with no body, and with the absolute key of the
    target as the one metadata entry, under the link-target name.  It returns
    the backend's error, or else an object that is a link to the target (with
    its leading slash put back) when links are emulated and a plain readable
    object when not.  [stat] reads the same entry back: when the backend
    answers the head request of that key with the metadata that was sent,
    [stat] of the path returns the mode and link target that [createLink]
    returned. *)
Theorem createLink_then_stat (path target : string) (opt : pairStorageCreateLink.t)
    (ss : Session.t W) :
  let link := StorageFeatures.VirtualLink (Storage.features s) in
  exists input,
    PutObjectInput.Bucket (PutObjectInputWithMetadata.Input input)
      = Some (Storage.name s) /\
    PutObjectInput.Key (PutObjectInputWithMetadata.Input input)
      = Some (getAbsPath s path) /\
    PutObjectInput.Body (PutObjectInputWithMetadata.Input input) = None /\
    PutObjectInputWithMetadata.Metadata input =
      [(metadataLinkTargetHeader, Some (getAbsPath s target))] /\
    Session.calls (snd (createLink s more path target opt ss)) =
      Session.calls ss ++ [inr (CallPutObjectWithMetadata input)] /\
    (forall err b,
       S3More.PutObject more input (Session.backend ss) = (inl err, b) ->
       fst (createLink s more path target opt ss) = Normal (inl err)) /\
    (forall output b,
       S3More.PutObject more input (Session.backend ss) = (inr output, b) ->
       exists o,
         fst (createLink s more path target opt ss) = Normal (inr o) /\
         Object.ID (StatObject.Object o) = getAbsPath s path /\
         Object.Path (StatObject.Object o) = path /\
         Object.Mode (StatObject.Object o) = (if link then ModeLink else ModeRead) /\
         StatObject.LinkTarget o =
           (if link then Some ("/" ++ getAbsPath s target)%string else None) /\
         forall sopt ss' head b',
           pairStorageStat.HasMultipartID sopt = false ->
           pairStorageStat.HasObjectMode sopt = false ->
           pairStorageStat.HasServerSideEncryptionCustomerAlgorithm sopt = false ->
           (forall sent,
              HeadObjectInput.Key sent = Some (getAbsPath s path) ->
              S3More.HeadObject more sent (Session.backend ss') = (inr head, b')) ->
           HeadObjectOutput.Metadata head = PutObjectInputWithMetadata.Metadata input ->
           exists o',
             fst (stat s more path sopt ss') = Normal (inr o') /\
             Object.ID (StatObject.Object o') = Object.ID (StatObject.Object o) /\
             Object.Path (StatObject.Object o') = Object.Path (StatObject.Object o) /\
             Object.Mode (StatObject.Object o') = Object.Mode (StatObject.Object o) /\
             StatObject.LinkTarget o' = StatObject.LinkTarget o).
Proof.
  intros link. subst link. unfold createLink.
  match goal with |- context [invokeMore _ _ ?x] => exists x end.
  do 4 (split; [reflexivity |]).
  unfold bind2, invokeMore.
  destruct (S3More.PutObject more _ (Session.backend ss)) as [[err | output] b] eqn:Hcall.
  - split; [reflexivity |]. split.
    + intros err' b' H. inversion H. reflexivity.
    + intros output b' H. discriminate.
  - split.
    { destruct (StorageFeatures.VirtualLink (Storage.features s)); reflexivity. }
    split; [intros err b' H; discriminate |].
    intros output' b' H. inversion H. subst output' b'. clear H.
    assert (Hstat : forall sopt ss' head b',
              pairStorageStat.HasMultipartID sopt = false ->
              pairStorageStat.HasObjectMode sopt = false ->
              pairStorageStat.HasServerSideEncryptionCustomerAlgorithm sopt = false ->
              (forall sent,
                 HeadObjectInput.Key sent = Some (getAbsPath s path) ->
                 S3More.HeadObject more sent (Session.backend ss') = (inr head, b')) ->
              HeadObjectOutput.Metadata head =
                [(metadataLinkTargetHeader, Some (getAbsPath s target))] ->
              exists o',
                fst (stat s more path sopt ss') = Normal (inr o') /\
                Object.ID (StatObject.Object o') = getAbsPath s path /\
                Object.Path (StatObject.Object o') = path /\
                Object.Mode (StatObject.Object o') =
                  (if StorageFeatures.VirtualLink (Storage.features s)
                   then ModeLink else ModeRead) /\
                StatObject.LinkTarget o' =
                  (if StorageFeatures.VirtualLink (Storage.features s)
                   then Some ("/" ++ getAbsPath s target)%string else None)).
    { intros sopt ss' head b' Hid Hmode Hsse Hhead Hmeta. unfold stat.
      rewrite Hid, Hmode, Hsse. cbn [andb negb]. unfold bind2, invokeMore.
      rewrite Hhead by reflexivity. rewrite Hmeta.
      cbn [lookupMetadata]. rewrite String.eqb_refl.
      destruct (StorageFeatures.VirtualLink (Storage.features s));
        cbn [negb]; eexists; (split; [reflexivity |]);
        destruct (HeadObjectOutput.ETag head); repeat split. }
    destruct (StorageFeatures.VirtualLink (Storage.features s)) eqn:Hlink;
      cbn [negb]; eexists; (split; [reflexivity |]);
      cbn [StatObject.Object StatObject.LinkTarget Object.ID Object.Path Object.Mode
           Object.SetSystemMetadata Object.SetMode Object.SetPath Object.SetID
           newObject PutObjectInputWithMetadata.Metadata];
      (split; [reflexivity |]); (split; [reflexivity |]); (split; [reflexivity |]);
      (split; [reflexivity |]); exact Hstat.
Qed.

End DirAndLinkProperties.

Lemma createDir_makes_the_directory_key_witness :
  exists o,
    fst (createDir linkStorage linking "dir" plainCreateDir startSession)
      = Normal (inr o) /\
    Object.ID o = "work/dir/" /\
    Object.Mode o = ModeDir /\
    getRelPath linkStorage (Object.ID o) = "dir/".
Proof.
  destruct (createDir_makes_the_directory_key linkStorage linking "dir" plainCreateDir
              startSession) as [_ Hmade].
  destruct (Hmade eq_refl) as (input & _ & _ & _ & _ & _ & _ & _ & Hanswer).
  destruct (Hanswer _ _ eq_refl) as (o & Ho & Hmode & Hid & _ & Hrel & _).
  exists o. split; [exact Ho |]. split; [exact Hid |]. split; [exact Hmode | exact Hrel].
Defined.

Lemma createLink_then_stat_witness :
  exists o o',
    fst (createLink linkStorage linking "link" "target" plainCreateLink startSession)
      = Normal (inr o) /\
    StatObject.LinkTarget o = Some "/work/target" /\
    fst (stat linkStorage linking "link" plainStat startSession) = Normal (inr o') /\
    Object.Mode (StatObject.Object o') = Object.Mode (StatObject.Object o) /\
    StatObject.LinkTarget o' = StatObject.LinkTarget o.
Proof.
  destruct (createLink_then_stat linkStorage linking "link" "target" plainCreateLink
              startSession) as (input & _ & _ & _ & Hmeta & _ & _ & Hanswer).
  destruct (Hanswer _ _ eq_refl) as (o & Ho & _ & _ & _ & Htarget & Hstat).
  destruct (Hstat plainStat startSession linkOutput tt eq_refl eq_refl eq_refl
              (fun _ _ => eq_refl) (eq_sym Hmeta))
    as (o' & Ho' & _ & _ & Hmode' & Htarget').
  exists o, o'. split; [exact Ho |]. split; [exact Htarget |].
  split; [exact Ho' |]. split; [exact Hmode' | exact Htarget'].
Defined.

(** ** The limits that [metadata] reports *)

Section ReportedLimits.
Variable W : Type.
Variable s : Storage.t W.

(** [metadata] reports the storage's name and working directory and four
    limits.  The three maxima are the ones enforced: [write] refuses a size
    above the write maximum, and [writeMultipart] a size above the part
    maximum or an index that is negative or not below the number maximum,
    each with a restriction error and without a call.  The part minimum is
    reported only: a part within the maxima is sent with its size whatever
    that size is, also below the minimum. *)
Theorem reported_limits_and_enforced_limits (mopt : pairStorageMetadata.t) :
  StorageMeta.Name (metadata s mopt) = Storage.name s /\
  StorageMeta.WorkDir (metadata s mopt) = Storage.workDir s /\
  exists writeMax numberMax sizeMax sizeMin,
    StorageMeta.WriteSizeMaximum (metadata s mopt) = Some writeMax /\
    StorageMeta.MultipartNumberMaximum (metadata s mopt) = Some numberMax /\
    StorageMeta.MultipartSizeMaximum (metadata s mopt) = Some sizeMax /\
    StorageMeta.MultipartSizeMinimum (metadata s mopt) = Some sizeMin /\
    0 < sizeMin <= sizeMax /\
    (forall path r size opt (w : World.t W),
       size > writeMax ->
       exists err,
         write s path r size opt w = (Normal (0, Some err), w) /\
         errors_Is err ErrRestrictionDissatisfied = true) /\
    (forall o r size index opt (w : World.t W),
       size > sizeMax \/ index < 0 \/ index >= numberMax ->
       exists err,
         writeMultipart s o r size index opt w = (Normal (0, None, Some err), w) /\
         errors_Is err ErrRestrictionDissatisfied = true) /\
    (forall o r size index opt (w : World.t W) id,
       size <= sizeMax ->
       0 <= index < numberMax ->
       Object.multipartID o = Some id ->
       pairStorageWriteMultipart.HasServerSideEncryptionCustomerAlgorithm opt = false ->
       exists input,
         World.calls (snd (writeMultipart s o r size index opt w)) =
           World.calls w ++ [CallUploadPart input] /\
         UploadPartInput.ContentLength input = Some size).
Proof.
  split; [reflexivity |]. split; [reflexivity |].
  exists writeSizeMaximum, multipartNumberMaximum, multipartSizeMaximum,
    multipartSizeMinimum.
  do 4 (split; [reflexivity |]).
  split; [unfold multipartSizeMinimum, multipartSizeMaximum; lia |].
  split; [| split].
  - intros path r size opt w Hsize. eexists.
    split; [apply write_too_large; exact Hsize | reflexivity].
  - intros o r size index opt w Hbad.
    destruct (Z_le_gt_dec size multipartSizeMaximum) as [Hfits | Hlarge].
    + destruct Hbad as [Hlarge | Hindex]; [lia |].
      eexists. split; [apply writeMultipart_bad_index; assumption | reflexivity].
    + eexists. split; [apply writeMultipart_too_large; exact Hlarge | reflexivity].
  - intros o r size index opt w id Hsize Hindex Hid Hsse. unfold writeMultipart.
    destruct (size >? multipartSizeMaximum) eqn:E1; [lia |].
    destruct (index <? 0) eqn:E2; [lia |].
    destruct (index >=? multipartNumberMaximum) eqn:E3; [lia |].
    simpl. unfold bind at 1. unfold lift, MustGetMultipartID. rewrite Hid, Hsse.
    match goal with |- context [invoke _ _ ?x] => exists x end.
    split; [| reflexivity].
    unfold bind, invoke, ret.
    destruct (S3.UploadPart (Storage.service s) _ (World.backend w)) as [[e | out] b];
      reflexivity.
Qed.

End ReportedLimits.

Lemma reported_limits_and_enforced_limits_witness :
  StorageMeta.MultipartSizeMinimum (metadata acceptingStorage pairStorageMetadata.mk)
    = Some (5 * 1024 * 1024) /\
  exists input,
    World.calls (snd (writeMultipart acceptingStorage sampleUpload (BytesReader []) 1 0
                        plainWriteMultipart startWorld)) =
      World.calls startWorld ++ [CallUploadPart input] /\
    UploadPartInput.ContentLength input = Some 1.
Proof.
  destruct (reported_limits_and_enforced_limits acceptingStorage pairStorageMetadata.mk)
    as (_ & _ & writeMax & numberMax & sizeMax & sizeMin
        & _ & Hnumber & Hsize & Hmin & _ & _ & _ & Hsent).
  split; [reflexivity |].
  inversion Hnumber. inversion Hsize. subst numberMax sizeMax.
  apply (Hsent sampleUpload (BytesReader []) 1 0 plainWriteMultipart startWorld
           "upload-1"); [vm_compute; discriminate | vm_compute; split; [discriminate | reflexivity] | reflexivity | reflexivity].
Defined.
